(** * OKXDexService: payment-route resolution and sandbox swap arithmetic

    A shallow embedding of the class [OKXDexService]
    ([agenpay-backend/lib/OKXDexService.js]): its constructor,
    [generateAuthHeaders], [getSwapQuote], [executeSwap],
    [calculatePaymentRoute], [getTokenSymbol], [calculateMockSwapOutput] and
    [logSwapTransaction], and then [getSupportedChains], [getTokensForChain],
    [getSwapStatus], [getServiceStats] and [cleanup].

    - JavaScript numbers are IEEE-754 binary64 values; they are modelled with
      the Standard Library's executable specification [spec_float]
      (precision 53, maximal exponent 1024), so that overflow, underflow and
      rounding are those of the running program.  [parseFloat] and
      [Number.prototype.toString] are written out on top of it.  Facts
      about all amounts are proved through the exact rational value of a
      number: products, quotients and decimal literals are the nearest
      binary64 number, and [parseFloat] reads back what [toString] prints.
    - JavaScript strings are modelled as [string] (byte strings); the
      case mapping and the white space recognised are the ASCII ones, which
      is all that hexadecimal token addresses and decimal amounts need.
      The arguments of the methods are strings, as in the callers of the
      repository.
    - [async] methods are modelled sequentially in a small monad that threads
      the trace of console lines, HTTP requests and database writes, and
      carries JavaScript exceptions; the outside world (axios, prisma,
      crypto, the clock) is a record of oracles.  Console lines are recorded
      without the pictograph that prefixes them in the source. *)

From Stdlib Require Import ZArith QArith Qpower Lqa String Ascii List Bool Lia.
From Stdlib Require Import Floats.SpecFloat.
Import ListNotations.

Local Open Scope string_scope.
Local Open Scope Z_scope.

(* ===================================================================== *)
(** ** Characters and strings *)
(* ===================================================================== *)

Module Chars.

Definition code (c : ascii) : Z := Z.of_N (N_of_ascii c).

Definition is_digit (c : ascii) : bool :=
  (48 <=? code c) && (code c <=? 57).

Definition digit_value (c : ascii) : Z := code c - 48.

Definition digit_char (d : Z) : ascii := ascii_of_N (Z.to_N (48 + d)).

Definition is_upper (c : ascii) : bool :=
  (65 <=? code c) && (code c <=? 90).

Definition lower (c : ascii) : ascii :=
  if is_upper c then ascii_of_N (Z.to_N (code c + 32)) else c.

(** ASCII members of ECMAScript's [WhiteSpace] and [LineTerminator]:
    TAB, LF, VT, FF, CR and SPACE. *)
Definition is_space (c : ascii) : bool :=
  ((9 <=? code c) && (code c <=? 13)) || (code c =? 32).

Definition is_alnum (c : ascii) : bool :=
  is_digit c || is_upper c || ((97 <=? code c) && (code c <=? 122)).

End Chars.

(** [String.prototype.toLowerCase], on ASCII letters. *)
Fixpoint toLowerCase (s : string) : string :=
  match s with
  | EmptyString => EmptyString
  | String c r => String (Chars.lower c) (toLowerCase r)
  end.

Fixpoint repeat_char (c : ascii) (n : nat) : string :=
  match n with
  | O => EmptyString
  | S k => String c (repeat_char c k)
  end.

Fixpoint take (n : nat) (s : string) : string :=
  match n, s with
  | S k, String c r => String c (take k r)
  | _, _ => EmptyString
  end.

Fixpoint drop (n : nat) (s : string) : string :=
  match n, s with
  | S k, String _ r => drop k r
  | _, _ => s
  end.

(** Longest prefix of decimal digits, and what follows it. *)
Fixpoint span_digits (s : string) : string * string :=
  match s with
  | String c r =>
      if Chars.is_digit c
      then let '(ds, rest) := span_digits r in (String c ds, rest)
      else (EmptyString, s)
  | EmptyString => (EmptyString, EmptyString)
  end.

Fixpoint skip_spaces (s : string) : string :=
  match s with
  | String c r => if Chars.is_space c then skip_spaces r else s
  | EmptyString => EmptyString
  end.

(** Value of a string of decimal digits, most significant first. *)
Fixpoint digits_value_from (acc : Z) (s : string) : Z :=
  match s with
  | EmptyString => acc
  | String c r => digits_value_from (10 * acc + Chars.digit_value c) r
  end.

Definition digits_value (s : string) : Z := digits_value_from 0 s.

(** Decimal digits of a non-negative integer; [fuel] bounds the number of
    digits produced. *)
Fixpoint digits_of_fuel (fuel : nat) (z : Z) (acc : string) : string :=
  match fuel with
  | O => String (Chars.digit_char (z mod 10)) acc
  | S f =>
      if z <? 10 then String (Chars.digit_char (z mod 10)) acc
      else digits_of_fuel f (z / 10) (String (Chars.digit_char (z mod 10)) acc)
  end.

Definition digits_of (z : Z) : string :=
  digits_of_fuel (Z.to_nat (Z.log2 z)) z EmptyString.

Definition starts_with_digit (s : string) : bool :=
  match s with
  | String c _ => Chars.is_digit c
  | EmptyString => false
  end.

(* ===================================================================== *)
(** ** JavaScript numbers *)
(* ===================================================================== *)

Module Number.

Definition prec : Z := 53.
Definition emax : Z := 1024.

Definition t : Type := spec_float.

Definition NaN : t := S754_nan.
Definition mul : t -> t -> t := SFmul prec emax.
Definition div : t -> t -> t := SFdiv prec emax.

Definition eqb (x y : t) : bool :=
  match x, y with
  | S754_zero a, S754_zero b => Bool.eqb a b
  | S754_infinity a, S754_infinity b => Bool.eqb a b
  | S754_nan, S754_nan => true
  | S754_finite a m e, S754_finite b n f =>
      Bool.eqb a b && Pos.eqb m n && Z.eqb e f
  | _, _ => false
  end.





Definition of_Z (z : Z) : t := binary_normalize prec emax z 0 false.

(** Number of decimal digits of a positive integer. *)
Fixpoint digits10_fuel (fuel : nat) (z : Z) : Z :=
  match fuel with
  | O => 1
  | S f => if z <? 10 then 1 else 1 + digits10_fuel f (z / 10)
  end.

Definition digits10 (z : Z) : Z := digits10_fuel (Z.to_nat (Z.log2 z)) z.

(** The binary64 value nearest to [(-1)^neg * d * 10^e] (ties to even):
    the rounding that ECMAScript prescribes for numeric literals and for
    [parseFloat].  Magnitudes of at least [10^309] round to infinity and
    magnitudes below [10^-324] round to zero, whatever their digits; in
    between, the rounding is the one of [binary_round] (an integer) or of
    the correctly rounded division [SFdiv] (a decimal fraction). *)
Definition of_decimal (neg : bool) (d e : Z) : t :=
  if d <=? 0 then S754_zero neg
  else
    let nd := digits10 d in
    if 309 <=? nd + e - 1 then S754_infinity neg
    else if nd + e <=? -324 then S754_zero neg
    else if 0 <=? e then binary_round prec emax neg (Z.to_pos (d * 10 ^ e)) 0
    else SFdiv prec emax (S754_finite neg (Z.to_pos d) 0)
                         (S754_finite false (Z.to_pos (10 ^ (- e))) 0).

(** *** [parseFloat] *)

Definition starts_with_Infinity (s : string) : bool :=
  String.eqb (take 8 s) "Infinity".

Definition parse_sign (s : string) : bool * string :=
  match s with
  | String "+" r => (false, r)
  | String "-" r => (true, r)
  | _ => (false, s)
  end.

(** The exponent part [e[+-]digits]; it belongs to the literal only when
    at least one digit follows. *)
Definition parse_exponent (s : string) : Z :=
  match s with
  | String c r =>
      if (Ascii.eqb c "e" || Ascii.eqb c "E")%bool then
        let '(eneg, r') := parse_sign r in
        let '(ds, _) := span_digits r' in
        match ds with
        | EmptyString => 0
        | _ => if eneg then - digits_value ds else digits_value ds
        end
      else 0
  | EmptyString => 0
  end.

(** The unsigned part of a [StrDecimalLiteral] prefix: [None] when the
    text starts neither with a digit nor with a dot followed by a digit;
    otherwise the digits [d] and the decimal exponent [e] of [d * 10^e]. *)
Definition parse_unsigned (s : string) : option (Z * Z) :=
  let '(ip, r1) := span_digits s in
  let '(fp, r2) :=
    match r1 with
    | String "." r => span_digits r
    | _ => (EmptyString, r1)
    end in
  match ip, fp with
  | EmptyString, EmptyString => None
  | _, _ =>
      Some (digits_value (ip ++ fp),
            parse_exponent r2 - Z.of_nat (String.length fp))
  end.

Definition parseFloat (input : string) : t :=
  let '(neg, s) := parse_sign (skip_spaces input) in
  if starts_with_Infinity s then S754_infinity neg
  else
    match parse_unsigned s with
    | None => NaN
    | Some (d, e) => of_decimal neg d e
    end.

(** *** [Number.prototype.toString] (radix 10) *)

(** [m * 2^e / 10^scale] as a fraction of positive integers. *)
Definition scaled (m : positive) (e scale : Z) : Z * Z :=
  (Zpos m * (if 0 <=? e then 2 ^ e else 1)
          * (if scale <? 0 then 10 ^ (- scale) else 1),
   (if e <? 0 then 2 ^ (- e) else 1)
          * (if 0 <=? scale then 10 ^ scale else 1)).

Definition below_pow10 (m : positive) (e n : Z) : bool :=
  let '(num, den) := scaled m e n in num <? den.

Fixpoint first_pow10_above (fuel : nat) (m : positive) (e n : Z) : Z :=
  match fuel with
  | O => n
  | S f => if below_pow10 m e n then n else first_pow10_above f m e (n + 1)
  end.

(** The [n] of ECMAScript's [Number::toString]: [10^(n-1) <= m*2^e < 10^n].
    The search starts two below an underestimate of the decimal logarithm
    obtained from the binary one. *)
Definition decimal_exponent (m : positive) (e : Z) : Z :=
  let l2 := Zpos (digits2_pos m) + e - 1 in
  first_pow10_above 6 m e ((l2 * 30103) / 100000 - 1).

(** With [k] digits: the decimal [s * 10^(n-k)] that rounds to the number
    and is closest to it (the even one on a tie), if there is one. *)
Definition candidate (m : positive) (e n k : Z) : option (Z * Z) :=
  let scale := n - k in
  let '(num, den) := scaled m e scale in
  let q := num / den in
  let r := num mod den in
  let x := S754_finite false m e in
  let ok_lo := eqb (of_decimal false q scale) x in
  let ok_hi := eqb (of_decimal false (q + 1) scale) x in
  match ok_lo, ok_hi with
  | true, true =>
      match 2 * r ?= den with
      | Lt => Some (q, scale)
      | Gt => Some (q + 1, scale)
      | Eq => Some (if Z.even q then q else q + 1, scale)
      end
  | true, false => Some (q, scale)
  | false, true => Some (q + 1, scale)
  | false, false => None
  end.

(** Shortest candidate, trying [k = 1, 2, ...]; seventeen digits always
    identify a binary64 value, so the last resort is never reached. *)
Fixpoint shortest_from (fuel : nat) (m : positive) (e n k : Z) : Z * Z :=
  match candidate m e n k with
  | Some c => c
  | None =>
      match fuel with
      | O => let '(num, den) := scaled m e (n - k) in (num / den, n - k)
      | S f => shortest_from f m e n (k + 1)
      end
  end.

Fixpoint strip_zeros (fuel : nat) (s scale : Z) : Z * Z :=
  match fuel with
  | O => (s, scale)
  | S f =>
      if (0 <? s) && (s mod 10 =? 0)
      then strip_zeros f (s / 10) (scale + 1)
      else (s, scale)
  end.

(** Digits [s] (no trailing zero) and exponent [n] with the value
    [s * 10^(n - k)], [k] being the number of digits of [s]. *)
Definition shortest (m : positive) (e : Z) : string * Z :=
  let n0 := decimal_exponent m e in
  let '(s, scale) := shortest_from 16 m e n0 1 in
  let '(s', scale') := strip_zeros 400 s scale in
  let ds := digits_of s' in
  (ds, Z.of_nat (String.length ds) + scale').

Definition format_exponent (x : Z) : string :=
  (if x <? 0 then "-" else "+") ++ digits_of (Z.abs x).

(** The five layouts of [Number::toString]. *)
Definition format (ds : string) (n : Z) : string :=
  let k := Z.of_nat (String.length ds) in
  if (k <=? n) && (n <=? 21) then
    ds ++ repeat_char "0" (Z.to_nat (n - k))
  else if (0 <? n) && (n <=? 21) then
    take (Z.to_nat n) ds ++ "." ++ drop (Z.to_nat n) ds
  else if (-6 <? n) && (n <=? 0) then
    "0." ++ repeat_char "0" (Z.to_nat (- n)) ++ ds
  else
    match ds with
    | String d EmptyString => String d ("e" ++ format_exponent (n - 1))
    | String d rest => String d ("." ++ rest ++ "e" ++ format_exponent (n - 1))
    | EmptyString => "0"
    end.

Definition toString (x : t) : string :=
  match x with
  | S754_nan => "NaN"
  | S754_zero _ => "0"
  | S754_infinity s => (if s then "-" else EmptyString) ++ "Infinity"
  | S754_finite s m e =>
      let '(ds, n) := shortest m e in
      (if s then "-" else EmptyString) ++ format ds n
  end.

(** Numeric literals of the source. *)
Definition lit_1 : t := of_Z 1.
Definition lit_2500 : t := of_Z 2500.
Definition lit_0_999 : t := of_decimal false 999 (-3).
Definition lit_1_001 : t := of_decimal false 1001 (-3).
Definition lit_0_997 : t := of_decimal false 997 (-3).

End Number.

(* ===================================================================== *)
(** ** JavaScript values, errors and completions *)
(* ===================================================================== *)

#[local] Unset Elimination Schemes.

(** What [axios] hands back as [response.data], and what the service
    passes on: JSON-like values. *)
Inductive JsVal : Type :=
| VUndefined
| VNull
| VBool (b : bool)
| VNum (x : Number.t)
| VStr (s : string)
| VArr (items : list JsVal)
| VObj (props : list (string * JsVal)).
#[local] Set Elimination Schemes.

Inductive JsError : Type :=
| Error (msg : string)
| TypeError (msg : string).

Definition message (e : JsError) : string :=
  match e with Error m | TypeError m => m end.

Inductive Completion (A : Type) : Type :=
| Normal (a : A)
| Throw (e : JsError).

Arguments Normal {A} a.
Arguments Throw {A} e.

Fixpoint assoc {A : Type} (k : string) (l : list (string * A)) : option A :=
  match l with
  | [] => None
  | (k', v) :: r => if String.eqb k' k then Some v else assoc k r
  end.

(** [v?.k] for a key that no prototype defines (all the keys read by the
    service are such): own properties of objects, [undefined] elsewhere. *)
Definition opt_get (v : JsVal) (k : string) : JsVal :=
  match v with
  | VObj props => match assoc k props with Some x => x | None => VUndefined end
  | _ => VUndefined
  end.

(** [v.k]: as [v?.k], except that reading a property of [null] or
    [undefined] throws (the message is V8's). *)
Definition get (v : JsVal) (k : string) : Completion JsVal :=
  match v with
  | VNull =>
      Throw (TypeError ("Cannot read properties of null (reading '" ++ k ++ "')"))
  | VUndefined =>
      Throw (TypeError ("Cannot read properties of undefined (reading '" ++ k ++ "')"))
  | _ => Normal (opt_get v k)
  end.

(** [v?.[0]] *)
Definition opt_index0 (v : JsVal) : JsVal :=
  match v with
  | VArr (x :: _) => x
  | VStr (String c _) => VStr (String c EmptyString)
  | VObj props => match assoc "0" props with Some x => x | None => VUndefined end
  | _ => VUndefined
  end.

Definition truthy (v : JsVal) : bool :=
  match v with
  | VUndefined | VNull => false
  | VBool b => b
  | VNum (S754_zero _) | VNum S754_nan => false
  | VNum _ => true
  | VStr EmptyString => false
  | VStr _ => true
  | VArr _ | VObj _ => true
  end.

(** [a || b] *)
Definition or_else (a b : JsVal) : JsVal := if truthy a then a else b.

(** [v !== '0'] and the like: strict inequality with a string. *)
Definition strict_ne_string (v : JsVal) (s : string) : bool :=
  match v with
  | VStr s' => negb (String.eqb s' s)
  | _ => true
  end.

Definition has_key {A : Type} (k : string) (l : list (string * A)) : bool :=
  match assoc k l with Some _ => true | None => false end.

(** [ToString], as a template literal applies it.  Arrays are joined with
    commas, [null] and [undefined] elements giving the empty string; a
    plain object prints as [[object Object]], unless it has an own
    [toString] property, which in parsed JSON is never callable, so that the
    conversion to a primitive fails. *)
Fixpoint display (v : JsVal) : Completion string :=
  match v with
  | VUndefined => Normal "undefined"
  | VNull => Normal "null"
  | VBool b => Normal (if b then "true" else "false")
  | VNum x => Normal (Number.toString x)
  | VStr s => Normal s
  | VArr items =>
      (fix join (first : bool) (l : list JsVal) : Completion string :=
         match l with
         | [] => Normal EmptyString
         | x :: r =>
             match (match x with
                    | VUndefined | VNull => Normal EmptyString
                    | _ => display x
                    end) with
             | Throw e => Throw e
             | Normal sx =>
                 match join false r with
                 | Throw e => Throw e
                 | Normal sr => Normal ((if first then EmptyString else ",") ++ sx ++ sr)
                 end
             end
         end) true items
  | VObj props =>
      if has_key "toString" props
      then Throw (TypeError "Cannot convert object to primitive value")
      else Normal "[object Object]"
  end.

(* ===================================================================== *)
(** ** Effects: the trace, the outside world, the monad *)
(* ===================================================================== *)

Definition Headers : Type := list (string * string).

(** [data] of [prisma.transaction.create({ data })] *)
Record TransactionCreate : Type := {
  tx_id : string;
  tx_type : string;
  tx_status : string;
  tx_amount : Number.t;
  tx_currency : string;
  tx_toAddress : string;
  tx_fromAddress : string;
  tx_txHash : string;
  tx_network : string;
  tx_metadata : string;
  tx_createdAt : string;
  tx_updatedAt : string
}.

(** Observable effects, in program order. *)
Inductive Event : Type :=
| ConsoleLog (text : string)
| ConsoleError (text : string)
| HttpGet (url : string) (headers : Headers) (timeout : Z)
| PrismaTransactionCreate (data : TransactionCreate).

Inductive AxiosResult : Type :=
| AxiosResolved (data : JsVal)
| AxiosRejected (e : JsError).

(** The collaborators of the service.  The first argument of each oracle is
    the number of oracle consultations made so far, so that successive calls
    may answer differently. *)
Record World : Type := {
  axios_get : nat -> string -> Headers -> Z -> AxiosResult;
  prisma_transaction_create : nat -> TransactionCreate -> option JsError;
  crypto_randomBytes_hex : nat -> nat -> string;
  crypto_randomUUID : nat -> string;
  crypto_hmac_sha256_base64 : string -> string -> string;
  date_now : nat -> string
}.

Record Runtime : Type := {
  trace : list Event;
  ticks : nat
}.

Definition Js (A : Type) : Type := Runtime -> Completion A * Runtime.

Definition ret {A : Type} (a : A) : Js A := fun rt => (Normal a, rt).

Definition throw {A : Type} (e : JsError) : Js A := fun rt => (Throw e, rt).

Definition bind {A B : Type} (m : Js A) (k : A -> Js B) : Js B :=
  fun rt =>
    match m rt with
    | (Normal a, rt') => k a rt'
    | (Throw e, rt') => (Throw e, rt')
    end.

Definition lift {A : Type} (c : Completion A) : Js A := fun rt => (c, rt).

(** [try { body } catch (error) { handler }] *)
Definition try_catch {A : Type} (body : Js A) (handler : JsError -> Js A) : Js A :=
  fun rt =>
    match body rt with
    | (Normal a, rt') => (Normal a, rt')
    | (Throw e, rt') => handler e rt'
    end.

Declare Scope js_scope.
Delimit Scope js_scope with js.
Notation "x <- m ;; k" := (bind m (fun x => k))
  (at level 61, m at next level, right associativity) : js_scope.
Notation "m ;; k" := (bind m (fun _ => k))
  (at level 61, right associativity) : js_scope.
Local Open Scope js_scope.

Definition emit (ev : Event) : Js unit :=
  fun rt => (Normal tt, {| trace := trace rt ++ [ev]; ticks := ticks rt |}).

Definition console_log (text : string) : Js unit := emit (ConsoleLog text).
Definition console_error (text : string) : Js unit := emit (ConsoleError text).

(** Consult an oracle and advance the consultation counter. *)
Definition consult {A : Type} (oracle : nat -> A) : Js A :=
  fun rt => (Normal (oracle (ticks rt)),
             {| trace := trace rt; ticks := S (ticks rt) |}).

Section Collaborators.

Variable world : World.

(** [new Date().toISOString()] and [new Date()] *)
Definition new_Date : Js string := consult (date_now world).

(** [crypto.randomBytes(n).toString('hex')] *)
Definition randomBytes_hex (n : nat) : Js string :=
  consult (fun t => crypto_randomBytes_hex world t n).

Definition randomUUID : Js string := consult (crypto_randomUUID world).

(** [await axios.get(url, { headers, timeout })]: the request is recorded;
    a rejected promise is a thrown error. *)
Definition axios_get_data (url : string) (headers : Headers) (timeout : Z)
  : Js JsVal :=
  emit (HttpGet url headers timeout) ;;
  r <- consult (fun t => axios_get world t url headers timeout) ;;
  match r with
  | AxiosResolved data => ret data
  | AxiosRejected e => throw e
  end.

(** [await this.prisma.transaction.create({ data })] *)
Definition prisma_create (data : TransactionCreate) : Js unit :=
  emit (PrismaTransactionCreate data) ;;
  r <- consult (fun t => prisma_transaction_create world t data) ;;
  match r with
  | None => ret tt
  | Some e => throw e
  end.

End Collaborators.

(* ===================================================================== *)
(** ** Text helpers of the platform *)
(* ===================================================================== *)

Definition upper_char (c : ascii) : ascii :=
  if (97 <=? Chars.code c) && (Chars.code c <=? 122)
  then ascii_of_N (Z.to_N (Chars.code c - 32)) else c.

(** [String.prototype.toUpperCase], on ASCII letters. *)
Fixpoint toUpperCase (s : string) : string :=
  match s with
  | EmptyString => EmptyString
  | String c r => String (upper_char c) (toUpperCase r)
  end.

Definition hex_digit (d : Z) : ascii :=
  if d <? 10 then Chars.digit_char d else ascii_of_N (Z.to_N (55 + d)).

(** The [application/x-www-form-urlencoded] byte serializer used by
    [URLSearchParams.prototype.toString]. *)
Fixpoint urlencode (s : string) : string :=
  match s with
  | EmptyString => EmptyString
  | String c r =>
      let n := Chars.code c in
      if Chars.is_alnum c || (n =? 42) || (n =? 45) || (n =? 46) || (n =? 95)
      then String c (urlencode r)
      else if n =? 32 then String "+" (urlencode r)
      else String "%" (String (hex_digit (n / 16))
                         (String (hex_digit (n mod 16)) (urlencode r)))
  end.

(** [`${new URLSearchParams({ ... })}`] *)
Fixpoint URLSearchParams (params : list (string * string)) : string :=
  match params with
  | [] => EmptyString
  | [(k, v)] => urlencode k ++ "=" ++ urlencode v
  | (k, v) :: rest => urlencode k ++ "=" ++ urlencode v ++ "&" ++ URLSearchParams rest
  end.

Definition dquote : ascii := ascii_of_N 34.
Definition backslash : ascii := ascii_of_N 92.

(** The escapes of [JSON.stringify]'s [QuoteJSONString]. *)
Definition json_escape_char (c : ascii) : string :=
  let n := Chars.code c in
  let esc (s : string) := String backslash s in
  if n =? 34 then esc (String dquote EmptyString)
  else if n =? 92 then esc (String backslash EmptyString)
  else if n =? 8 then esc "b"
  else if n =? 9 then esc "t"
  else if n =? 10 then esc "n"
  else if n =? 12 then esc "f"
  else if n =? 13 then esc "r"
  else if n <? 32 then
    esc ("u00" ++ String (hex_digit (n / 16))
                    (String (Chars.lower (hex_digit (n mod 16))) EmptyString))
  else String c EmptyString.

Fixpoint json_escape (s : string) : string :=
  match s with
  | EmptyString => EmptyString
  | String c r => json_escape_char c ++ json_escape r
  end.

Definition json_string (s : string) : string :=
  String dquote (json_escape s ++ String dquote EmptyString).

(** [JSON.stringify] of an object whose values are already serialized. *)
Fixpoint json_members (l : list (string * string)) : string :=
  match l with
  | [] => EmptyString
  | [(k, v)] => json_string k ++ ":" ++ v
  | (k, v) :: rest => json_string k ++ ":" ++ v ++ "," ++ json_members rest
  end.

Definition json_object (l : list (string * string)) : string :=
  "{" ++ json_members l ++ "}".

(* ===================================================================== *)
(** ** The service object *)
(* ===================================================================== *)

(** The variables of [process.env] that the constructor reads. *)
Record ProcessEnv : Type := {
  NODE_ENV : option string;
  OKX_API_KEY : option string;
  OKX_SECRET_KEY : option string;
  OKX_PASSPHRASE : option string;
  OKX_PROJECT_ID : option string;
  OKX_DEX_BASE_URL : option string
}.

Record Config : Type := {
  apiKey : string;
  secretKey : string;
  passphrase : string;
  projectId : string;
  baseUrl : string;
  testnetMode : bool
}.

Record OKXDexService : Type := {
  isTestnetMode : bool;
  config : Config
}.

(** [process.env.X || fallback]: an unset or empty variable is falsy. *)
Definition env_or (v : option string) (fallback : string) : string :=
  match v with
  | Some (String c r) => String c r
  | _ => fallback
  end.

(** [process.env.NODE_ENV !== 'production'] *)
Definition not_production (v : option string) : bool :=
  match v with
  | Some s => negb (String.eqb s "production")
  | None => true
  end.

(** [new OKXDexService()] (the three start-up [console.log] lines apart). *)
Definition new_OKXDexService (env : ProcessEnv) : OKXDexService :=
  let isTestnetMode := not_production (NODE_ENV env) in
  {| isTestnetMode := isTestnetMode;
     config :=
       {| apiKey := env_or (OKX_API_KEY env) "mock-okx-api-key";
          secretKey := env_or (OKX_SECRET_KEY env) "mock-okx-secret";
          passphrase := env_or (OKX_PASSPHRASE env) "mock-passphrase";
          projectId := env_or (OKX_PROJECT_ID env) "mock-project-id";
          baseUrl := env_or (OKX_DEX_BASE_URL env) "https://web3.okx.com/api/v5/dex";
          testnetMode := isTestnetMode |} |}.

(** [this.popularTokens], the same in every instance; entries are in
    insertion order, the order in which [Object.entries] lists them. *)
Definition popularTokens : list (string * list (string * string)) :=
  [("base-sepolia",
    [("ETH", "0xEeeeeEeeeEeEeeEeEeEeeEEEeeeeEeeeeeeeEEeE");
     ("WETH", "0x4200000000000000000000000000000000000006");
     ("USDC", "0x833589fCD6eDb6E08f4c7C32D4f71b54bdA02913");
     ("USDT", "0xfde4C96c8593536E31F229EA8f37b2ADa2699bb2")])].

(** Property names that every object literal inherits from
    [Object.prototype]; all of them are truthy and none has enumerable
    own entries. *)
Definition Object_prototype_keys : list string :=
  ["constructor"; "__defineGetter__"; "__defineSetter__"; "hasOwnProperty";
   "__lookupGetter__"; "__lookupSetter__"; "isPrototypeOf";
   "propertyIsEnumerable"; "toString"; "valueOf"; "__proto__";
   "toLocaleString"].

Definition inherited (k : string) : bool :=
  existsb (String.eqb k) Object_prototype_keys.

(** [this.popularTokens[chainId] || this.popularTokens['base-sepolia']],
    as the list of [Object.entries]. *)
Definition chainTokens_of (chainId : string) : list (string * string) :=
  match assoc chainId popularTokens with
  | Some tokens => tokens
  | None =>
      if inherited chainId then []
      else match assoc "base-sepolia" popularTokens with
           | Some tokens => tokens
           | None => []
           end
  end.

(** Helper: Get token symbol from address *)
Definition getTokenSymbol (tokenAddress chainId : string) : string :=
  match find (fun entry => String.eqb (toLowerCase (snd entry))
                                      (toLowerCase tokenAddress))
             (chainTokens_of chainId) with
  | Some (symbol, _) => symbol
  | None => "UNKNOWN"
  end.

(** The [rates] table of [calculateMockSwapOutput]. *)
Definition rates : list (string * Number.t) :=
  [("ETH_USDC", Number.lit_2500);
   ("ETH_USDT", Number.lit_2500);
   ("USDC_ETH", Number.div Number.lit_1 Number.lit_2500);
   ("USDT_ETH", Number.div Number.lit_1 Number.lit_2500);
   ("USDC_USDT", Number.lit_0_999);
   ("USDT_USDC", Number.lit_1_001);
   ("WETH_ETH", Number.lit_1);
   ("ETH_WETH", Number.lit_1)].

(** [rates[rateKey] || 1]; every rate of the table is truthy. *)
Definition rate_of (rateKey : string) : Number.t :=
  match assoc rateKey rates with
  | Some r => if truthy (VNum r) then r else Number.lit_1
  | None => Number.lit_1
  end.

(** Helper: Calculate mock swap output for testnet *)
Definition calculateMockSwapOutput (fromToken toToken amount chainId : string)
  : string :=
  let fromSymbol := getTokenSymbol fromToken chainId in
  let toSymbol := getTokenSymbol toToken chainId in
  let rateKey := fromSymbol ++ "_" ++ toSymbol in
  let rate := rate_of rateKey in
  Number.toString
    (Number.mul (Number.mul (Number.parseFloat amount) rate) Number.lit_0_997).

(** The "mock conversion logic" block of [getSwapQuote]: the value of
    [outputAmount] after the [if]/[else if] chain. *)
Definition mockQuoteOutputAmount (fromTokenAddress toTokenAddress amount chainId : string)
  : string :=
  let fromSymbol := getTokenSymbol fromTokenAddress chainId in
  let toSymbol := getTokenSymbol toTokenAddress chainId in
  if String.eqb fromSymbol "ETH" && String.eqb toSymbol "USDC" then
    Number.toString (Number.mul (Number.parseFloat amount) Number.lit_2500)
  else if String.eqb fromSymbol "USDC" && String.eqb toSymbol "ETH" then
    Number.toString (Number.div (Number.parseFloat amount) Number.lit_2500)
  else if String.eqb fromSymbol "USDC" && String.eqb toSymbol "USDT" then
    Number.toString (Number.mul (Number.parseFloat amount) Number.lit_0_999)
  else amount.

(** *** Arguments and results of the methods *)

Record SwapQuoteParams : Type := {
  q_chainId : string;
  q_fromTokenAddress : string;
  q_toTokenAddress : string;
  q_amount : string;
  q_slippage : option string;        (* [None]: omitted, defaults to '0.5' *)
  q_userWalletAddress : string
}.

(** [{ success: true, data }] or [{ success: false, error, data: null }] *)
Inductive QuoteResult : Type :=
| QuoteSuccess (data : JsVal)
| QuoteFailure (error : string).

Record ExecuteSwapParams : Type := {
  x_chainId : string;
  x_fromTokenAddress : string;
  x_toTokenAddress : string;
  x_amount : string;
  x_slippage : option string;        (* [None]: omitted, defaults to '0.5' *)
  x_userWalletAddress : string;
  x_paymentRequestId : option string (* [None]: [null], the default *)
}.

Record MockSwapResult : Type := {
  transactionHash : string;
  fromTokenAmount : string;
  toTokenAmount : string;
  gasUsed : string;
  gasPrice : string;
  tradeFee : string;
  timestamp : string;
  explorerUrl : string
}.

Inductive SwapResult : Type :=
| SwapMock (r : MockSwapResult)                 (* [{ success: true, ...r }] *)
| SwapLive (data transactionData : JsVal)       (* [{ success: true, data, transactionData }] *)
| SwapFailure (error : string).                 (* [{ success: false, error }] *)

Record SwapLog : Type := {
  l_paymentRequestId : string;
  l_fromToken : string;
  l_toToken : string;
  l_fromAmount : string;
  l_toAmount : string;
  l_transactionHash : string;
  l_chainId : string;
  l_status : string
}.

Record PaymentRouteParams : Type := {
  payerPreferredToken : string;
  payeeRequiredToken : string;
  amount : string;
  chainId : string;
  userWalletAddress : string
}.

Inductive PaymentRoute : Type :=
(** [{ swapRequired: false, directPayment: true, inputAmount, outputAmount, route: 'direct' }] *)
| RouteDirect (inputAmount outputAmount : string)
(** [{ swapRequired: true, swapPossible: true, inputAmount, outputAmount,
       estimatedGas, tradeFee, priceImpact, route, slippage }] *)
| RouteSwap (inputAmount : string)
            (outputAmount estimatedGas tradeFee priceImpact route slippage : JsVal)
(** [{ swapRequired: true, swapPossible: false, error }] *)
| RouteUnavailable (error : string).

Definition swapRequired (r : PaymentRoute) : bool :=
  match r with RouteDirect _ _ => false | _ => true end.

Definition mock_headers : Headers :=
  [("Content-Type", "application/json"); ("X-Mock-Mode", "true")].

(* ===================================================================== *)
(** ** The methods *)
(* ===================================================================== *)

Section Methods.

Variable world : World.
Variable this : OKXDexService.

(** Generate authentication headers for OKX API requests *)
Definition generateAuthHeaders
    (timestamp method requestPath queryString body : string) : Headers :=
  if testnetMode (config this)
     || String.eqb (apiKey (config this)) "mock-okx-api-key"
  then mock_headers
  else
    let message :=
      timestamp ++ toUpperCase method ++ requestPath ++ queryString ++ body in
    let signature :=
      crypto_hmac_sha256_base64 world (secretKey (config this)) message in
    [("Content-Type", "application/json");
     ("OK-ACCESS-KEY", apiKey (config this));
     ("OK-ACCESS-SIGN", signature);
     ("OK-ACCESS-TIMESTAMP", timestamp);
     ("OK-ACCESS-PASSPHRASE", passphrase (config this));
     ("OK-ACCESS-PROJECT", projectId (config this))].

Definition slippage_or_default (s : option string) : string :=
  match s with Some s => s | None => "0.5" end.

(** The [mockQuote] object literal of [getSwapQuote]. *)
Definition mockQuote (p : SwapQuoteParams) : JsVal :=
  VObj
    [("chainId", VStr (q_chainId p));
     ("fromTokenAddress", VStr (q_fromTokenAddress p));
     ("toTokenAddress", VStr (q_toTokenAddress p));
     ("fromTokenAmount", VStr (q_amount p));
     ("toTokenAmount",
      VStr (mockQuoteOutputAmount (q_fromTokenAddress p) (q_toTokenAddress p)
                                  (q_amount p) (q_chainId p)));
     ("estimatedGas", VStr "21000");
     ("tradeFee", VStr "0.1");
     ("priceImpact", VStr "0.01");
     ("route",
      VArr [VObj [("dexName", VStr "Uniswap V3");
                  ("percentage", VNum (Number.of_Z 100))]]);
     ("slippage", VStr (slippage_or_default (q_slippage p)))].

Definition swap_query (chainId fromTokenAddress toTokenAddress amount
                       slippage userWalletAddress : string) : string :=
  URLSearchParams
    [("chainId", chainId);
     ("fromTokenAddress", fromTokenAddress);
     ("toTokenAddress", toTokenAddress);
     ("amount", amount);
     ("slippage", slippage);
     ("userWalletAddress", userWalletAddress)].

(** [throw new Error(`${prefix}${response.data?.msg || 'Unknown error'}`)] *)
Definition throw_api_error {A : Type} (prefix : string) (data : JsVal) : Js A :=
  msg <- lift (display (or_else (opt_get data "msg") (VStr "Unknown error"))) ;;
  throw (Error (prefix ++ msg)).

(** Get swap quote between two tokens *)
Definition getSwapQuote (p : SwapQuoteParams) : Js QuoteResult :=
  let slippage := slippage_or_default (q_slippage p) in
  try_catch
    (console_log ("Getting swap quote: " ++ q_amount p ++ " tokens from "
                    ++ q_fromTokenAddress p ++ " to " ++ q_toTokenAddress p
                    ++ " on chain " ++ q_chainId p) ;;
     if testnetMode (config this) then
       console_log "Mock mode: Generating mock swap quote" ;;
       ret (QuoteSuccess (mockQuote p))
     else
       timestamp <- new_Date world ;;
       let requestPath := "/aggregator/quote" in
       let queryParams :=
         swap_query (q_chainId p) (q_fromTokenAddress p) (q_toTokenAddress p)
                    (q_amount p) slippage (q_userWalletAddress p) in
       let headers :=
         generateAuthHeaders timestamp "GET" requestPath ("?" ++ queryParams) EmptyString in
       data <- axios_get_data world
                 (baseUrl (config this) ++ requestPath ++ "?" ++ queryParams)
                 headers 15000 ;;
       if strict_ne_string (opt_get data "code") "0" then
         throw_api_error "OKX API Error: " data
       else
         ret (QuoteSuccess (or_else (opt_index0 (opt_get data "data")) VNull)))
    (fun error =>
       console_error ("Error getting swap quote: " ++ message error) ;;
       ret (QuoteFailure (message error))).

(** Log swap transaction to database *)
Definition logSwapTransaction (swapData : SwapLog) : Js unit :=
  try_catch
    (id <- randomUUID world ;;
     createdAt <- new_Date world ;;
     updatedAt <- new_Date world ;;
     prisma_create world
       {| tx_id := id;
          tx_type := "SWAP";
          tx_status := env_or (Some (l_status swapData)) "PENDING";
          tx_amount := Number.parseFloat (l_fromAmount swapData);
          tx_currency := getTokenSymbol (l_fromToken swapData) (l_chainId swapData);
          tx_toAddress := l_toToken swapData;
          tx_fromAddress := l_fromToken swapData;
          tx_txHash := l_transactionHash swapData;
          tx_network := l_chainId swapData;
          tx_metadata :=
            json_object
              [("paymentRequestId", json_string (l_paymentRequestId swapData));
               ("fromToken", json_string (l_fromToken swapData));
               ("toToken", json_string (l_toToken swapData));
               ("fromAmount", json_string (l_fromAmount swapData));
               ("toAmount", json_string (l_toAmount swapData));
               ("swapProvider", json_string "OKX_DEX")];
          tx_createdAt := createdAt;
          tx_updatedAt := updatedAt |} ;;
     console_log ("Swap transaction logged: " ++ l_transactionHash swapData))
    (fun error =>
       console_error ("Error logging swap transaction: " ++ message error)).

(** Execute token swap *)
Definition executeSwap (p : ExecuteSwapParams) : Js SwapResult :=
  let slippage := slippage_or_default (x_slippage p) in
  try_catch
    (console_log ("Executing swap: " ++ x_amount p ++ " tokens from "
                    ++ x_fromTokenAddress p ++ " to " ++ x_toTokenAddress p) ;;
     if testnetMode (config this) then
       console_log "Mock mode: Simulating swap execution" ;;
       hash <- randomBytes_hex world 32 ;;
       now <- new_Date world ;;
       explorer <- randomBytes_hex world 32 ;;
       let mockSwapResult :=
         {| transactionHash := "0x" ++ hash;
            fromTokenAmount := x_amount p;
            toTokenAmount :=
              calculateMockSwapOutput (x_fromTokenAddress p) (x_toTokenAddress p)
                                      (x_amount p) (x_chainId p);
            gasUsed := "21000";
            gasPrice := "20000000000";
            tradeFee := "0.1";
            timestamp := now;
            explorerUrl := "https://sepolia.basescan.org/tx/0x" ++ explorer |} in
       match x_paymentRequestId p with
       | Some (String c r) =>
           logSwapTransaction
             {| l_paymentRequestId := String c r;
                l_fromToken := x_fromTokenAddress p;
                l_toToken := x_toTokenAddress p;
                l_fromAmount := x_amount p;
                l_toAmount := toTokenAmount mockSwapResult;
                l_transactionHash := transactionHash mockSwapResult;
                l_chainId := x_chainId p;
                l_status := "completed" |}
       | _ => ret tt
       end ;;
       console_log "Mock swap completed:" ;;
       ret (SwapMock mockSwapResult)
     else
       quoteResult <- getSwapQuote
                        {| q_chainId := x_chainId p;
                           q_fromTokenAddress := x_fromTokenAddress p;
                           q_toTokenAddress := x_toTokenAddress p;
                           q_amount := x_amount p;
                           q_slippage := Some slippage;
                           q_userWalletAddress := x_userWalletAddress p |} ;;
       match quoteResult with
       | QuoteFailure error => throw (Error ("Failed to get quote: " ++ error))
       | QuoteSuccess _ =>
           timestamp <- new_Date world ;;
           let requestPath := "/aggregator/swap" in
           let queryParams :=
             swap_query (x_chainId p) (x_fromTokenAddress p) (x_toTokenAddress p)
                        (x_amount p) slippage (x_userWalletAddress p) in
           let headers :=
             generateAuthHeaders timestamp "GET" requestPath ("?" ++ queryParams) EmptyString in
           data <- axios_get_data world
                     (baseUrl (config this) ++ requestPath ++ "?" ++ queryParams)
                     headers 30000 ;;
           if strict_ne_string (opt_get data "code") "0" then
             throw_api_error "OKX Swap Error: " data
           else
             let swapData := opt_index0 (opt_get data "data") in
             if negb (truthy swapData) then
               throw (Error "No swap data received from OKX API")
             else
               ret (SwapLive swapData (opt_get swapData "data"))
       end)
    (fun error =>
       console_error ("Error executing swap: " ++ message error) ;;
       ret (SwapFailure (message error))).

(** Calculate optimal payment route with swapping *)
Definition calculatePaymentRoute (p : PaymentRouteParams) : Js PaymentRoute :=
  try_catch
    (console_log ("Calculating payment route from " ++ payerPreferredToken p
                    ++ " to " ++ payeeRequiredToken p) ;;
     if String.eqb (toLowerCase (payerPreferredToken p))
                   (toLowerCase (payeeRequiredToken p))
     then ret (RouteDirect (amount p) (amount p))
     else
       quoteResult <- getSwapQuote
                        {| q_chainId := chainId p;
                           q_fromTokenAddress := payerPreferredToken p;
                           q_toTokenAddress := payeeRequiredToken p;
                           q_amount := amount p;
                           q_slippage := None;
                           q_userWalletAddress := userWalletAddress p |} ;;
       match quoteResult with
       | QuoteFailure error => ret (RouteUnavailable error)
       | QuoteSuccess data =>
           outputAmount <- lift (get data "toTokenAmount") ;;
           estimatedGas <- lift (get data "estimatedGas") ;;
           tradeFee <- lift (get data "tradeFee") ;;
           priceImpact <- lift (get data "priceImpact") ;;
           route <- lift (get data "route") ;;
           slippage <- lift (get data "slippage") ;;
           ret (RouteSwap (amount p) outputAmount estimatedGas tradeFee
                          priceImpact route slippage)
       end)
    (fun error =>
       console_error ("Error calculating payment route: " ++ message error) ;;
       ret (RouteUnavailable (message error))).

End Methods.

(* ===================================================================== *)
(** ** Vocabulary of the statements *)
(* ===================================================================== *)

(** What [calculatePaymentRoute] passes to [getSwapQuote]. *)
Definition route_quote_params (p : PaymentRouteParams) : SwapQuoteParams :=
  {| q_chainId := chainId p;
     q_fromTokenAddress := payerPreferredToken p;
     q_toTokenAddress := payeeRequiredToken p;
     q_amount := amount p;
     q_slippage := None;
     q_userWalletAddress := userWalletAddress p |}.

(** The runtime once [calculatePaymentRoute] has written its first line. *)
Definition route_entered (p : PaymentRouteParams) (rt : Runtime) : Runtime :=
  {| trace := trace rt
              ++ [ConsoleLog ("Calculating payment route from "
                                ++ payerPreferredToken p ++ " to "
                                ++ payeeRequiredToken p)];
     ticks := ticks rt |}.

Definition quote_log (p : SwapQuoteParams) : Event :=
  ConsoleLog ("Getting swap quote: " ++ q_amount p ++ " tokens from "
                ++ q_fromTokenAddress p ++ " to " ++ q_toTokenAddress p
                ++ " on chain " ++ q_chainId p).

(** The live quote request of [getSwapQuote]: its URL, its headers (the
    time stamp is the clock's answer at the current consultation) and the
    provider's answer to it. *)
Definition quote_query (p : SwapQuoteParams) : string :=
  swap_query (q_chainId p) (q_fromTokenAddress p) (q_toTokenAddress p)
             (q_amount p) (slippage_or_default (q_slippage p))
             (q_userWalletAddress p).

Definition quote_url (this : OKXDexService) (p : SwapQuoteParams) : string :=
  baseUrl (config this) ++ "/aggregator/quote" ++ "?" ++ quote_query p.

Definition quote_headers (world : World) (this : OKXDexService)
    (p : SwapQuoteParams) (rt : Runtime) : Headers :=
  generateAuthHeaders world this (date_now world (ticks rt)) "GET"
    "/aggregator/quote" ("?" ++ quote_query p) EmptyString.

Definition quote_request (world : World) (this : OKXDexService)
    (p : SwapQuoteParams) (rt : Runtime) : Event :=
  HttpGet (quote_url this p) (quote_headers world this p rt) 15000.

Definition quote_response (world : World) (this : OKXDexService)
    (p : SwapQuoteParams) (rt : Runtime) : AxiosResult :=
  axios_get world (S (ticks rt)) (quote_url this p)
            (quote_headers world this p rt) 15000.

(** The [message] of the error thrown for an envelope whose [code] is not
    ['0']: the [Error] built from [msg], or the [TypeError] of a [msg] that
    cannot be converted to a string. *)
Definition api_error_reason (prefix : string) (data : JsVal) : string :=
  match display (or_else (opt_get data "msg") (VStr "Unknown error")) with
  | Normal msg => prefix ++ msg
  | Throw e => message e
  end.

(** The pairs for which the mock conversion logic of [getSwapQuote] has a
    branch. *)
Definition quoted_pair (fromSymbol toSymbol : string) : bool :=
  (String.eqb fromSymbol "ETH" && String.eqb toSymbol "USDC")
  || (String.eqb fromSymbol "USDC" && String.eqb toSymbol "ETH")
  || (String.eqb fromSymbol "USDC" && String.eqb toSymbol "USDT").

(** The events written between two runtimes. *)
Definition new_events (before after : Runtime) : list Event :=
  skipn (List.length (trace before)) (trace after).

(** [toTokenAmount] of a sandbox execution and of a quote. *)
Definition executed_amount (c : Completion SwapResult) : option string :=
  match c with
  | Normal (SwapMock r) => Some (toTokenAmount r)
  | _ => None
  end.

Definition quoted_amount (c : Completion QuoteResult) : option string :=
  match c with
  | Normal (QuoteSuccess data) =>
      match opt_get data "toTokenAmount" with
      | VStr s => Some s
      | _ => None
      end
  | _ => None
  end.

(** The quote request with the parameters of a swap. *)
Definition quote_of_swap (p : ExecuteSwapParams) : SwapQuoteParams :=
  {| q_chainId := x_chainId p;
     q_fromTokenAddress := x_fromTokenAddress p;
     q_toTokenAddress := x_toTokenAddress p;
     q_amount := x_amount p;
     q_slippage := x_slippage p;
     q_userWalletAddress := x_userWalletAddress p |}.

(** The same world, with another audit store behind [prisma]. *)
Definition with_audit_store (world : World)
    (store : nat -> TransactionCreate -> option JsError) : World :=
  {| axios_get := axios_get world;
     prisma_transaction_create := store;
     crypto_randomBytes_hex := crypto_randomBytes_hex world;
     crypto_randomUUID := crypto_randomUUID world;
     crypto_hmac_sha256_base64 := crypto_hmac_sha256_base64 world;
     date_now := date_now world |}.

(** *** Sample inputs *)

Definition ETH : string := "0xEeeeeEeeeEeEeeEeEeEeeEEEeeeeEeeeeeeeEEeE".
Definition WETH : string := "0x4200000000000000000000000000000000000006".
Definition USDC : string := "0x833589fCD6eDb6E08f4c7C32D4f71b54bdA02913".
Definition USDT : string := "0xfde4C96c8593536E31F229EA8f37b2ADa2699bb2".

Definition development_env : ProcessEnv :=
  {| NODE_ENV := None; OKX_API_KEY := None; OKX_SECRET_KEY := None;
     OKX_PASSPHRASE := None; OKX_PROJECT_ID := None; OKX_DEX_BASE_URL := None |}.

Definition production_env : ProcessEnv :=
  {| NODE_ENV := Some "production"; OKX_API_KEY := None; OKX_SECRET_KEY := None;
     OKX_PASSPHRASE := None; OKX_PROJECT_ID := None; OKX_DEX_BASE_URL := None |}.

Definition sandbox_service : OKXDexService := new_OKXDexService development_env.
Definition live_service : OKXDexService := new_OKXDexService production_env.

(** A world whose provider and audit store always answer the same. *)
Definition constant_world (provider : AxiosResult) (store : option JsError) : World :=
  {| axios_get := fun _ _ _ _ => provider;
     prisma_transaction_create := fun _ _ => store;
     crypto_randomBytes_hex := fun _ n => repeat_char "a" (2 * n);
     crypto_randomUUID := fun _ => "00000000-0000-4000-8000-000000000000";
     crypto_hmac_sha256_base64 := fun _ _ => "c2lnbmF0dXJl";
     date_now := fun _ => "2025-06-26T15:31:38.000Z" |}.

Definition rate_limited : AxiosResult :=
  AxiosResolved (VObj [("code", VStr "50011"); ("msg", VStr "Rate limit reached")]).

Definition timed_out : AxiosResult :=
  AxiosRejected (Error "timeout of 15000ms exceeded").

Definition empty_envelope : AxiosResult :=
  AxiosResolved (VObj [("code", VStr "0"); ("msg", VStr EmptyString); ("data", VArr [])]).

Definition fresh : Runtime := {| trace := []; ticks := 0 |}.

(** The quote request of the demonstration script, for other tokens and
    amounts. *)
Definition demo_quote (fromToken toToken amount : string) : SwapQuoteParams :=
  {| q_chainId := "84532";
     q_fromTokenAddress := fromToken;
     q_toTokenAddress := toToken;
     q_amount := amount;
     q_slippage := Some "0.5";
     q_userWalletAddress := "0x742d35Cc6464f4F4D4Cc7b5A87e1f0E6D5F3D5B8" |}.

Definition demo_swap (fromToken toToken amount : string)
    (paymentRequestId : option string) : ExecuteSwapParams :=
  {| x_chainId := "84532";
     x_fromTokenAddress := fromToken;
     x_toTokenAddress := toToken;
     x_amount := amount;
     x_slippage := None;
     x_userWalletAddress := "0x742d35Cc6464f4F4D4Cc7b5A87e1f0E6D5F3D5B8";
     x_paymentRequestId := paymentRequestId |}.

Definition demo_route (payer payee amount : string) : PaymentRouteParams :=
  {| payerPreferredToken := payer;
     payeeRequiredToken := payee;
     amount := amount;
     chainId := "84532";
     userWalletAddress := "0x742d35Cc6464f4F4D4Cc7b5A87e1f0E6D5F3D5B8" |}.



(** What the live branch of [getSwapQuote] makes of the provider's
    answer. *)
Definition quote_outcome (r : AxiosResult) : QuoteResult :=
  match r with
  | AxiosRejected e => QuoteFailure (message e)
  | AxiosResolved data =>
      if strict_ne_string (opt_get data "code") "0"
      then QuoteFailure (api_error_reason "OKX API Error: " data)
      else QuoteSuccess (or_else (opt_index0 (opt_get data "data")) VNull)
  end.

Definition quote_failed (q : QuoteResult) : list Event :=
  match q with
  | QuoteFailure reason => [ConsoleError ("Error getting swap quote: " ++ reason)]
  | QuoteSuccess _ => []
  end.

(** What [calculatePaymentRoute] makes of a quote. *)
Definition route_of_quote (inputAmount : string) (q : QuoteResult)
  : PaymentRoute * list Event :=
  match q with
  | QuoteFailure reason => (RouteUnavailable reason, [])
  | QuoteSuccess data =>
      match get data "toTokenAmount" with
      | Throw e =>
          (RouteUnavailable (message e),
           [ConsoleError ("Error calculating payment route: " ++ message e)])
      | Normal _ =>
          (RouteSwap inputAmount (opt_get data "toTokenAmount")
             (opt_get data "estimatedGas") (opt_get data "tradeFee")
             (opt_get data "priceImpact") (opt_get data "route")
             (opt_get data "slippage"), [])
      end
  end.

(** The object that the sandbox branch of [executeSwap] returns. *)
Definition mockSwapResult_of (world : World) (p : ExecuteSwapParams)
    (rt : Runtime) : MockSwapResult :=
  {| transactionHash := "0x" ++ crypto_randomBytes_hex world (ticks rt) 32;
     fromTokenAmount := x_amount p;
     toTokenAmount :=
       calculateMockSwapOutput (x_fromTokenAddress p) (x_toTokenAddress p)
                               (x_amount p) (x_chainId p);
     gasUsed := "21000";
     gasPrice := "20000000000";
     tradeFee := "0.1";
     timestamp := date_now world (S (ticks rt));
     explorerUrl := "https://sepolia.basescan.org/tx/0x"
                      ++ crypto_randomBytes_hex world (S (S (ticks rt))) 32 |}.

Definition audit_sample : SwapLog :=
  {| l_paymentRequestId := "x402_multi_1";
     l_fromToken := ETH;
     l_toToken := USDC;
     l_fromAmount := "1";
     l_toAmount := "2492.5";
     l_transactionHash := "0xaa";
     l_chainId := "84532";
     l_status := "completed" |}.

Definition rate_key (fromToken toToken chainId : string) : string :=
  getTokenSymbol fromToken chainId ++ "_" ++ getTokenSymbol toToken chainId.

(* ===================================================================== *)
(** ** The remaining methods of the service *)
(* ===================================================================== *)

(** [Number.prototype.toFixed]: non-finite numbers and magnitudes of at
    least [10^21] print as [toString] does; otherwise the integer [n] nearest
    to [x * 10^f] (the larger one on a tie) is laid out with [f] decimals. *)
Definition fixed_layout (n : Z) (f : nat) : string :=
  let m := digits_of n in
  match f with
  | O => m
  | _ =>
      let k := String.length m in
      let padded := repeat_char "0" (S f - k) ++ m in
      let k' := String.length padded in
      take (k' - f) padded ++ "." ++ drop (k' - f) padded
  end.

Definition toFixed (x : Number.t) (f : nat) : string :=
  match x with
  | S754_nan | S754_infinity _ => Number.toString x
  | S754_zero _ => fixed_layout 0 f
  | S754_finite s m e =>
      if Number.below_pow10 m e 21 then
        let '(num, den) := Number.scaled m e (- Z.of_nat f) in
        (if s then "-" else EmptyString)
          ++ fixed_layout ((2 * num + den) / (2 * den)) f
      else Number.toString x
  end.

(** [this.supportedChains], in insertion order. *)
Definition supportedChains : list (string * list (string * string)) :=
  [("base-sepolia",
    [("chainId", "84532");
     ("chainIndex", "84532");
     ("nativeToken", "0xEeeeeEeeeEeEeeEeEeEeeEEEeeeeEeeeeeeeEEeE");
     ("wrappedNative", "0x4200000000000000000000000000000000000006");
     ("usdc", "0x833589fCD6eDb6E08f4c7C32D4f71b54bdA02913");
     ("usdt", "0xfde4C96c8593536E31F229EA8f37b2ADa2699bb2")]);
   ("ethereum",
    [("chainId", "1");
     ("chainIndex", "1");
     ("nativeToken", "0xEeeeeEeeeEeEeeEeEeEeeEEEeeeeEeeeeeeeEEeE");
     ("wrappedNative", "0xC02aaA39b223FE8D0A0e5C4F27eAD9083C756Cc2");
     ("usdc", "0xA0b86991c6218b36c1d19D4a2e9Eb0cE3606eB48");
     ("usdt", "0xdAC17F958D2ee523a2206206994597C13D831ec7")]);
   ("polygon",
    [("chainId", "137");
     ("chainIndex", "137");
     ("nativeToken", "0xEeeeeEeeeEeEeeEeEeEeeEEEeeeeEeeeeeeeEEeE");
     ("wrappedNative", "0x0d500B1d8E8eF31E21C99d1Db9A6444d3ADf1270");
     ("usdc", "0x2791Bca1f2de4661ED88A30C99A7a9449Aa84174");
     ("usdt", "0xc2132D05D31c914a87C6611C10748AEb04B58e8F")])].

(** The chains that [getSupportedChains] returns in mock mode. *)
Definition mockChains : JsVal :=
  VArr
    [VObj [("chainId", VStr "84532");
           ("chainIndex", VStr "84532");
           ("chainName", VStr "Base Sepolia");
           ("dexTokenApproveAddress", VStr "0x3E3B5F27bbf5CC967E074b70E9f4046e31663181");
           ("isMainnet", VBool false)];
     VObj [("chainId", VStr "11155111");
           ("chainIndex", VStr "11155111");
           ("chainName", VStr "Ethereum Sepolia");
           ("dexTokenApproveAddress", VStr "0x3E3B5F27bbf5CC967E074b70E9f4046e31663181");
           ("isMainnet", VBool false)]].

Definition mockToken (address symbol name : string) (decimals : Z)
    (price : string) : JsVal :=
  VObj [("tokenContractAddress", VStr address);
        ("tokenSymbol", VStr symbol);
        ("tokenName", VStr name);
        ("decimals", VNum (Number.of_Z decimals));
        ("tokenUnitPrice", VStr price)].

(** The [mockTokens] of [getTokensForChain]. *)
Definition mockTokens : list JsVal :=
  [mockToken "0xEeeeeEeeeEeEeeEeEeEeeEEEeeeeEeeeeeeeEEeE" "ETH" "Ethereum" 18 "2500.00";
   mockToken "0x833589fCD6eDb6E08f4c7C32D4f71b54bdA02913" "USDC" "USD Coin" 6 "1.00";
   mockToken "0xfde4C96c8593536E31F229EA8f37b2ADa2699bb2" "USDT" "Tether USD" 6 "1.00";
   mockToken "0x4200000000000000000000000000000000000006" "WETH" "Wrapped Ether" 18 "2500.00"].

(** [{ success: true, data }] or [{ success: false, error, data: [] }] *)
Inductive ListResult : Type :=
| ListSuccess (data : JsVal)
| ListFailure (error : string).

(** [{ success: true, status, confirmations, timestamp? }] or
    [{ success: false, error }] *)
Inductive SwapStatus : Type :=
| StatusKnown (status : string) (confirmations : Z) (timestamp : option string)
| StatusFailure (error : string).

(** The [where] argument of [prisma.transaction.count]; an absent field does
    not filter. *)
Record TransactionWhere : Type := {
  where_type : option string;
  where_status : option string
}.

Inductive CountResult : Type :=
| CountResolved (n : Z)
| CountRejected (e : JsError).

(** The other operations of the [PrismaClient] that the service holds; the
    first argument is the consultation counter, as in [World]. *)
Record Database : Type := {
  prisma_transaction_count : nat -> TransactionWhere -> CountResult;
  prisma_disconnect : nat -> option JsError
}.

Record ServiceStats : Type := {
  stat_totalSwaps : Z;
  stat_completedSwaps : Z;
  stat_successRate : JsVal;         (* the text of [toFixed(2)], or the number 0 *)
  stat_supportedChains : Z;
  stat_testnetMode : bool
}.

Definition all_swaps : TransactionWhere :=
  {| where_type := Some "SWAP"; where_status := None |}.

Definition completed_swaps : TransactionWhere :=
  {| where_type := Some "SWAP"; where_status := Some "COMPLETED" |}.

Section RemainingMethods.

Variable world : World.
Variable db : Database.
Variable this : OKXDexService.

(** Get supported chains from OKX DEX API *)
Definition getSupportedChains : Js ListResult :=
  try_catch
    (console_log "Fetching supported chains from OKX DEX..." ;;
     if testnetMode (config this) then
       console_log "Mock mode: Returning testnet supported chains" ;;
       ret (ListSuccess mockChains)
     else
       timestamp <- new_Date world ;;
       let requestPath := "/aggregator/supported/chain" in
       let headers :=
         generateAuthHeaders world this timestamp "GET" requestPath
                             EmptyString EmptyString in
       data <- axios_get_data world (baseUrl (config this) ++ requestPath)
                 headers 10000 ;;
       ret (ListSuccess (or_else (opt_get data "data") (VArr []))))
    (fun error =>
       console_error ("Error fetching supported chains: " ++ message error) ;;
       ret (ListFailure (message error))).

(** Get available tokens for a specific chain *)
Definition getTokensForChain (chainId : string) : Js ListResult :=
  try_catch
    (console_log ("Fetching tokens for chain " ++ chainId ++ "...") ;;
     if testnetMode (config this) then
       console_log "Mock mode: Returning testnet tokens" ;;
       ret (ListSuccess (VArr mockTokens))
     else
       timestamp <- new_Date world ;;
       let requestPath := "/aggregator/all-tokens" in
       let queryParams := URLSearchParams [("chainId", chainId)] in
       let headers :=
         generateAuthHeaders world this timestamp "GET" requestPath
                             ("?" ++ queryParams) EmptyString in
       data <- axios_get_data world
                 (baseUrl (config this) ++ requestPath ++ "?" ++ queryParams)
                 headers 10000 ;;
       ret (ListSuccess (or_else (opt_get data "data") (VArr []))))
    (fun error =>
       console_error ("Error fetching tokens for chain " ++ chainId ++ ": "
                        ++ message error) ;;
       ret (ListFailure (message error))).

(** Get swap transaction status *)
Definition getSwapStatus (transactionHash : string) : Js SwapStatus :=
  try_catch
    (if testnetMode (config this) then
       now <- new_Date world ;;
       ret (StatusKnown "completed" 12 (Some now))
     else
       ret (StatusKnown "pending" 0 None))
    (fun error =>
       console_error ("Error checking swap status: " ++ message error) ;;
       ret (StatusFailure (message error))).

(** [await this.prisma.transaction.count({ where })] *)
Definition prisma_count (criteria : TransactionWhere) : Js Z :=
  r <- consult (fun t => prisma_transaction_count db t criteria) ;;
  match r with
  | CountResolved n => ret n
  | CountRejected e => throw e
  end.

(** [swapCount > 0 ? (completedSwaps / swapCount * 100).toFixed(2) : 0] *)
Definition successRate (swapCount completedSwaps : Z) : JsVal :=
  if 0 <? swapCount then
    VStr (toFixed
            (Number.mul (Number.div (Number.of_Z completedSwaps)
                                    (Number.of_Z swapCount))
                        (Number.of_Z 100))
            2)
  else VNum (Number.of_Z 0).

(** Get service statistics *)
Definition getServiceStats : Js ServiceStats :=
  try_catch
    (swapCount <- prisma_count all_swaps ;;
     completedSwaps <- prisma_count completed_swaps ;;
     ret {| stat_totalSwaps := swapCount;
            stat_completedSwaps := completedSwaps;
            stat_successRate := successRate swapCount completedSwaps;
            stat_supportedChains := Z.of_nat (List.length supportedChains);
            stat_testnetMode := testnetMode (config this) |})
    (fun error =>
       console_error ("Error getting service stats: " ++ message error) ;;
       ret {| stat_totalSwaps := 0;
              stat_completedSwaps := 0;
              stat_successRate := VNum (Number.of_Z 0);
              stat_supportedChains := Z.of_nat (List.length supportedChains);
              stat_testnetMode := testnetMode (config this) |}).

(** Cleanup resources *)
Definition cleanup : Js unit :=
  try_catch
    (r <- consult (prisma_disconnect db) ;;
     match r with
     | None => console_log "OKX DEX Service cleanup completed"
     | Some e => throw e
     end)
    (fun error => console_error ("Error during cleanup: " ++ message error)).

End RemainingMethods.

(* ===================================================================== *)
(** ** Vocabulary of the further properties *)
(* ===================================================================== *)

Fixpoint count_requests (evs : list Event) : nat :=
  match evs with
  | [] => O
  | HttpGet _ _ _ :: r => S (count_requests r)
  | _ :: r => count_requests r
  end.

Fixpoint count_writes (evs : list Event) : nat :=
  match evs with
  | [] => O
  | PrismaTransactionCreate _ :: r => S (count_writes r)
  | _ :: r => count_writes r
  end.


Definition swap_log (p : ExecuteSwapParams) : Event :=
  ConsoleLog ("Executing swap: " ++ x_amount p ++ " tokens from "
                ++ x_fromTokenAddress p ++ " to " ++ x_toTokenAddress p).

(** The runtime once [executeSwap] has written its first line. *)
Definition swap_entered (p : ExecuteSwapParams) (rt : Runtime) : Runtime :=
  {| trace := trace rt ++ [swap_log p]; ticks := ticks rt |}.

(** What the live branch of [executeSwap] passes to [getSwapQuote]: its own
    parameters, the slippage defaulted. *)
Definition swap_quote_params (p : ExecuteSwapParams) : SwapQuoteParams :=
  {| q_chainId := x_chainId p;
     q_fromTokenAddress := x_fromTokenAddress p;
     q_toTokenAddress := x_toTokenAddress p;
     q_amount := x_amount p;
     q_slippage := Some (slippage_or_default (x_slippage p));
     q_userWalletAddress := x_userWalletAddress p |}.

(** The live swap request of [executeSwap], issued after the quote request
    (two consultations later): URL, headers, event and answer. *)
Definition swap_url (this : OKXDexService) (p : ExecuteSwapParams) : string :=
  baseUrl (config this) ++ "/aggregator/swap" ++ "?"
    ++ quote_query (swap_quote_params p).

Definition swap_headers (world : World) (this : OKXDexService)
    (p : ExecuteSwapParams) (rt : Runtime) : Headers :=
  generateAuthHeaders world this (date_now world (S (S (ticks rt)))) "GET"
    "/aggregator/swap" ("?" ++ quote_query (swap_quote_params p)) EmptyString.

Definition swap_request (world : World) (this : OKXDexService)
    (p : ExecuteSwapParams) (rt : Runtime) : Event :=
  HttpGet (swap_url this p) (swap_headers world this p rt) 30000.

Definition swap_response (world : World) (this : OKXDexService)
    (p : ExecuteSwapParams) (rt : Runtime) : AxiosResult :=
  axios_get world (S (S (S (ticks rt)))) (swap_url this p)
            (swap_headers world this p rt) 30000.

(** What the live branch of [executeSwap] makes of the provider's answer to
    the swap request. *)
Definition swap_outcome (r : AxiosResult) : SwapResult :=
  match r with
  | AxiosRejected e => SwapFailure (message e)
  | AxiosResolved data =>
      if strict_ne_string (opt_get data "code") "0"
      then SwapFailure (api_error_reason "OKX Swap Error: " data)
      else
        let swapData := opt_index0 (opt_get data "data") in
        if truthy swapData
        then SwapLive swapData (opt_get swapData "data")
        else SwapFailure "No swap data received from OKX API"
  end.

Definition swap_failed (r : SwapResult) : list Event :=
  match r with
  | SwapFailure reason => [ConsoleError ("Error executing swap: " ++ reason)]
  | _ => []
  end.

(** The audit record that the sandbox branch of [executeSwap] writes for a
    payment request: identifier and dates come from the oracles consulted
    after the three of the result. *)
Definition audit_record (world : World) (p : ExecuteSwapParams)
    (paymentRequestId : string) (rt : Runtime) : TransactionCreate :=
  let result := mockSwapResult_of world p rt in
  {| tx_id := crypto_randomUUID world (3 + ticks rt)%nat;
     tx_type := "SWAP";
     tx_status := "completed";
     tx_amount := Number.parseFloat (x_amount p);
     tx_currency := getTokenSymbol (x_fromTokenAddress p) (x_chainId p);
     tx_toAddress := x_toTokenAddress p;
     tx_fromAddress := x_fromTokenAddress p;
     tx_txHash := transactionHash result;
     tx_network := x_chainId p;
     tx_metadata :=
       json_object
         [("paymentRequestId", json_string paymentRequestId);
          ("fromToken", json_string (x_fromTokenAddress p));
          ("toToken", json_string (x_toTokenAddress p));
          ("fromAmount", json_string (x_amount p));
          ("toAmount", json_string (toTokenAmount result));
          ("swapProvider", json_string "OKX_DEX")];
     tx_createdAt := date_now world (4 + ticks rt)%nat;
     tx_updatedAt := date_now world (5 + ticks rt)%nat |}.

(** [if (paymentRequestId)]: the identifier, when it is a non-empty
    string. *)
Definition audited_request (p : ExecuteSwapParams) : option string :=
  match x_paymentRequestId p with
  | Some (String c r) => Some (String c r)
  | _ => None
  end.

(** Prisma's equality filter: a record passes when every field that the
    [where] names is equal, as a string, to the one asked for. *)
Definition where_matches (criteria : TransactionWhere) (r : TransactionCreate) : bool :=
  match where_type criteria with
  | Some t => String.eqb (tx_type r) t
  | None => true
  end
  && match where_status criteria with
     | Some s => String.eqb (tx_status r) s
     | None => true
     end.

(** A database that holds the given transaction records and answers
    [count] from them. *)
Definition database_of (rows : list TransactionCreate) : Database :=
  {| prisma_transaction_count :=
       fun _ criteria =>
         CountResolved (Z.of_nat (List.length (filter (where_matches criteria) rows)));
     prisma_disconnect := fun _ => None |}.

(** The records written to the audit store along a trace. *)
Fixpoint written_records (evs : list Event) : list TransactionCreate :=
  match evs with
  | [] => []
  | PrismaTransactionCreate r :: rest => r :: written_records rest
  | _ :: rest => written_records rest
  end.

(** The live branch of [executeSwap]: its result and the events it adds. *)
Definition live_swap_result (world : World) (this : OKXDexService)
    (p : ExecuteSwapParams) (rt : Runtime) : SwapResult :=
  match quote_outcome (quote_response world this (swap_quote_params p)
                                      (swap_entered p rt)) with
  | QuoteFailure reason => SwapFailure ("Failed to get quote: " ++ reason)
  | QuoteSuccess _ => swap_outcome (swap_response world this p rt)
  end.

Definition live_swap_events (world : World) (this : OKXDexService)
    (p : ExecuteSwapParams) (rt : Runtime) : list Event :=
  [swap_log p;
   quote_log (swap_quote_params p);
   quote_request world this (swap_quote_params p) (swap_entered p rt)]
  ++ match quote_outcome (quote_response world this (swap_quote_params p)
                                         (swap_entered p rt)) with
     | QuoteFailure reason =>
         [ConsoleError ("Error getting swap quote: " ++ reason);
          ConsoleError ("Error executing swap: " ++ "Failed to get quote: " ++ reason)]
     | QuoteSuccess _ =>
         swap_request world this p rt
           :: swap_failed (swap_outcome (swap_response world this p rt))
     end.

(** The sandbox branch of [executeSwap]: the events of the audit write, and
    all the events it adds. *)
Definition audit_events (world : World) (p : ExecuteSwapParams) (rt : Runtime)
  : list Event :=
  match audited_request p with
  | None => []
  | Some id =>
      let r := audit_record world p id rt in
      [PrismaTransactionCreate r;
       match prisma_transaction_create world (6 + ticks rt)%nat r with
       | None => ConsoleLog ("Swap transaction logged: " ++ tx_txHash r)
       | Some e => ConsoleError ("Error logging swap transaction: " ++ message e)
       end]
  end.

Definition sandbox_swap_events (world : World) (p : ExecuteSwapParams)
    (rt : Runtime) : list Event :=
  [swap_log p; ConsoleLog "Mock mode: Simulating swap execution"]
  ++ audit_events world p rt
  ++ [ConsoleLog "Mock swap completed:"].

(** A provider that answers the quote request (the second consultation)
    with a quote and everything else with the given answer. *)
Definition quote_then (swap_answer : AxiosResult) : World :=
  {| axios_get := fun t _ _ _ =>
       if Nat.eqb t 1
       then AxiosResolved
              (VObj [("code", VStr "0");
                     ("data", VArr [VObj [("toTokenAmount", VStr "2490")]])])
       else swap_answer;
     prisma_transaction_create := fun _ _ => None;
     crypto_randomBytes_hex := fun _ n => repeat_char "a" (2 * n);
     crypto_randomUUID := fun _ => "00000000-0000-4000-8000-000000000000";
     crypto_hmac_sha256_base64 := fun _ _ => "c2lnbmF0dXJl";
     date_now := fun _ => "2025-06-26T15:31:38.000Z" |}.

(** A live service with credentials of its own. *)
Definition keyed_env : ProcessEnv :=
  {| NODE_ENV := Some "production";
     OKX_API_KEY := Some "3f1c-key";
     OKX_SECRET_KEY := Some "s3cr3t";
     OKX_PASSPHRASE := Some "open sesame";
     OKX_PROJECT_ID := Some "agenpay";
     OKX_DEX_BASE_URL := None |}.

Definition keyed_service : OKXDexService := new_OKXDexService keyed_env.

(** A world whose HMAC shows its arguments. *)
Definition transparent_world : World :=
  {| axios_get := fun _ _ _ _ => timed_out;
     prisma_transaction_create := fun _ _ => None;
     crypto_randomBytes_hex := fun _ n => repeat_char "a" (2 * n);
     crypto_randomUUID := fun _ => "00000000-0000-4000-8000-000000000000";
     crypto_hmac_sha256_base64 := fun key text => "hmac(" ++ key ++ "," ++ text ++ ")";
     date_now := fun _ => "2025-06-26T15:31:38.000Z" |}.

(** The live requests of [getSupportedChains] and [getTokensForChain]: URL,
    headers (stamped with the clock's answer at the current consultation),
    event and answer. *)
Definition chains_url (this : OKXDexService) : string :=
  baseUrl (config this) ++ "/aggregator/supported/chain".

Definition chains_headers (world : World) (this : OKXDexService) (rt : Runtime)
  : Headers :=
  generateAuthHeaders world this (date_now world (ticks rt)) "GET"
    "/aggregator/supported/chain" EmptyString EmptyString.

Definition chains_request (world : World) (this : OKXDexService) (rt : Runtime)
  : Event :=
  HttpGet (chains_url this) (chains_headers world this rt) 10000.

Definition chains_response (world : World) (this : OKXDexService) (rt : Runtime)
  : AxiosResult :=
  axios_get world (S (ticks rt)) (chains_url this) (chains_headers world this rt) 10000.

Definition tokens_url (this : OKXDexService) (chainId : string) : string :=
  baseUrl (config this) ++ "/aggregator/all-tokens" ++ "?"
    ++ URLSearchParams [("chainId", chainId)].

Definition tokens_headers (world : World) (this : OKXDexService)
    (chainId : string) (rt : Runtime) : Headers :=
  generateAuthHeaders world this (date_now world (ticks rt)) "GET"
    "/aggregator/all-tokens" ("?" ++ URLSearchParams [("chainId", chainId)])
    EmptyString.

Definition tokens_request (world : World) (this : OKXDexService)
    (chainId : string) (rt : Runtime) : Event :=
  HttpGet (tokens_url this chainId) (tokens_headers world this chainId rt) 10000.

Definition tokens_response (world : World) (this : OKXDexService)
    (chainId : string) (rt : Runtime) : AxiosResult :=
  axios_get world (S (ticks rt)) (tokens_url this chainId)
            (tokens_headers world this chainId rt) 10000.

(** What the two list methods make of the provider's answer, and the line
    they write when it is a failure. *)
Definition list_outcome (r : AxiosResult) : ListResult :=
  match r with
  | AxiosResolved data => ListSuccess (or_else (opt_get data "data") (VArr []))
  | AxiosRejected e => ListFailure (message e)
  end.

Definition list_failed (describe : string -> string) (r : ListResult)
  : list Event :=
  match r with
  | ListFailure reason => [ConsoleError (describe reason)]
  | ListSuccess _ => []
  end.

Definition chains_error (reason : string) : string :=
  "Error fetching supported chains: " ++ reason.

Definition tokens_error (chainId reason : string) : string :=
  "Error fetching tokens for chain " ++ chainId ++ ": " ++ reason.

Definition chains_log : Event :=
  ConsoleLog "Fetching supported chains from OKX DEX...".

Definition tokens_log (chainId : string) : Event :=
  ConsoleLog ("Fetching tokens for chain " ++ chainId ++ "...").

(** The address and the symbol of an entry of a token list. *)
Definition token_address (token : JsVal) : JsVal := opt_get token "tokenContractAddress".
Definition token_symbol (token : JsVal) : JsVal := opt_get token "tokenSymbol".

(** An entry of a token list is known to [getTokenSymbol] on a chain when
    the symbol it carries is the one looked up for its address. *)
Definition symbol_agrees (chainId : string) (token : JsVal) : bool :=
  match token_address token, token_symbol token with
  | VStr address, VStr symbol => String.eqb (getTokenSymbol address chainId) symbol
  | _, _ => false
  end.

(** An error envelope of the provider: a code other than ['0'], a message,
    no data. *)
Definition invalid_key : AxiosResult :=
  AxiosResolved (VObj [("code", VStr "50111"); ("msg", VStr "Invalid OK-ACCESS-KEY")]).

(** The two answers of [getServiceStats]: the one computed from the counts
    and the one given when a count fails. *)
Definition stats_of (this : OKXDexService) (swapCount completedSwaps : Z)
  : ServiceStats :=
  {| stat_totalSwaps := swapCount;
     stat_completedSwaps := completedSwaps;
     stat_successRate := successRate swapCount completedSwaps;
     stat_supportedChains := 3;
     stat_testnetMode := testnetMode (config this) |}.

Definition zero_stats (this : OKXDexService) : ServiceStats :=
  {| stat_totalSwaps := 0;
     stat_completedSwaps := 0;
     stat_successRate := VNum (Number.of_Z 0);
     stat_supportedChains := 3;
     stat_testnetMode := testnetMode (config this) |}.

Definition stats_failed (e : JsError) : Event :=
  ConsoleError ("Error getting service stats: " ++ message e).

(** The answers of the store to the two counts of [getServiceStats]. *)
Definition total_count (db : Database) (rt : Runtime) : CountResult :=
  prisma_transaction_count db (ticks rt) all_swaps.

Definition completed_count (db : Database) (rt : Runtime) : CountResult :=
  prisma_transaction_count db (S (ticks rt)) completed_swaps.

(** A store that is out of reach. *)
Definition unreachable_database : Database :=
  {| prisma_transaction_count :=
       fun _ _ => CountRejected (Error "Can't reach database server");
     prisma_disconnect :=
       fun _ => Some (Error "Can't reach database server") |}.

(** A store that answers the two counts with the given numbers. *)
Definition counting_database (swapCount completedSwaps : Z) : Database :=
  {| prisma_transaction_count :=
       fun _ criteria =>
         match where_status criteria with
         | None => CountResolved swapCount
         | Some _ => CountResolved completedSwaps
         end;
     prisma_disconnect := fun _ => None |}.

(** The records that a run of [executeSwap] writes. *)
Definition swap_records (world : World) (this : OKXDexService)
    (p : ExecuteSwapParams) (rt : Runtime) : list TransactionCreate :=
  written_records (new_events rt (snd (executeSwap world this p rt))).

(** Runs of [executeSwap], and the records they write, in order. *)
Definition SwapRun : Type := (World * OKXDexService * ExecuteSwapParams * Runtime)%type.

Definition records_of_runs (runs : list SwapRun) : list TransactionCreate :=
  flat_map (fun run : SwapRun =>
              let '(world, this, p, rt) := run in swap_records world this p rt)
           runs.

(** The demonstration swap, run in the sandbox for a payment request. *)
Definition demo_run (paymentRequestId : string) : SwapRun :=
  (constant_world timed_out None, sandbox_service,
   demo_swap ETH USDC "1" (Some paymentRequestId), fresh).

(** An environment with credentials of its own that does not say
    [production]. *)
Definition staging_env : ProcessEnv :=
  {| NODE_ENV := Some "staging";
     OKX_API_KEY := Some "3f1c-key";
     OKX_SECRET_KEY := Some "s3cr3t";
     OKX_PASSPHRASE := Some "open sesame";
     OKX_PROJECT_ID := Some "agenpay";
     OKX_DEX_BASE_URL := None |}.

(** An envelope with code ['0'] whose only entry has none of the fields of
    a quote. *)
Definition shapeless_quote : AxiosResult :=
  AxiosResolved (VObj [("code", VStr "0"); ("data", VArr [VObj []])]).

(** An envelope of the provider that carries two entries. *)
Definition two_entries : AxiosResult :=
  AxiosResolved
    (VObj [("code", VStr "0");
           ("data", VArr [VObj [("toTokenAmount", VStr "2490");
                                ("data", VStr "0x38ed1739")];
                          VObj [("toTokenAmount", VStr "2480")]])]).


(* ===================================================================== *)
(** ** Vocabulary of the rounding facts *)
(* ===================================================================== *)

(** Numbers are compared through their exact rational values. *)
Definition pow2 (e : Z) : Q := (2 ^ e)%Q.

Definition pow10 (e : Z) : Q := (10 ^ e)%Q.

(** The value of the magnitude [m * 2^e]. *)
Definition magnitude (m : positive) (e : Z) : Q := (inject_Z (Zpos m) * pow2 e)%Q.

(** The rational [d * 10^e]. *)
Definition decimal (d e : Z) : Q := (inject_Z d * pow10 e)%Q.

(** A shift record [(m, r, s)] locates a rational [w] in [[m, m + 1)]: the
    round bit [r] tells the half it is in, the sticky bit [s] whether it is
    strictly inside that half. *)
Definition located (mrs : shr_record) (w : Q) : Prop :=
  let m := inject_Z (shr_m mrs) in
  match shr_r mrs, shr_s mrs with
  | false, false => (w == m)%Q
  | false, true => (m < w /\ w < m + (1 # 2))%Q
  | true, false => (w == m + (1 # 2))%Q
  | true, true => (m + (1 # 2) < w /\ w < m + 1)%Q
  end.

(** [nearest v m e]: the binary64 number [m * 2^e], with a mantissa of 53
    bits, is the one nearest to the positive rational [v], the even mantissa
    winning a tie.  Below the least mantissa [2^52] the neighbour is half as
    far. *)
Definition nearest (v : Q) (m : positive) (e : Z) : Prop :=
  (2 ^ 52 <= Zpos m < 2 ^ 53)%Z
  /\ (v <= magnitude m e + pow2 e * (1 # 2))%Q
  /\ ((v == magnitude m e + pow2 e * (1 # 2))%Q -> Z.even (Zpos m) = true)
  /\ (if (Zpos m =? 2 ^ 52)%Z
      then (magnitude m e - pow2 e * (1 # 4) <= v)%Q
      else (magnitude m e - pow2 e * (1 # 2) <= v)%Q
           /\ ((v == magnitude m e - pow2 e * (1 # 2))%Q -> Z.even (Zpos m) = true)).

(** A normal number (its mantissa has 53 bits) whose exponent lies between
    [lo] and [hi]. *)
Definition within (lo hi : Z) (x : Number.t) : bool :=
  match x with
  | S754_finite _ m e =>
      (Zpos (digits2_pos m) =? 53) && (lo <=? e) && (e <=? hi)
  | _ => false
  end.

(** An ordinary amount: a normal number of magnitude at least [2^-1006] and
    less than [2^1006] (about [1.5e-303] and [6.9e302]).  Its products and
    quotients by the rates of the sandbox and by the fee factor neither
    overflow nor underflow. *)
Definition ordinary : Number.t -> bool := within (-1058) 953.

(** The numbers that ordinary amounts are converted to: normal, of
    magnitude at least [2^-1019] and less than [2^1020]. *)
Definition converted : Number.t -> bool := within (-1071) 967.

(** The estimate from which [decimal_exponent] starts its search is low
    enough for the binary logarithm [l2]. *)
Definition estimate_is_low (l2 : Z) : bool :=
  Qle_bool (pow10 ((l2 * 30103) / 100000 - 2)) (pow2 l2).

(** A text of decimal digits only. *)
Fixpoint all_digits (s : string) : bool :=
  match s with
  | EmptyString => true
  | String c r => Chars.is_digit c && all_digits r
  end.

(** The symbols that [getTokenSymbol] can return. *)
Definition symbols : list string := ["ETH"; "WETH"; "USDC"; "USDT"; "UNKNOWN"].

(** The number that [calculateMockSwapOutput] prints, from the symbols of
    the two tokens and the number read in the amount. *)
Definition swap_number (fromSymbol toSymbol : string) (x : Number.t) : Number.t :=
  Number.mul (Number.mul x (rate_of (fromSymbol ++ "_" ++ toSymbol)))
             Number.lit_0_997.

(** The number that the mock conversion logic of [getSwapQuote] prints;
    [None] for a pair without a branch, whose amount is returned as it
    came. *)
Definition quote_number (fromSymbol toSymbol : string) (x : Number.t)
  : option Number.t :=
  if String.eqb fromSymbol "ETH" && String.eqb toSymbol "USDC" then
    Some (Number.mul x Number.lit_2500)
  else if String.eqb fromSymbol "USDC" && String.eqb toSymbol "ETH" then
    Some (Number.div x Number.lit_2500)
  else if String.eqb fromSymbol "USDC" && String.eqb toSymbol "USDT" then
    Some (Number.mul x Number.lit_0_999)
  else None.

Definition mockSwapNumber (fromToken toToken amount chainId : string) : Number.t :=
  swap_number (getTokenSymbol fromToken chainId) (getTokenSymbol toToken chainId)
              (Number.parseFloat amount).

Definition mockQuoteNumber (fromToken toToken amount chainId : string)
  : option Number.t :=
  quote_number (getTokenSymbol fromToken chainId) (getTokenSymbol toToken chainId)
               (Number.parseFloat amount).

(* ===================================================================== *)
(** ** Arithmetic facts: signs survive rounding *)
(* ===================================================================== *)

Module NumberFacts.
Import Number.





Lemma shr_record_of_loc_m m l : shr_m (shr_record_of_loc m l) = m.
Proof. destruct l as [ | [ | | ]]; reflexivity. Qed.








End NumberFacts.

(* ===================================================================== *)
(** ** Text facts: printing and reading numbers *)
(* ===================================================================== *)

Module TextFacts.
Import Number NumberFacts.











End TextFacts.

(* ===================================================================== *)
(** ** The methods, equationally *)
(* ===================================================================== *)

Ltac js_unfold :=
  cbv beta iota zeta delta
    [try_catch bind ret throw lift console_log console_error
     axios_get_data prisma_create new_Date randomBytes_hex randomUUID
     consult emit trace ticks].

Lemma new_events_app rt evs n :
  new_events rt {| trace := trace rt ++ evs; ticks := n |} = evs.
Proof.
  unfold new_events; cbn [trace].
  induction (trace rt) as [ | ev l IH]; [reflexivity | exact IH].
Qed.

Section MethodFacts.

Variable world : World.
Variable this : OKXDexService.

Lemma getSwapQuote_sandbox p rt :
  testnetMode (config this) = true ->
  getSwapQuote world this p rt =
    (Normal (QuoteSuccess (mockQuote p)),
     {| trace := trace rt ++ [quote_log p; ConsoleLog "Mock mode: Generating mock swap quote"];
        ticks := ticks rt |}).
Proof.
  intros Hmode; unfold getSwapQuote; rewrite Hmode.
  js_unfold; cbn [trace ticks]. rewrite <- app_assoc. reflexivity.
Qed.

Lemma getSwapQuote_live p rt :
  testnetMode (config this) = false ->
  getSwapQuote world this p rt =
    (Normal (quote_outcome (quote_response world this p rt)),
     {| trace := trace rt ++ [quote_log p; quote_request world this p rt]
                   ++ quote_failed (quote_outcome (quote_response world this p rt));
        ticks := S (S (ticks rt)) |}).
Proof.
  intros Hmode; unfold getSwapQuote; rewrite Hmode.
  unfold quote_response, quote_request, quote_headers, quote_url, quote_query.
  js_unfold; cbn [trace ticks].
  destruct (axios_get world _ _ _ _) as [data | e]; cbn [quote_outcome quote_failed].
  - destruct (strict_ne_string (opt_get data "code") "0").
    + unfold throw_api_error, api_error_reason; js_unfold.
      destruct (display _) as [msg | e]; cbn [message quote_failed trace ticks];
        rewrite <- !app_assoc; reflexivity.
    + cbn [quote_failed trace ticks]. rewrite <- !app_assoc, app_nil_r. reflexivity.
  - cbn [trace ticks]. rewrite <- !app_assoc. reflexivity.
Qed.

Lemma getSwapQuote_returns p rt :
  exists q rt', getSwapQuote world this p rt = (Normal q, rt').
Proof.
  destruct (testnetMode (config this)) eqn:Hmode.
  - rewrite getSwapQuote_sandbox by assumption; eauto.
  - rewrite getSwapQuote_live by assumption; eauto.
Qed.

Lemma calculatePaymentRoute_swap p rt q rt' :
  String.eqb (toLowerCase (payerPreferredToken p))
             (toLowerCase (payeeRequiredToken p)) = false ->
  getSwapQuote world this (route_quote_params p) (route_entered p rt) = (Normal q, rt') ->
  calculatePaymentRoute world this p rt =
    (Normal (fst (route_of_quote (amount p) q)),
     {| trace := trace rt' ++ snd (route_of_quote (amount p) q);
        ticks := ticks rt' |}).
Proof.
  intros Hne Hq; unfold calculatePaymentRoute; rewrite Hne.
  unfold try_catch at 1. unfold bind at 1. unfold console_log, emit.
  unfold bind at 1.
  change (getSwapQuote world this _ _) with
    (getSwapQuote world this (route_quote_params p) (route_entered p rt)).
  rewrite Hq.
  destruct q as [data | reason]; cbn [route_of_quote fst snd].
  - destruct data; js_unfold; cbn [get message fst snd opt_get];
      try rewrite app_nil_r; destruct rt'; reflexivity.
  - js_unfold. rewrite app_nil_r. destruct rt'; reflexivity.
Qed.

End MethodFacts.

Section RouteFacts.

Variable world : World.
Variable this : OKXDexService.

Lemma calculatePaymentRoute_direct p rt :
  String.eqb (toLowerCase (payerPreferredToken p))
             (toLowerCase (payeeRequiredToken p)) = true ->
  calculatePaymentRoute world this p rt =
    (Normal (RouteDirect (amount p) (amount p)), route_entered p rt).
Proof.
  intros Heq; unfold calculatePaymentRoute; rewrite Heq.
  js_unfold; reflexivity.
Qed.

Lemma calculatePaymentRoute_returns p rt :
  exists route rt', calculatePaymentRoute world this p rt = (Normal route, rt').
Proof.
  destruct (String.eqb (toLowerCase (payerPreferredToken p))
                       (toLowerCase (payeeRequiredToken p))) eqn:Heq.
  - rewrite calculatePaymentRoute_direct by assumption; eauto.
  - destruct (getSwapQuote_returns world this (route_quote_params p)
                (route_entered p rt)) as (q & rt' & Hq).
    rewrite (calculatePaymentRoute_swap world this p rt q rt' Heq Hq); eauto.
Qed.

Lemma calculatePaymentRoute_quote_failure p rt reason :
  String.eqb (toLowerCase (payerPreferredToken p))
             (toLowerCase (payeeRequiredToken p)) = false ->
  fst (getSwapQuote world this (route_quote_params p) (route_entered p rt))
    = Normal (QuoteFailure reason) ->
  calculatePaymentRoute world this p rt =
    (Normal (RouteUnavailable reason),
     snd (getSwapQuote world this (route_quote_params p) (route_entered p rt))).
Proof.
  intros Hne Hq.
  destruct (getSwapQuote world this (route_quote_params p) (route_entered p rt))
    as [c rt'] eqn:E; simpl in Hq; subst c.
  rewrite (calculatePaymentRoute_swap world this p rt _ rt' Hne E).
  cbn [route_of_quote fst snd]. rewrite app_nil_r. destruct rt'; reflexivity.
Qed.

Lemma calculatePaymentRoute_no_quote_data p rt :
  String.eqb (toLowerCase (payerPreferredToken p))
             (toLowerCase (payeeRequiredToken p)) = false ->
  fst (getSwapQuote world this (route_quote_params p) (route_entered p rt))
    = Normal (QuoteSuccess VNull) ->
  fst (calculatePaymentRoute world this p rt) =
    Normal (RouteUnavailable
              "Cannot read properties of null (reading 'toTokenAmount')").
Proof.
  intros Hne Hq.
  destruct (getSwapQuote world this (route_quote_params p) (route_entered p rt))
    as [c rt'] eqn:E; simpl in Hq; subst c.
  rewrite (calculatePaymentRoute_swap world this p rt _ rt' Hne E).
  reflexivity.
Qed.

Lemma calculatePaymentRoute_quote_data p rt data :
  String.eqb (toLowerCase (payerPreferredToken p))
             (toLowerCase (payeeRequiredToken p)) = false ->
  fst (getSwapQuote world this (route_quote_params p) (route_entered p rt))
    = Normal (QuoteSuccess data) ->
  data <> VNull ->
  data <> VUndefined ->
  fst (calculatePaymentRoute world this p rt)
    = Normal (RouteSwap (amount p)
                (opt_get data "toTokenAmount") (opt_get data "estimatedGas")
                (opt_get data "tradeFee") (opt_get data "priceImpact")
                (opt_get data "route") (opt_get data "slippage")).
Proof.
  intros Hne Hq Hnull Hundef.
  destruct (getSwapQuote world this (route_quote_params p) (route_entered p rt))
    as [c rt'] eqn:E; simpl in Hq; subst c.
  rewrite (calculatePaymentRoute_swap world this p rt _ rt' Hne E).
  cbn [fst route_of_quote].
  destruct data; try contradiction; reflexivity.
Qed.

Lemma logSwapTransaction_returns swapData rt :
  exists rt', logSwapTransaction world swapData rt = (Normal tt, rt').
Proof.
  unfold logSwapTransaction; js_unfold.
  destruct (prisma_transaction_create world _ _); eauto.
Qed.

Lemma logSwapTransaction_failure_logged swapData rt e :
  (forall t data, prisma_transaction_create world t data = Some e) ->
  exists before,
    trace (snd (logSwapTransaction world swapData rt)) =
      (before ++ [ConsoleError ("Error logging swap transaction: " ++ message e)])%list.
Proof.
  intros Hfail; unfold logSwapTransaction; js_unfold.
  rewrite Hfail; cbn [snd trace]. eauto.
Qed.

Lemma executeSwap_sandbox p rt :
  testnetMode (config this) = true ->
  fst (executeSwap world this p rt) = Normal (SwapMock (mockSwapResult_of world p rt)).
Proof.
  intros Hmode; unfold executeSwap; rewrite Hmode.
  js_unfold.
  destruct (x_paymentRequestId p) as [[ | c r] | ]; try reflexivity.
  match goal with
  | |- context [logSwapTransaction world ?d ?r0] =>
      destruct (logSwapTransaction_returns d r0) as [rt' H]; rewrite H
  end.
  reflexivity.
Qed.

End RouteFacts.

Lemma executeSwap_audit_store_irrelevant world store1 store2 this p rt :
  fst (executeSwap (with_audit_store world store1) this p rt)
  = fst (executeSwap (with_audit_store world store2) this p rt).
Proof.
  destruct (testnetMode (config this)) eqn:Hmode.
  - rewrite !executeSwap_sandbox by assumption. reflexivity.
  - unfold executeSwap; rewrite Hmode. reflexivity.
Qed.

Lemma getSwapQuote_live_request world this p rt :
  testnetMode (config this) = false ->
  exists failure,
    new_events rt (snd (getSwapQuote world this p rt))
    = quote_log p :: quote_request world this p rt :: failure.
Proof.
  intros Hmode.
  rewrite getSwapQuote_live by assumption.
  eexists. cbn [snd]. rewrite new_events_app. reflexivity.
Qed.

Lemma quote_query_layout p :
  quote_query p
  = "chainId=" ++ urlencode (q_chainId p)
    ++ "&fromTokenAddress=" ++ urlencode (q_fromTokenAddress p)
    ++ "&toTokenAddress=" ++ urlencode (q_toTokenAddress p)
    ++ "&amount=" ++ urlencode (q_amount p)
    ++ "&slippage=" ++ urlencode (slippage_or_default (q_slippage p))
    ++ "&userWalletAddress=" ++ urlencode (q_userWalletAddress p).
Proof.
  unfold quote_query, swap_query; cbn [URLSearchParams].
  change (urlencode "chainId") with "chainId".
  change (urlencode "fromTokenAddress") with "fromTokenAddress".
  change (urlencode "toTokenAddress") with "toTokenAddress".
  change (urlencode "amount") with "amount".
  change (urlencode "slippage") with "slippage".
  change (urlencode "userWalletAddress") with "userWalletAddress".
  cbn [append]. reflexivity.
Qed.

Lemma executeSwap_sandbox_amount world this p rt :
  testnetMode (config this) = true ->
  executed_amount (fst (executeSwap world this p rt))
  = Some (calculateMockSwapOutput (x_fromTokenAddress p) (x_toTokenAddress p)
                                  (x_amount p) (x_chainId p)).
Proof. intros Hmode. now rewrite executeSwap_sandbox. Qed.

Lemma getSwapQuote_sandbox_amount world this p rt :
  testnetMode (config this) = true ->
  quoted_amount (fst (getSwapQuote world this p rt))
  = Some (mockQuoteOutputAmount (q_fromTokenAddress p) (q_toTokenAddress p)
                                (q_amount p) (q_chainId p)).
Proof. intros Hmode. now rewrite getSwapQuote_sandbox. Qed.

Lemma getTokenSymbol_base_sepolia chainId tokenAddress :
  inherited chainId = false ->
  getTokenSymbol tokenAddress chainId = getTokenSymbol tokenAddress "base-sepolia".
Proof.
  intros H; unfold getTokenSymbol, chainTokens_of, popularTokens; cbn [assoc].
  rewrite H. destruct (String.eqb "base-sepolia" chainId); reflexivity.
Qed.


(* ===================================================================== *)
(** ** The sandbox arithmetic *)
(* ===================================================================== *)

Section SandboxArithmetic.
Import Number NumberFacts TextFacts.





Lemma mockQuoteOutputAmount_unquoted fromToken toToken amount chainId :
  quoted_pair (getTokenSymbol fromToken chainId) (getTokenSymbol toToken chainId) = false ->
  mockQuoteOutputAmount fromToken toToken amount chainId = amount.
Proof.
  unfold quoted_pair, mockQuoteOutputAmount; intros H.
  apply orb_false_elim in H as [H H3]; apply orb_false_elim in H as [H1 H2].
  rewrite H1, H2, H3; reflexivity.
Qed.

End SandboxArithmetic.

(* ===================================================================== *)
(** ** Regression values of the number model *)
(* ===================================================================== *)

(** The literals of the source, as binary64 values: [0.997] is
    [0x1.fe76c8b439581p-1], [0.999] is [0x1.ff7ced916872bp-1], [1.001] is
    [0x1.004189374bc6ap+0] and [1/2500] is [0x1.a36e2eb1c432dp-12]. *)
Example source_literals :
  Number.lit_0_997 = S754_finite false 8980177656976769 (-53)
  /\ Number.lit_0_999 = S754_finite false 8998192055486251 (-53)
  /\ Number.lit_1_001 = S754_finite false 4508103226997866 (-52)
  /\ Number.lit_2500 = S754_finite false 5497558138880000 (-41)
  /\ Number.div Number.lit_1 Number.lit_2500
     = S754_finite false 7378697629483821 (-64).
Proof. repeat split; vm_compute; reflexivity. Qed.

Example parseFloat_samples :
  Number.parseFloat "0.1" = S754_finite false 7205759403792794 (-56)
  /\ Number.parseFloat "  -12.5e3xyz" = S754_finite true 6871947673600000 (-39)
  /\ Number.parseFloat ".5" = S754_finite false 4503599627370496 (-53)
  /\ Number.parseFloat "abc" = S754_nan
  /\ Number.parseFloat "." = S754_nan
  /\ Number.parseFloat "-0" = S754_zero true
  /\ Number.parseFloat "Infinityx" = S754_infinity false
  /\ Number.parseFloat "1.7976931348623159e308" = S754_infinity false
  /\ Number.parseFloat "2e-324" = S754_zero false.
Proof. repeat split; vm_compute; reflexivity. Qed.

Example toString_samples :
  Number.toString (Number.parseFloat "1000000000000000000") = "1000000000000000000"
  /\ Number.toString (Number.parseFloat "123456789012345678901") = "123456789012345680000"
  /\ Number.toString (Number.parseFloat "1e21") = "1e+21"
  /\ Number.toString (Number.parseFloat "1e23") = "1e+23"
  /\ Number.toString (Number.parseFloat "0.000001") = "0.000001"
  /\ Number.toString (Number.parseFloat "0.0000001") = "1e-7"
  /\ Number.toString (Number.parseFloat "5e-324") = "5e-324"
  /\ Number.toString (Number.parseFloat "9007199254740993") = "9007199254740992"
  /\ Number.toString (Number.parseFloat "0.30000000000000004") = "0.30000000000000004"
  /\ Number.toString (Number.parseFloat "-0") = "0"
  /\ Number.toString (Number.parseFloat "x") = "NaN".
Proof. repeat split; vm_compute; reflexivity. Qed.

(** The sandbox conversions of amount ["1"], pair by pair: the symbols, the
    executed amount and the quoted amount. *)
Example sandbox_table_at_one :
  map (fun pair =>
         (rate_key (fst pair) (snd pair) "84532",
          calculateMockSwapOutput (fst pair) (snd pair) "1" "84532",
          mockQuoteOutputAmount (fst pair) (snd pair) "1" "84532"))
      [(ETH, USDC); (ETH, USDT); (USDC, ETH); (USDT, ETH); (USDC, USDT);
       (USDT, USDC); (WETH, ETH); (ETH, WETH)]
  = [("ETH_USDC", "2492.5", "2500");
     ("ETH_USDT", "2492.5", "1");
     ("USDC_ETH", "0.00039880000000000004", "0.0004");
     ("USDT_ETH", "0.00039880000000000004", "1");
     ("USDC_USDT", "0.996003", "0.999");
     ("USDT_USDC", "0.9979969999999999", "1");
     ("WETH_ETH", "0.997", "1");
     ("ETH_WETH", "0.997", "1")].
Proof. vm_compute; reflexivity. Qed.

(* ===================================================================== *)
(** ** Rounding facts: the number nearest to a rational *)
(* ===================================================================== *)


Lemma pow2_pos e : (0 < pow2 e)%Q.
Proof. unfold pow2. apply Qpower_0_lt. reflexivity. Qed.

Lemma pow2_add a b : (pow2 (a + b) == pow2 a * pow2 b)%Q.
Proof. unfold pow2. apply Qpower_plus. discriminate. Qed.

Lemma pow2_succ e : (pow2 (e + 1) == 2 * pow2 e)%Q.
Proof. rewrite pow2_add. unfold pow2 at 2. rewrite Qpower_1_r. ring. Qed.

Lemma pow2_nonneg n : (0 <= n)%Z -> (pow2 n == inject_Z (2 ^ n))%Q.
Proof. intros H. unfold pow2. now rewrite Zpower_Qpower. Qed.

Lemma pow2_le a b : (a <= b)%Z -> (pow2 a <= pow2 b)%Q.
Proof. intros H. unfold pow2. apply Qpower_le_compat_l; [assumption | lra]. Qed.

Lemma digits2_pos_le p : (2 ^ (Zpos (digits2_pos p) - 1) <= Zpos p)%Z.
Proof.
  induction p as [p IH | p IH | ]; cbn [digits2_pos].
  - replace (Zpos (Pos.succ (digits2_pos p)) - 1)%Z
      with (Z.succ (Zpos (digits2_pos p) - 1)) by lia.
    rewrite Z.pow_succ_r by lia. lia.
  - replace (Zpos (Pos.succ (digits2_pos p)) - 1)%Z
      with (Z.succ (Zpos (digits2_pos p) - 1)) by lia.
    rewrite Z.pow_succ_r by lia. lia.
  - reflexivity.
Qed.

Lemma digits2_pos_gt p : (Zpos p < 2 ^ Zpos (digits2_pos p))%Z.
Proof.
  induction p as [p IH | p IH | ]; cbn [digits2_pos].
  - rewrite Pos2Z.inj_succ, Z.pow_succ_r by lia. lia.
  - rewrite Pos2Z.inj_succ, Z.pow_succ_r by lia. lia.
  - reflexivity.
Qed.

(** The number of bits of a positive integer is determined by the powers of
    two around it. *)
Lemma digits2_pos_unique p d :
  (2 ^ (d - 1) <= Zpos p < 2 ^ d)%Z -> Zpos (digits2_pos p) = d.
Proof.
  intros [Hlo Hhi].
  pose proof (digits2_pos_le p) as L. pose proof (digits2_pos_gt p) as G.
  destruct (Z.lt_trichotomy (Zpos (digits2_pos p)) d) as [H | [H | H]];
    [exfalso | assumption | exfalso].
  - assert (0 < d)%Z by lia.
    assert (2 ^ Zpos (digits2_pos p) <= 2 ^ (d - 1))%Z
      by (apply Z.pow_le_mono_r; lia).
    lia.
  - destruct (Z_lt_le_dec d 0) as [Hd | Hd].
    + rewrite (Z.pow_neg_r 2 d) in Hhi by lia. lia.
    + assert (2 ^ d <= 2 ^ (Zpos (digits2_pos p) - 1))%Z
        by (apply Z.pow_le_mono_r; lia).
      lia.
Qed.

Lemma inject_Z_xO p : inject_Z (Zpos p~0) = (2 * inject_Z (Zpos p))%Q.
Proof. now rewrite (Pos2Z.inj_xO p), inject_Z_mult. Qed.

Lemma inject_Z_xI p : inject_Z (Zpos p~1) = (2 * inject_Z (Zpos p) + 1)%Q.
Proof. now rewrite (Pos2Z.inj_xI p), inject_Z_plus, inject_Z_mult. Qed.

(** One step to the right halves what the record locates. *)
Lemma shr_1_located mrs w :
  (0 <= shr_m mrs)%Z -> located mrs w -> located (shr_1 mrs) (w * (1 # 2)).
Proof.
  destruct mrs as [m r s]; cbn [shr_m]; intros Hm.
  destruct m as [ | [p | p | ] | p]; try lia;
    unfold located; cbn [shr_1 shr_m shr_r shr_s orb];
    rewrite ?inject_Z_xO, ?inject_Z_xI;
    destruct r, s; cbn [orb]; intros H;
    change (inject_Z 0) with 0%Q in *; change (inject_Z 1) with 1%Q in *; lra.
Qed.

Lemma shr_1_m mrs : (0 <= shr_m mrs)%Z -> shr_m (shr_1 mrs) = (shr_m mrs / 2)%Z.
Proof.
  destruct mrs as [m r s]; cbn [shr_m]; intros Hm.
  destruct m as [ | [p | p | ] | p]; try lia; cbn [shr_1 shr_m].
  - reflexivity.
  - rewrite (Pos2Z.inj_xI p). apply Z.div_unique with (r := 1%Z); lia.
  - rewrite (Pos2Z.inj_xO p). apply Z.div_unique with (r := 0%Z); lia.
  - reflexivity.
Qed.

Lemma iter_pos_iter {A : Type} (f : A -> A) n : forall x, iter_pos f n x = Pos.iter f x n.
Proof.
  induction n as [n IH | n IH | ]; intros x; cbn [iter_pos Pos.iter].
  - rewrite !IH, !Pos.iter_swap. reflexivity.
  - rewrite !IH. reflexivity.
  - reflexivity.
Qed.

Lemma shr_iter_located n mrs w :
  (0 <= shr_m mrs)%Z -> located mrs w ->
  (0 <= shr_m (iter_pos shr_1 n mrs))%Z
  /\ shr_m (iter_pos shr_1 n mrs) = (shr_m mrs / 2 ^ Zpos n)%Z
  /\ located (iter_pos shr_1 n mrs) (w * / pow2 (Zpos n)).
Proof.
  rewrite iter_pos_iter.
  revert mrs w. induction n as [ | n IH] using Pos.peano_ind; intros mrs w Hm Hl.
  - cbn [Pos.iter]. split; [ | split].
    + rewrite shr_1_m by assumption. apply Z.div_pos; lia.
    + rewrite shr_1_m by assumption. reflexivity.
    + apply shr_1_located in Hl; [ | assumption].
      replace (w * / pow2 1)%Q with (w * (1 # 2))%Q; [assumption | reflexivity].
  - rewrite Pos.iter_succ.
    destruct (IH mrs w Hm Hl) as (H0 & Hdiv & Hloc).
    split; [ | split].
    + rewrite shr_1_m by assumption. apply Z.div_pos; lia.
    + rewrite shr_1_m, Hdiv by assumption.
      rewrite Pos2Z.inj_succ, Z.pow_succ_r by lia.
      rewrite Z.div_div by lia. f_equal. lia.
    + apply shr_1_located in Hloc; [ | assumption].
      assert (E : (w * / pow2 (Zpos n) * (1 # 2) == w * / pow2 (Zpos (Pos.succ n)))%Q).
      { rewrite Pos2Z.inj_succ. unfold Z.succ. rewrite pow2_succ.
        pose proof (pow2_pos (Zpos n)). field. lra. }
      clear IH Hl. unfold located in *. cbv zeta in *.
      set (a := (w * / pow2 (Zpos n) * (1 # 2))%Q) in *.
      set (b := (w * / pow2 (Zpos (Pos.succ n)))%Q) in *.
      destruct (shr_r (shr_1 _)), (shr_s (shr_1 _)); lra.
Qed.

Lemma loc_of_shr_record_of_loc m l :
  loc_of_shr_record (shr_record_of_loc m l) = l.
Proof. destruct l as [ | [ | | ]]; reflexivity. Qed.

Lemma shr_record_of_loc_of_shr_record mrs :
  shr_record_of_loc (shr_m mrs) (loc_of_shr_record mrs) = mrs.
Proof. destruct mrs as [m [] []]; reflexivity. Qed.

(** Rounding a located rational to the nearest integer, ties to even. *)
Lemma round_nearest_even_located mrs w :
  located mrs w ->
  let m2 := round_nearest_even (shr_m mrs) (loc_of_shr_record mrs) in
  (m2 = shr_m mrs \/ m2 = (shr_m mrs + 1)%Z)
  /\ (inject_Z m2 - (1 # 2) <= w <= inject_Z m2 + (1 # 2))%Q
  /\ ((w == inject_Z m2 + (1 # 2))%Q -> Z.even m2 = true)
  /\ ((w == inject_Z m2 - (1 # 2))%Q -> Z.even m2 = true)
  /\ (m2 = (shr_m mrs + 1)%Z -> (inject_Z (shr_m mrs) + (1 # 2) <= w)%Q)
  /\ (inject_Z (shr_m mrs) <= w < inject_Z (shr_m mrs) + 1)%Q.
Proof.
  destruct mrs as [m r s]; unfold located; cbn [shr_m shr_r shr_s].
  destruct r, s; cbn [loc_of_shr_record round_nearest_even]; intros H.
  - rewrite inject_Z_plus. change (inject_Z 1) with 1%Q.
    repeat split; try lra; try lia; auto.
  - destruct (Z.even m) eqn:Hev.
    + repeat split; try lra; try lia; auto.
    + rewrite inject_Z_plus. change (inject_Z 1) with 1%Q.
      assert (Z.even (m + 1) = true).
      { rewrite Z.add_1_r, Z.even_succ, <- Z.negb_even, Hev. reflexivity. }
      repeat split; try lra; try lia; auto.
  - repeat split; try lra; try lia; auto.
  - repeat split; try lra; try lia; auto.
Qed.

Lemma div_pow2_bounds mx D n :
  (0 <= n)%Z -> (2 ^ (D - 1) <= mx < 2 ^ D)%Z -> (D - n = 53)%Z ->
  (2 ^ 52 <= mx / 2 ^ n < 2 ^ 53)%Z.
Proof.
  intros Hn [Hlo Hhi] HD.
  assert (P : (0 < 2 ^ n)%Z) by (apply Z.pow_pos_nonneg; lia).
  split.
  - apply Z.div_le_lower_bound; [assumption | ].
    rewrite Z.mul_comm, <- Z.pow_add_r by lia.
    replace (52 + n)%Z with (D - 1)%Z by lia. assumption.
  - apply Z.div_lt_upper_bound; [assumption | ].
    rewrite <- Z.pow_add_r by lia.
    replace (n + 53)%Z with D by lia. assumption.
Qed.

(** The first shift of [binary_round_aux], for a mantissa of at least 53
    bits in the range of the normal numbers: 53 bits are kept. *)
Lemma shr_fexp_normal p ex lx w :
  let D := Zpos (digits2_pos p) in
  (53 <= D)%Z -> (-1074 <= D + ex - 53)%Z ->
  located (shr_record_of_loc (Zpos p) lx) w ->
  exists mrs,
    shr_fexp Number.prec Number.emax (Zpos p) ex lx = (mrs, (D + ex - 53)%Z)
    /\ (2 ^ 52 <= shr_m mrs < 2 ^ 53)%Z
    /\ shr_m mrs = (Zpos p / 2 ^ (D - 53))%Z
    /\ located mrs (w * / pow2 (D - 53)).
Proof.
  intros D HD Hlo Hloc.
  pose proof (digits2_pos_le p) as L. pose proof (digits2_pos_gt p) as G.
  fold D in L, G.
  unfold shr_fexp. cbn [Zdigits2]. fold D.
  replace (fexp Number.prec Number.emax (D + ex) - ex)%Z with (D - 53)%Z
    by (unfold fexp, SpecFloat.emin, Number.prec, Number.emax; lia).
  destruct (D - 53)%Z as [ | n | n] eqn:Hn; try lia.
  - exists (shr_record_of_loc (Zpos p) lx). cbn [shr].
    rewrite NumberFacts.shr_record_of_loc_m.
    split; [f_equal; lia | ].
    assert (D = 53%Z) by lia.
    split; [ | split].
    + replace (2 ^ 52)%Z with (2 ^ (D - 1))%Z by (f_equal; lia).
      replace (2 ^ 53)%Z with (2 ^ D)%Z by (f_equal; lia). lia.
    + now rewrite Z.pow_0_r, Z.div_1_r.
    + unfold located in *. cbv zeta in *.
      assert (E : (w * / pow2 0 == w)%Q) by (unfold pow2; rewrite Qpower_0_r; field).
      set (a := (w * / pow2 0)%Q) in *.
      destruct (shr_r _), (shr_s _); lra.
  - destruct (shr_iter_located n (shr_record_of_loc (Zpos p) lx) w)
      as (_ & Hdiv & Hl); [rewrite NumberFacts.shr_record_of_loc_m; lia | assumption | ].
    rewrite NumberFacts.shr_record_of_loc_m in Hdiv.
    exists (iter_pos shr_1 n (shr_record_of_loc (Zpos p) lx)). cbn [shr].
    split; [f_equal; lia | ].
    split; [ | split; assumption].
    rewrite Hdiv. apply (div_pow2_bounds (Zpos p) D (Zpos n)); lia.
Qed.

Lemma scaled_le a b u : (0 < u)%Q -> (a <= b)%Q -> (a * u <= b * u)%Q.
Proof. intros Hu H. apply Qmult_le_compat_r; lra. Qed.

Lemma scaled_eq_inv a b u : (0 < u)%Q -> (a * u == b * u)%Q -> (a == b)%Q.
Proof.
  intros Hu H. apply Qmult_inj_r in H; [assumption | lra].
Qed.

(** [nearest], for a rational given in units of [2^e]. *)
Lemma nearest_scaled v w m e :
  (v == w * pow2 e)%Q ->
  (2 ^ 52 <= Zpos m < 2 ^ 53)%Z ->
  (w <= inject_Z (Zpos m) + (1 # 2))%Q ->
  ((w == inject_Z (Zpos m) + (1 # 2))%Q -> Z.even (Zpos m) = true) ->
  (if (Zpos m =? 2 ^ 52)%Z
   then (inject_Z (Zpos m) - (1 # 4) <= w)%Q
   else (inject_Z (Zpos m) - (1 # 2) <= w)%Q
        /\ ((w == inject_Z (Zpos m) - (1 # 2))%Q -> Z.even (Zpos m) = true)) ->
  nearest v m e.
Proof.
  intros Hv Hm Hup Htie Hlow.
  pose proof (pow2_pos e) as Hu.
  unfold nearest, magnitude.
  set (u := pow2 e) in *. set (y := inject_Z (Zpos m)) in *.
  split; [assumption | ].
  split; [ | split].
  - rewrite Hv. setoid_replace (y * u + u * (1 # 2))%Q with ((y + (1 # 2)) * u)%Q by ring.
    now apply scaled_le.
  - intros H. apply Htie. apply (scaled_eq_inv _ _ u Hu).
    rewrite <- Hv, H. ring.
  - destruct (Zpos m =? 2 ^ 52)%Z.
    + rewrite Hv. setoid_replace (y * u - u * (1 # 4))%Q with ((y - (1 # 4)) * u)%Q by ring.
      now apply scaled_le.
    + destruct Hlow as [Hl Ht]. split.
      * rewrite Hv.
        setoid_replace (y * u - u * (1 # 2))%Q with ((y - (1 # 2)) * u)%Q by ring.
        now apply scaled_le.
      * intros H. apply Ht. apply (scaled_eq_inv _ _ u Hu).
        rewrite <- Hv, H. ring.
Qed.

(** [binary_round_aux] returns the number nearest to the rational that its
    arguments locate, when the mantissa has at least 53 bits and the result
    is in the range of the normal numbers. *)
Lemma binary_round_aux_nearest s p ex lx w :
  let D := Zpos (digits2_pos p) in
  (53 <= D)%Z -> (-1074 <= D + ex - 53)%Z -> (D + ex <= 1023)%Z ->
  located (shr_record_of_loc (Zpos p) lx) w ->
  exists m' e',
    binary_round_aux Number.prec Number.emax s (Zpos p) ex lx = S754_finite s m' e'
    /\ (e' = D + ex - 53 \/ e' = D + ex - 52)%Z
    /\ nearest (w * pow2 ex) m' e'.
Proof.
  intros D HD Hlo Hhi Hloc.
  destruct (shr_fexp_normal p ex lx w HD Hlo Hloc) as (mrs & E1 & Hb & Hdiv & Hl).
  fold D in E1, Hdiv, Hl.
  unfold binary_round_aux. rewrite E1.
  destruct (round_nearest_even_located mrs _ Hl)
    as (Hm2 & Hnear & Htie_up & Htie_down & Hup & Hfloor).
  set (m2 := round_nearest_even (shr_m mrs) (loc_of_shr_record mrs)) in *.
  set (e1 := (D + ex - 53)%Z) in *.
  set (w1 := (w * / pow2 (D - 53))%Q) in *.
  assert (Hv : (w * pow2 ex == w1 * pow2 e1)%Q).
  { unfold w1, e1. replace (D + ex - 53)%Z with (ex + (D - 53))%Z by lia.
    rewrite pow2_add. pose proof (pow2_pos (D - 53)). field. lra. }
  assert (Hv' : (w * pow2 ex == w1 * (1 # 2) * pow2 (e1 + 1))%Q).
  { rewrite Hv, pow2_succ. ring. }
  clearbody w1.
  destruct (Z_lt_le_dec m2 (2 ^ 53)) as [Hsmall | Hbig].
  - (* no carry *)
    destruct m2 as [ | q | q] eqn:Eq; try lia.
    assert (Hq : Zpos (digits2_pos q) = 53%Z) by (apply digits2_pos_unique; lia).
    unfold shr_fexp. cbn [Zdigits2]. rewrite Hq.
    replace (fexp Number.prec Number.emax (53 + e1) - e1)%Z with 0%Z
      by (unfold fexp, SpecFloat.emin, Number.prec, Number.emax; lia).
    cbn [shr shr_record_of_loc shr_m].
    replace (e1 <=? Number.emax - Number.prec)%Z with true
      by (symmetry; apply Z.leb_le; unfold Number.emax, Number.prec; lia).
    exists q, e1. split; [reflexivity | ]. split; [left; reflexivity | ].
    apply (nearest_scaled _ w1).
    + exact Hv.
    + lia.
    + clear - Hnear; lra.
    + exact Htie_up.
    + destruct (Zpos q =? 2 ^ 52)%Z eqn:Hq52.
      * apply Z.eqb_eq in Hq52.
        assert (H : shr_m mrs = Zpos q) by lia.
        rewrite <- H. clear - Hfloor; lra.
      * split; [clear - Hnear; lra | exact Htie_down].
  - (* the mantissa overflows to 2^53 *)
    assert (Em2 : m2 = (2 ^ 53)%Z) by lia.
    rewrite Em2.
    assert (Hup' : (inject_Z (shr_m mrs) + (1 # 2) <= w1)%Q) by (apply Hup; lia).
    assert (Hm : shr_m mrs = (2 ^ 53 - 1)%Z) by lia.
    rewrite Hm in Hup', Hfloor.
    change (inject_Z (2 ^ 53 - 1)) with (9007199254740991 # 1)%Q in *.
    unfold shr_fexp.
    change (Zdigits2 (2 ^ 53)) with 54%Z.
    replace (fexp Number.prec Number.emax (54 + e1) - e1)%Z with 1%Z
      by (unfold fexp, SpecFloat.emin, Number.prec, Number.emax; lia).
    cbn [shr shr_record_of_loc].
    change (shr_m (iter_pos shr_1 1 {| shr_m := 2 ^ 53; shr_r := false; shr_s := false |}))
      with (Zpos (2 ^ 52)).
    replace (e1 + 1 <=? Number.emax - Number.prec)%Z with true
      by (symmetry; apply Z.leb_le; unfold Number.emax, Number.prec; lia).
    exists (2 ^ 52)%positive, (e1 + 1)%Z.
    split; [reflexivity | ]. split; [right; lia | ].
    apply (nearest_scaled _ (w1 * (1 # 2))).
    + exact Hv'.
    + lia.
    + change (inject_Z (Zpos (2 ^ 52))) with (4503599627370496 # 1)%Q.
      clear - Hfloor; lra.
    + intros _. reflexivity.
    + change (Zpos (2 ^ 52) =? 2 ^ 52)%Z with true. cbv iota.
      change (inject_Z (Zpos (2 ^ 52))) with (4503599627370496 # 1)%Q.
      clear - Hup'; lra.
Qed.

Lemma nearest_ext v v' m e : (v == v')%Q -> nearest v m e -> nearest v' m e.
Proof.
  intros E (H1 & H2 & H3 & H4). unfold nearest.
  split; [assumption | ].
  split; [rewrite <- E; assumption | ].
  split; [intros H; apply H3; rewrite E; assumption | ].
  destruct (Zpos m =? 2 ^ 52)%Z.
  - rewrite <- E; assumption.
  - destruct H4 as [H4 H5]. split; [rewrite <- E; assumption | ].
    intros H; apply H5; rewrite E; assumption.
Qed.

Lemma magnitude_pos m e : (0 < magnitude m e)%Q.
Proof.
  unfold magnitude. pose proof (pow2_pos e).
  apply Qmult_lt_0_compat; [reflexivity | assumption].
Qed.

Lemma nearest_mantissa v m e : nearest v m e -> Zpos (digits2_pos m) = 53%Z.
Proof. intros (Hm & _). apply digits2_pos_unique. lia. Qed.

(** The number nearest to [v] is within a relative distance of [2^-53]. *)
Lemma nearest_bounds v m e :
  nearest v m e ->
  (magnitude m e * (1 - (1 # 9007199254740992)) <= v <= magnitude m e * (1 + (1 # 9007199254740992)))%Q.
Proof.
  intros (Hm & Hup & _ & Hlow).
  assert (Hlow' : (magnitude m e - pow2 e * (1 # 2) <= v)%Q).
  { pose proof (pow2_pos e) as Hp.
    destruct (Zpos m =? 2 ^ 52)%Z; [clear - Hlow Hp; lra | destruct Hlow; assumption]. }
  assert (Hu : (pow2 e * (1 # 2) <= magnitude m e * (1 # 9007199254740992))%Q).
  { unfold magnitude. pose proof (pow2_pos e) as Hp.
    setoid_replace (pow2 e * (1 # 2))%Q with ((1 # 2) * pow2 e)%Q by ring.
    setoid_replace (inject_Z (Zpos m) * pow2 e * (1 # 9007199254740992))%Q
      with (inject_Z (Zpos m) * (1 # 9007199254740992) * pow2 e)%Q by ring.
    apply scaled_le; [assumption | ].
    assert (H52 : (inject_Z (2 ^ 52) <= inject_Z (Zpos m))%Q)
      by (rewrite <- Zle_Qle; lia).
    change (inject_Z (2 ^ 52)) with (4503599627370496 # 1)%Q in H52.
    clear - H52. lra. }
  clear - Hup Hlow' Hu. lra.
Qed.

(** The product of two numbers with mantissas of 53 bits, in the range of
    the normal numbers, is the number nearest to the exact product. *)
Lemma mul_nearest sa ma ea sb mb eb :
  Zpos (digits2_pos ma) = 53%Z -> Zpos (digits2_pos mb) = 53%Z ->
  (-1126 <= ea + eb)%Z -> (ea + eb <= 917)%Z ->
  exists m e,
    Number.mul (S754_finite sa ma ea) (S754_finite sb mb eb)
    = S754_finite (xorb sa sb) m e
    /\ (ea + eb + 52 <= e <= ea + eb + 54)%Z
    /\ nearest (magnitude ma ea * magnitude mb eb) m e.
Proof.
  intros Ha Hb Hlo Hhi.
  pose proof (digits2_pos_le ma) as La. pose proof (digits2_pos_gt ma) as Ga.
  pose proof (digits2_pos_le mb) as Lb. pose proof (digits2_pos_gt mb) as Gb.
  rewrite Ha in La, Ga. rewrite Hb in Lb, Gb.
  change (53 - 1)%Z with 52%Z in *.
  assert (HP : (2 ^ 104 <= Zpos (ma * mb) < 2 ^ 106)%Z).
  { rewrite Pos2Z.inj_mul.
    change (2 ^ 104)%Z with (2 ^ 52 * 2 ^ 52)%Z.
    change (2 ^ 106)%Z with (2 ^ 53 * 2 ^ 53)%Z.
    split; [apply Z.mul_le_mono_nonneg; lia | apply Z.mul_lt_mono_nonneg; lia]. }
  assert (HD : Zpos (digits2_pos (ma * mb)) = 105%Z \/ Zpos (digits2_pos (ma * mb)) = 106%Z).
  { destruct (Z_lt_le_dec (Zpos (ma * mb)) (2 ^ 105)).
    - left. apply digits2_pos_unique. change (105 - 1)%Z with 104%Z. lia.
    - right. apply digits2_pos_unique. change (106 - 1)%Z with 105%Z. lia. }
  unfold Number.mul. cbn [SFmul].
  destruct (binary_round_aux_nearest (xorb sa sb) (ma * mb) (ea + eb) loc_Exact
              (inject_Z (Zpos (ma * mb)))) as (m & e & E & He & Hn).
  - lia.
  - lia.
  - lia.
  - unfold located. cbn [shr_record_of_loc shr_m shr_r shr_s]. reflexivity.
  - exists m, e. split; [exact E | ]. split; [lia | ].
    assert (Ev : (magnitude ma ea * magnitude mb eb
                  == inject_Z (Zpos (ma * mb)) * pow2 (ea + eb))%Q).
    { unfold magnitude. rewrite Pos2Z.inj_mul, inject_Z_mult, pow2_add. ring. }
    apply (nearest_ext _ _ _ _ (Qeq_sym _ _ Ev)). exact Hn.
Qed.

(** The location computed from a remainder is the place of the quotient. *)
Lemma new_location_located q r b :
  (0 <= r < Zpos b)%Z ->
  located (shr_record_of_loc q (new_location (Zpos b) r)) (inject_Z q + (r # b)).
Proof.
  intros Hr.
  assert (F0 : r = 0%Z -> (r # b == 0)%Q)
    by (intros ->; reflexivity).
  assert (Fpos : (0 < r)%Z -> (0 < r # b)%Q)
    by (intros H; unfold Qlt; cbn [Qnum Qden]; lia).
  assert (Flt : (2 * r < Zpos b)%Z -> (r # b < 1 # 2)%Q)
    by (intros H; unfold Qlt; cbn [Qnum Qden]; lia).
  assert (Feq : (2 * r = Zpos b)%Z -> (r # b == 1 # 2)%Q)
    by (intros H; unfold Qeq; cbn [Qnum Qden]; lia).
  assert (Fgt : (2 * r > Zpos b)%Z -> (1 # 2 < r # b)%Q)
    by (intros H; unfold Qlt; cbn [Qnum Qden]; lia).
  assert (F1 : (r # b < 1)%Q)
    by (unfold Qlt; cbn [Qnum Qden]; lia).
  unfold new_location, new_location_even, new_location_odd.
  set (f := (r # b)%Q) in *. clearbody f.
  destruct (Z.even (Zpos b)) eqn:Hev.
  - destruct (Z.eqb_spec r 0) as [E | N].
    + unfold located; cbn. specialize (F0 E). clear - F0; lra.
    + destruct (Z.compare_spec (2 * r) (Zpos b)) as [H | H | H];
        unfold located; cbn.
      * specialize (Feq H). clear - Feq; lra.
      * specialize (Flt H). assert (P : (0 < f)%Q) by (apply Fpos; lia).
        clear - Flt P; lra.
      * assert (G : (1 # 2 < f)%Q) by (apply Fgt; lia). clear - G F1; lra.
  - destruct (Z.eqb_spec r 0) as [E | N].
    + unfold located; cbn. specialize (F0 E). clear - F0; lra.
    + assert (Hodd : (2 * r <> Zpos b)%Z).
      { intros H. rewrite <- H, Z.even_mul in Hev. discriminate Hev. }
      destruct (Z.compare_spec (2 * r + 1) (Zpos b)) as [H | H | H];
        unfold located; cbn.
      * assert (L : (f < 1 # 2)%Q) by (apply Flt; lia).
        assert (P : (0 < f)%Q) by (apply Fpos; lia). clear - L P; lra.
      * assert (L : (f < 1 # 2)%Q) by (apply Flt; lia).
        assert (P : (0 < f)%Q) by (apply Fpos; lia). clear - L P; lra.
      * assert (G : (1 # 2 < f)%Q) by (apply Fgt; lia). clear - G F1; lra.
Qed.

Lemma digits2_pos_bounds p :
  (2 ^ (Zpos (digits2_pos p) - 1) <= Zpos p < 2 ^ Zpos (digits2_pos p))%Z.
Proof. split; [apply digits2_pos_le | apply digits2_pos_gt]. Qed.

(** A positive integer between [2^(k-1)] and [2^(k+1)] has [k] or [k + 1]
    bits. *)
Lemma digits2_pos_two p k :
  (2 ^ (k - 1) <= Zpos p < 2 ^ (k + 1))%Z ->
  Zpos (digits2_pos p) = k \/ Zpos (digits2_pos p) = (k + 1)%Z.
Proof.
  intros [Hlo Hhi].
  destruct (Z_lt_le_dec (Zpos p) (2 ^ k)) as [H | H].
  - left. apply digits2_pos_unique. lia.
  - right. apply digits2_pos_unique. replace (k + 1 - 1)%Z with k by lia. lia.
Qed.

(** The quotient of two numbers is the number nearest to the exact
    quotient, when it is in the range of the normal numbers. *)
Lemma div_nearest sa a e1 sb b e2 :
  let L := (Zpos (digits2_pos a) + e1 - (Zpos (digits2_pos b) + e2))%Z in
  (-1021 <= L <= 1022)%Z ->
  exists m e,
    Number.div (S754_finite sa a e1) (S754_finite sb b e2)
    = S754_finite (xorb sa sb) m e
    /\ (L - 53 <= e <= L - 51)%Z
    /\ nearest (magnitude a e1 / magnitude b e2) m e.
Proof.
  intros L HL.
  pose proof (digits2_pos_bounds a) as Ba. pose proof (digits2_pos_bounds b) as Bb.
  set (d1 := Zpos (digits2_pos a)) in *. set (d2 := Zpos (digits2_pos b)) in *.
  unfold Number.div. cbn [SFdiv]. unfold SFdiv_core_binary. cbn [Zdigits2].
  fold d1 d2. fold L.
  set (e' := Z.min (fexp Number.prec Number.emax L) (e1 - e2)).
  assert (He' : (e' <= L - 53 /\ e' <= e1 - e2
                 /\ (e' = L - 53 \/ e' = e1 - e2))%Z).
  { unfold e', fexp, SpecFloat.emin, Number.prec, Number.emax. lia. }
  set (s := (e1 - e2 - e')%Z).
  assert (Hs : (0 <= s)%Z) by (unfold s; lia).
  set (m' := match s with
             | 0%Z => Zpos a
             | Zpos _ => Z.shiftl (Zpos a) s
             | Zneg _ => 0%Z
             end).
  assert (Hm' : m' = (Zpos a * 2 ^ s)%Z).
  { unfold m'. destruct s as [ | n | n] eqn:Es; try lia.
    rewrite Z.shiftl_mul_pow2 by lia. reflexivity. }
  clearbody m'.
  set (K := (L - e')%Z).
  assert (HK : (53 <= K)%Z) by (unfold K; lia).
  assert (EK : (d1 + s = K + d2)%Z) by (unfold K, s, L; lia).
  assert (P2s : (0 < 2 ^ s)%Z) by (apply Z.pow_pos_nonneg; lia).
  assert (Bm' : (2 ^ (K - 1 + d2) <= m' < 2 ^ (K + d2))%Z).
  { rewrite Hm'. split.
    - replace (K - 1 + d2)%Z with (d1 - 1 + s)%Z by lia.
      rewrite Z.pow_add_r by lia. apply Z.mul_le_mono_nonneg_r; lia.
    - rewrite <- EK. rewrite Z.pow_add_r by lia. apply Z.mul_lt_mono_pos_r; lia. }
  pose proof (Z.div_eucl_eq m' (Zpos b) ltac:(lia)) as Eeucl.
  pose proof (Z.mod_pos_bound m' (Zpos b) ltac:(lia)) as Bmod.
  unfold Z.modulo in Bmod.
  destruct (Z.div_eucl m' (Zpos b)) as [q r] eqn:Ediv.
  assert (Bq : (2 ^ (K - 1) <= q < 2 ^ (K + 1))%Z).
  { assert (Pd2 : (0 < 2 ^ d2)%Z) by (apply Z.pow_pos_nonneg; unfold d2; lia).
    assert (Pd2' : (0 < 2 ^ (d2 - 1))%Z) by (apply Z.pow_pos_nonneg; unfold d2; lia).
    split.
    - destruct (Z_lt_le_dec q (2 ^ (K - 1))) as [Hc | ]; [exfalso | assumption].
      assert (Zpos b * q + r < Zpos b * 2 ^ (K - 1))%Z by nia.
      assert (Zpos b * 2 ^ (K - 1) <= 2 ^ d2 * 2 ^ (K - 1))%Z
        by (apply Z.mul_le_mono_nonneg_r; [apply Z.pow_nonneg; lia | lia]).
      rewrite <- Z.pow_add_r in H0 by (unfold d2; lia).
      replace (d2 + (K - 1))%Z with (K - 1 + d2)%Z in H0 by lia. lia.
    - destruct (Z_lt_le_dec q (2 ^ (K + 1))) as [ | Hc]; [assumption | exfalso].
      assert (2 ^ (d2 - 1) * 2 ^ (K + 1) <= Zpos b * q)%Z
        by (apply Z.mul_le_mono_nonneg; try lia; apply Z.pow_nonneg; lia).
      rewrite <- Z.pow_add_r in H by (unfold d2; lia).
      replace (d2 - 1 + (K + 1))%Z with (K + d2)%Z in H by lia. lia. }
  assert (Pq : (0 < q)%Z).
  { assert (0 < 2 ^ (K - 1))%Z by (apply Z.pow_pos_nonneg; lia). lia. }
  destruct q as [ | qp | qp]; try lia.
  destruct (digits2_pos_two qp K Bq) as [HD | HD].
  all: destruct (binary_round_aux_nearest (xorb sa sb) qp e'
                   (new_location (Zpos b) r) (inject_Z (Zpos qp) + (r # b)))
         as (m & e & E & He & Hn);
       [ lia | unfold K in *; lia | unfold K in *; lia
       | apply new_location_located; lia | ].
  all: exists m, e; split; [exact E | ]; split; [unfold K in *; lia | ].
  all: apply (nearest_ext ((inject_Z (Zpos qp) + (r # b)) * pow2 e')); [ | exact Hn].
  all: unfold magnitude;
       replace e1 with (e2 + (s + e'))%Z at 1 by (unfold s; lia);
       rewrite !pow2_add, (pow2_nonneg s) by lia;
       pose proof (pow2_pos e2) as P2; pose proof (pow2_pos e') as P';
       assert (Em : (inject_Z (Zpos a) * inject_Z (2 ^ s)
                     == inject_Z (Zpos b) * inject_Z (Zpos qp) + inject_Z r)%Q)
         by (rewrite <- !inject_Z_mult, <- inject_Z_plus, <- Hm', Eeucl; reflexivity);
       assert (Er : (r # b == inject_Z r / inject_Z (Zpos b))%Q)
         by (apply Qmake_Qdiv);
       assert (Pb : (0 < inject_Z (Zpos b))%Q) by reflexivity;
       rewrite Er;
       setoid_replace (inject_Z (Zpos a) * (pow2 e2 * (inject_Z (2 ^ s) * pow2 e'))
                       / (inject_Z (Zpos b) * pow2 e2))%Q
         with ((inject_Z (Zpos a) * inject_Z (2 ^ s)) / inject_Z (Zpos b) * pow2 e')%Q
         by (field; split; lra);
       rewrite Em; field; lra.
Qed.

Lemma unscaled_le a b u : (0 < u)%Q -> (a <= b * u)%Q -> (a * / u <= b)%Q.
Proof.
  intros Hu H. setoid_replace b with (b * u * / u)%Q by (field; lra).
  apply scaled_le; [ | assumption]. now apply Qinv_lt_0_compat.
Qed.

Lemma unscaled_ge a b u : (0 < u)%Q -> (b * u <= a)%Q -> (b <= a * / u)%Q.
Proof.
  intros Hu H. setoid_replace b with (b * u * / u)%Q by (field; lra).
  apply scaled_le; [ | assumption]. now apply Qinv_lt_0_compat.
Qed.

(** [nearest], read in units of [2^e]. *)
Lemma nearest_unscaled v m e :
  nearest v m e ->
  let t := (v * / pow2 e)%Q in
  let a := inject_Z (Zpos m) in
  (v == t * pow2 e)%Q
  /\ (4503599627370496 <= a <= 9007199254740991)%Q
  /\ (t <= a + (1 # 2))%Q
  /\ ((t == a + (1 # 2))%Q -> Z.even (Zpos m) = true)
  /\ (a - (1 # 2) <= t)%Q
  /\ ((t == a - (1 # 2))%Q -> Z.even (Zpos m) = true)
  /\ (Zpos m = (2 ^ 52)%Z -> (a - (1 # 4) <= t)%Q).
Proof.
  intros (Hm & Hup & Htie & Hlow) t a.
  pose proof (pow2_pos e) as Hu.
  assert (Ev : (v == t * pow2 e)%Q) by (unfold t; field; lra).
  assert (Ha : (4503599627370496 <= a <= 9007199254740991)%Q).
  { unfold a. split.
    - change (4503599627370496 # 1)%Q with (inject_Z (2 ^ 52)). rewrite <- Zle_Qle. lia.
    - change (9007199254740991 # 1)%Q with (inject_Z (2 ^ 53 - 1)). rewrite <- Zle_Qle. lia. }
  unfold magnitude in *. fold a in Hup, Htie, Hlow.
  assert (Hup' : (t <= a + (1 # 2))%Q).
  { unfold t. apply unscaled_le; [assumption | ].
    setoid_replace ((a + (1 # 2)) * pow2 e)%Q with (a * pow2 e + pow2 e * (1 # 2))%Q by ring.
    assumption. }
  assert (Htie' : (t == a + (1 # 2))%Q -> Z.even (Zpos m) = true).
  { intros H. apply Htie. rewrite Ev, H. ring. }
  split; [assumption | ]. split; [assumption | ].
  split; [assumption | ]. split; [assumption | ].
  destruct (Z.eqb_spec (Zpos m) (2 ^ 52)) as [E52 | N52].
  - assert (Hq : (a - (1 # 4) <= t)%Q).
    { unfold t. apply unscaled_ge; [assumption | ].
      setoid_replace ((a - (1 # 4)) * pow2 e)%Q with (a * pow2 e - pow2 e * (1 # 4))%Q by ring.
      assumption. }
    split; [clear - Hq; lra | ].
    split; [ | intros _; assumption].
    intros H. clear - H Hq. lra.
  - destruct Hlow as [Hl Ht].
    assert (Hh : (a - (1 # 2) <= t)%Q).
    { unfold t. apply unscaled_ge; [assumption | ].
      setoid_replace ((a - (1 # 2)) * pow2 e)%Q with (a * pow2 e - pow2 e * (1 # 2))%Q by ring.
      assumption. }
    split; [assumption | ].
    split; [ | intros E; contradiction].
    intros H. apply Ht. rewrite Ev, H. ring.
Qed.

Lemma pow2_ge_4 k : (2 <= k)%Z -> (4 <= pow2 k)%Q.
Proof.
  intros H. change 4%Q with (pow2 2). now apply pow2_le.
Qed.

(** Two numbers that are both nearest to the same rational are the same:
    the case where the second exponent is not the smaller one. *)
Lemma nearest_unique_le v m e m' e' :
  (0 < v)%Q -> (e <= e')%Z -> nearest v m e -> nearest v m' e' -> m = m' /\ e = e'.
Proof.
  intros Hv Hee H H'.
  destruct (nearest_unscaled v m e H) as (Ev & Ha & Hup & Htie & Hlo & Htl & Hlq).
  destruct (nearest_unscaled v m' e' H') as (Ev' & Hb & Hup' & Htie' & Hlo' & Htl' & Hlq').
  set (t := (v * / pow2 e)%Q) in *. set (t' := (v * / pow2 e')%Q) in *.
  set (a := inject_Z (Zpos m)) in *. set (b := inject_Z (Zpos m')) in *.
  pose proof (pow2_pos e) as Hu. pose proof (pow2_pos (e' - e)) as Hk.
  clearbody t t'.
  assert (Ep : (pow2 e' == pow2 e * pow2 (e' - e))%Q).
  { rewrite <- pow2_add. replace (e + (e' - e))%Z with e' by lia. reflexivity. }
  assert (Et : (t == t' * pow2 (e' - e))%Q).
  { apply (scaled_eq_inv _ _ (pow2 e) Hu).
    rewrite <- Ev. rewrite Ev' at 1. rewrite Ep. ring. }
  destruct (Z_le_gt_dec 2 (e' - e)) as [Hbig | Hsmall].
  - exfalso. pose proof (pow2_ge_4 _ Hbig) as H4.
    assert (P : (t' * 4 <= t' * pow2 (e' - e))%Q).
    { rewrite !(Qmult_comm t'). apply scaled_le; [ | assumption].
      clear - Hlo' Hb. lra. }
    clearbody a b. clear - P Et Hup Ha Hlo' Hb. lra.
  - assert (Hcase : (e' - e = 0 \/ e' - e = 1)%Z) by lia.
    destruct Hcase as [K | K]; rewrite K in Et.
    + (* the same exponent *)
      assert (Et0 : (t == t')%Q).
      { rewrite Et. unfold pow2. rewrite Qpower_0_r. ring. }
      assert (Zab : (Zpos m' <= Zpos m + 1)%Z).
      { rewrite Zle_Qle, inject_Z_plus. fold a b. change (inject_Z 1) with 1%Q.
        clearbody a b. clear - Et0 Hup Hlo'. lra. }
      assert (Zba : (Zpos m <= Zpos m' + 1)%Z).
      { rewrite Zle_Qle, inject_Z_plus. fold a b. change (inject_Z 1) with 1%Q.
        clearbody a b. clear - Et0 Hup' Hlo. lra. }
      assert (Hmm : Zpos m = Zpos m').
      { destruct (Z.eq_dec (Zpos m') (Zpos m + 1)) as [E1 | N1].
        - exfalso.
          assert (Eb : (b == a + 1)%Q).
          { unfold a, b. rewrite E1, inject_Z_plus. reflexivity. }
          assert (T1 : (t == a + (1 # 2))%Q)
            by (clearbody a b; clear - Eb Et0 Hup Hlo'; lra).
          assert (T2 : (t' == b - (1 # 2))%Q)
            by (clearbody a b; clear - Eb Et0 Hup Hlo'; lra).
          specialize (Htie T1). specialize (Htl' T2).
          rewrite E1, Z.add_1_r, Z.even_succ, <- Z.negb_even, Htie in Htl'.
          discriminate Htl'.
        - destruct (Z.eq_dec (Zpos m) (Zpos m' + 1)) as [E2 | N2]; [exfalso | lia].
          assert (Eb : (a == b + 1)%Q).
          { unfold a, b. rewrite E2, inject_Z_plus. reflexivity. }
          assert (T1 : (t' == b + (1 # 2))%Q)
            by (clearbody a b; clear - Eb Et0 Hup' Hlo; lra).
          assert (T2 : (t == a - (1 # 2))%Q)
            by (clearbody a b; clear - Eb Et0 Hup' Hlo; lra).
          specialize (Htie' T1). specialize (Htl T2).
          rewrite E2, Z.add_1_r, Z.even_succ, <- Z.negb_even, Htie' in Htl.
          discriminate Htl. }
      split; [congruence | lia].
    + (* the second exponent is one more *)
      exfalso.
      assert (Et1 : (t == 2 * t')%Q).
      { rewrite Et. unfold pow2. rewrite Qpower_1_r. ring. }
      destruct (Z.eq_dec (Zpos m') (2 ^ 52)) as [E52 | N52].
      * specialize (Hlq' E52).
        assert (Eb : (b == 4503599627370496)%Q) by (unfold b; rewrite E52; reflexivity).
        assert (T1 : (t == a + (1 # 2))%Q)
          by (clearbody a b; clear - Eb Et1 Hup Ha Hlq'; lra).
        assert (Ea : (a == 9007199254740991)%Q)
          by (clearbody a b; clear - Eb Et1 Hup Ha Hlq'; lra).
        specialize (Htie T1).
        assert (Em : Zpos m = (2 ^ 53 - 1)%Z).
        { apply inject_Z_injective. fold a. rewrite Ea. reflexivity. }
        rewrite Em in Htie. discriminate Htie.
      * assert (Hb' : (4503599627370497 <= b)%Q).
        { unfold b. change (4503599627370497 # 1)%Q with (inject_Z (2 ^ 52 + 1)).
          rewrite <- Zle_Qle. destruct H' as (Hm' & _). lia. }
        clearbody a b. clear - Hb' Et1 Hup Ha Hlo'. lra.
Qed.

Lemma nearest_unique v m e m' e' :
  (0 < v)%Q -> nearest v m e -> nearest v m' e' -> m = m' /\ e = e'.
Proof.
  intros Hv H H'.
  destruct (Z_le_gt_dec e e') as [L | G].
  - now apply (nearest_unique_le v).
  - destruct (nearest_unique_le v m' e' m e Hv ltac:(lia) H' H) as [-> ->].
    split; reflexivity.
Qed.

(* ===================================================================== *)
(** ** The sandbox arithmetic, exactly *)
(* ===================================================================== *)

Lemma within_spec lo hi x :
  within lo hi x = true ->
  exists s m e,
    x = S754_finite s m e /\ Zpos (digits2_pos m) = 53%Z /\ (lo <= e <= hi)%Z.
Proof.
  destruct x as [ | | | s m e]; try discriminate. cbn [within]. intros H.
  apply andb_prop in H as [H H3]. apply andb_prop in H as [H1 H2].
  exists s, m, e. split; [reflexivity | ]. lia.
Qed.

Lemma within_finite lo hi s m e :
  Zpos (digits2_pos m) = 53%Z -> (lo <= e <= hi)%Z ->
  within lo hi (S754_finite s m e) = true.
Proof.
  intros Hm He. cbn [within]. rewrite Hm.
  replace (lo <=? e)%Z with true by (symmetry; apply Z.leb_le; lia).
  replace (e <=? hi)%Z with true by (symmetry; apply Z.leb_le; lia).
  reflexivity.
Qed.

(** A product of numbers with mantissas of 53 bits, with its bounds. *)
Lemma mul_bounds sa ma ea sb mb eb :
  Zpos (digits2_pos ma) = 53%Z -> Zpos (digits2_pos mb) = 53%Z ->
  (-1126 <= ea + eb)%Z -> (ea + eb <= 917)%Z ->
  exists m e,
    Number.mul (S754_finite sa ma ea) (S754_finite sb mb eb)
    = S754_finite (xorb sa sb) m e
    /\ Zpos (digits2_pos m) = 53%Z
    /\ (ea + eb + 52 <= e <= ea + eb + 54)%Z
    /\ (magnitude m e * (1 - (1 # 9007199254740992))
        <= magnitude ma ea * magnitude mb eb
        <= magnitude m e * (1 + (1 # 9007199254740992)))%Q.
Proof.
  intros Ha Hb Hlo Hhi.
  destruct (mul_nearest sa ma ea sb mb eb Ha Hb Hlo Hhi) as (m & e & E & He & Hn).
  exists m, e. split; [exact E | ].
  split; [exact (nearest_mantissa _ _ _ Hn) | ].
  split; [exact He | exact (nearest_bounds _ _ _ Hn)].
Qed.

Lemma div_bounds sa ma ea sb mb eb :
  Zpos (digits2_pos ma) = 53%Z -> Zpos (digits2_pos mb) = 53%Z ->
  (-1021 <= ea - eb <= 1022)%Z ->
  exists m e,
    Number.div (S754_finite sa ma ea) (S754_finite sb mb eb)
    = S754_finite (xorb sa sb) m e
    /\ Zpos (digits2_pos m) = 53%Z
    /\ (ea - eb - 53 <= e <= ea - eb - 51)%Z
    /\ (magnitude m e * (1 - (1 # 9007199254740992))
        <= magnitude ma ea / magnitude mb eb
        <= magnitude m e * (1 + (1 # 9007199254740992)))%Q.
Proof.
  intros Ha Hb Hr.
  destruct (div_nearest sa ma ea sb mb eb) as (m & e & E & He & Hn);
    [cbv zeta; lia | ].
  cbv zeta in He.
  exists m, e. split; [exact E | ].
  split; [exact (nearest_mantissa _ _ _ Hn) | ].
  split; [lia | exact (nearest_bounds _ _ _ Hn)].
Qed.

(** The amount times a rate, times the fee factor: both products are normal
    numbers, each within [2^-53] of the exact product. *)
Lemma rate_then_fee s m e mr er :
  Zpos (digits2_pos m) = 53%Z -> Zpos (digits2_pos mr) = 53%Z ->
  (-1058 <= e <= 953)%Z -> (-64 <= er <= -41)%Z ->
  exists my ey mz ez,
    Number.mul (Number.mul (S754_finite s m e) (S754_finite false mr er))
               Number.lit_0_997
    = S754_finite s mz ez
    /\ Number.mul (S754_finite s m e) (S754_finite false mr er)
       = S754_finite s my ey
    /\ Zpos (digits2_pos my) = 53%Z
    /\ Zpos (digits2_pos mz) = 53%Z
    /\ (-1070 <= ey <= 966)%Z
    /\ (-1071 <= ez <= 967)%Z
    /\ (magnitude my ey * (1 - (1 # 9007199254740992))
        <= magnitude m e * magnitude mr er
        <= magnitude my ey * (1 + (1 # 9007199254740992)))%Q
    /\ (magnitude mz ez * (1 - (1 # 9007199254740992))
        <= magnitude my ey * (8980177656976769 # 9007199254740992)
        <= magnitude mz ez * (1 + (1 # 9007199254740992)))%Q.
Proof.
  intros Hm Hr He Her.
  destruct (mul_bounds s m e false mr er Hm Hr)
    as (my & ey & Ey & Hmy & Hey & By); try lia.
  rewrite xorb_false_r in Ey.
  change Number.lit_0_997 with (S754_finite false 8980177656976769 (-53)).
  destruct (mul_bounds s my ey false 8980177656976769 (-53) Hmy eq_refl)
    as (mz & ez & Ez & Hmz & Hez & Bz); try lia.
  rewrite xorb_false_r in Ez.
  exists my, ey, mz, ez. rewrite Ey.
  split; [exact Ez | ]. split; [reflexivity | ].
  split; [exact Hmy | ]. split; [exact Hmz | ].
  split; [lia | ]. split; [lia | ].
  split; [exact By | exact Bz].
Qed.

Lemma magnitude_2500 : (magnitude 5497558138880000 (-41) == 2500)%Q.
Proof. reflexivity. Qed.

Lemma magnitude_1_2500 :
  (magnitude 7378697629483821 (-64) == 7378697629483821 # 18446744073709551616)%Q.
Proof. reflexivity. Qed.

Lemma finite_neq s m e s' m' e' :
  ~ (magnitude m e == magnitude m' e')%Q ->
  S754_finite s m e <> S754_finite s' m' e'.
Proof. intros H E. apply H. injection E as _ -> ->. reflexivity. Qed.

(** The fee makes a difference: the product by [0.997] is another number. *)
Lemma fee_changes_the_number my ey mz ez :
  (magnitude mz ez * (1 - (1 # 9007199254740992))
   <= magnitude my ey * (8980177656976769 # 9007199254740992))%Q ->
  ~ (magnitude mz ez == magnitude my ey)%Q.
Proof.
  intros B E. pose proof (magnitude_pos my ey) as P.
  set (Y := magnitude my ey) in *. set (Z := magnitude mz ez) in *.
  clearbody Y Z. clear - B E P. lra.
Qed.

(** A rate whose product with [0.997] is clearly below 1 (the rates
    [1/2500], [0.999], [1.001] and [1]): the amount comes out smaller. *)
Lemma low_rate_changes_the_amount m e mr er my ey mz ez :
  (magnitude mr er <= 1002 # 1000)%Q ->
  (magnitude my ey * (1 - (1 # 9007199254740992))
   <= magnitude m e * magnitude mr er)%Q ->
  (magnitude mz ez * (1 - (1 # 9007199254740992))
   <= magnitude my ey * (8980177656976769 # 9007199254740992))%Q ->
  ~ (magnitude mz ez == magnitude m e)%Q.
Proof.
  intros HR By Bz E. pose proof (magnitude_pos m e) as P.
  assert (By' : (magnitude my ey * (1 - (1 # 9007199254740992))
                 <= magnitude m e * (1002 # 1000))%Q).
  { eapply Qle_trans; [exact By | ].
    apply Qmult_le_l; [exact P | exact HR]. }
  set (X := magnitude m e) in *. set (Y := magnitude my ey) in *.
  set (Z := magnitude mz ez) in *.
  clearbody X Y Z. clear - By' Bz E P. lra.
Qed.

(** The rate [2500]: the amount comes out larger. *)
Lemma high_rate_changes_the_amount m e mr er my ey mz ez :
  (2 <= magnitude mr er)%Q ->
  (magnitude m e * magnitude mr er
   <= magnitude my ey * (1 + (1 # 9007199254740992)))%Q ->
  (magnitude my ey * (8980177656976769 # 9007199254740992)
   <= magnitude mz ez * (1 + (1 # 9007199254740992)))%Q ->
  ~ (magnitude mz ez == magnitude m e)%Q.
Proof.
  intros HR By Bz E. pose proof (magnitude_pos m e) as P.
  assert (By' : (magnitude m e * 2
                 <= magnitude my ey * (1 + (1 # 9007199254740992)))%Q).
  { eapply Qle_trans; [ | exact By].
    apply Qmult_le_l; [exact P | exact HR]. }
  set (X := magnitude m e) in *. set (Y := magnitude my ey) in *.
  set (Z := magnitude mz ez) in *.
  clearbody X Y Z. clear - By' Bz E P. lra.
Qed.

(** A product by [1/2500] and then by [0.997] is not the quotient by
    [2500]. *)
Lemma inverse_rate_is_not_the_quotient m e my ey mz ez mq eq :
  (magnitude my ey * (1 - (1 # 9007199254740992))
   <= magnitude m e * (7378697629483821 # 18446744073709551616))%Q ->
  (magnitude mz ez * (1 - (1 # 9007199254740992))
   <= magnitude my ey * (8980177656976769 # 9007199254740992))%Q ->
  (magnitude m e * (1 # 2500) <= magnitude mq eq * (1 + (1 # 9007199254740992)))%Q ->
  ~ (magnitude mz ez == magnitude mq eq)%Q.
Proof.
  intros By Bz Bq E. pose proof (magnitude_pos m e) as P.
  set (X := magnitude m e) in *. set (Y := magnitude my ey) in *.
  set (Z := magnitude mz ez) in *. set (W := magnitude mq eq) in *.
  clearbody X Y Z W. clear - By Bz Bq E P. lra.
Qed.

Lemma getTokenSymbol_symbols tokenAddress chainId :
  In (getTokenSymbol tokenAddress chainId) symbols.
Proof.
  unfold getTokenSymbol, chainTokens_of, popularTokens. cbn [assoc].
  change (String.eqb "base-sepolia" "base-sepolia") with true. cbv iota.
  set (a := toLowerCase tokenAddress).
  destruct (String.eqb "base-sepolia" chainId);
    [ | destruct (inherited chainId)];
    cbn [find snd];
    repeat match goal with
           | |- context [String.eqb ?x a] => destruct (String.eqb x a)
           end;
    cbn; tauto.
Qed.

Ltac settle_rate :=
  match goal with
  | |- context [rate_of ?k] =>
      let r := eval vm_compute in (rate_of k) in
      replace (rate_of k) with r by (vm_compute; reflexivity)
  end.

Ltac by_rate Hm He :=
  match goal with
  | |- context [Number.mul (Number.mul (S754_finite ?s ?m ?e) (S754_finite false ?mr ?er)) _] =>
      destruct (rate_then_fee s m e mr er Hm eq_refl He ltac:(lia))
        as (my & ey & mz & ez & Ez & Ey & Hmy & Hmz & Hey & Hez & By & Bz);
      rewrite Ez
  end.

(** The number executed and the number quoted, for an ordinary amount:
    both are normal numbers, and they differ; for a pair that the quote
    does not convert, the number executed differs from the amount. *)
Lemma swap_number_is_not_quote_number fromSymbol toSymbol x :
  In fromSymbol symbols -> In toSymbol symbols ->
  ordinary x = true ->
  converted (swap_number fromSymbol toSymbol x) = true
  /\ match quote_number fromSymbol toSymbol x with
     | Some y => converted y = true /\ swap_number fromSymbol toSymbol x <> y
     | None => swap_number fromSymbol toSymbol x <> x
     end.
Proof.
  intros Hf Ht Hx.
  apply within_spec in Hx as (s & m & e & -> & Hm & He).
  unfold symbols in Hf, Ht. cbn [In] in Hf, Ht.
  assert (Low : forall mr er my ey mz ez,
             (magnitude mr er <= 1002 # 1000)%Q ->
             (magnitude my ey * (1 - (1 # 9007199254740992))
              <= magnitude m e * magnitude mr er
              <= magnitude my ey * (1 + (1 # 9007199254740992)))%Q ->
             (magnitude mz ez * (1 - (1 # 9007199254740992))
              <= magnitude my ey * (8980177656976769 # 9007199254740992)
              <= magnitude mz ez * (1 + (1 # 9007199254740992)))%Q ->
             S754_finite s mz ez <> S754_finite s m e).
  { intros mr er my ey mz ez HR [By _] [Bz _]. apply finite_neq.
    exact (low_rate_changes_the_amount m e mr er my ey mz ez HR By Bz). }
  assert (High : forall mr er my ey mz ez,
             (2 <= magnitude mr er)%Q ->
             (magnitude my ey * (1 - (1 # 9007199254740992))
              <= magnitude m e * magnitude mr er
              <= magnitude my ey * (1 + (1 # 9007199254740992)))%Q ->
             (magnitude mz ez * (1 - (1 # 9007199254740992))
              <= magnitude my ey * (8980177656976769 # 9007199254740992)
              <= magnitude mz ez * (1 + (1 # 9007199254740992)))%Q ->
             S754_finite s mz ez <> S754_finite s m e).
  { intros mr er my ey mz ez HR [_ By] [_ Bz]. apply finite_neq.
    exact (high_rate_changes_the_amount m e mr er my ey mz ez HR By Bz). }
  assert (Fee : forall my ey mz ez,
             (magnitude mz ez * (1 - (1 # 9007199254740992))
              <= magnitude my ey * (8980177656976769 # 9007199254740992)
              <= magnitude mz ez * (1 + (1 # 9007199254740992)))%Q ->
             S754_finite s mz ez <> S754_finite s my ey).
  { intros my ey mz ez [Bz _]. apply finite_neq.
    exact (fee_changes_the_number my ey mz ez Bz). }
  destruct Hf as [<- | [<- | [<- | [<- | [<- | []]]]]];
    destruct Ht as [<- | [<- | [<- | [<- | [<- | []]]]]];
    unfold swap_number, quote_number;
    cbn [String.eqb Ascii.eqb Bool.eqb andb];
    settle_rate.
  all: try (by_rate Hm He; split; [now apply within_finite | ]).
  all: try (eapply Low; [ | exact By | exact Bz]; vm_compute; discriminate).
  all: try (eapply High; [ | exact By | exact Bz]; vm_compute; discriminate).
  - change Number.lit_2500 with (S754_finite false 5497558138880000 (-41)).
    rewrite Ey. split; [apply within_finite; [exact Hmy | lia] | ].
    exact (Fee my ey mz ez Bz).
  - change Number.lit_2500 with (S754_finite false 5497558138880000 (-41)).
    destruct (div_bounds s m e false 5497558138880000 (-41) Hm eq_refl)
      as (mq & eq & Eq & Hmq & Heq & Bq); [lia | ].
    rewrite xorb_false_r in Eq. rewrite Eq.
    split; [apply within_finite; [exact Hmq | lia] | ].
    apply finite_neq.
    apply (inverse_rate_is_not_the_quotient m e my ey mz ez mq eq).
    + destruct By as [By _]. rewrite magnitude_1_2500 in By. exact By.
    + apply Bz.
    + destruct Bq as [_ Bq]. unfold Qdiv in Bq. rewrite magnitude_2500 in Bq.
      exact Bq.
  - change Number.lit_0_999 with (S754_finite false 8998192055486251 (-53)).
    rewrite Ey. split; [apply within_finite; [exact Hmy | lia] | ].
    exact (Fee my ey mz ez Bz).
Qed.

(* ===================================================================== *)
(** ** Reading facts: [of_decimal] rounds to nearest *)
(* ===================================================================== *)

Lemma pow10_pos e : (0 < pow10 e)%Q.
Proof. unfold pow10. apply Qpower_0_lt. reflexivity. Qed.

Lemma pow10_add a b : (pow10 (a + b) == pow10 a * pow10 b)%Q.
Proof. unfold pow10. apply Qpower_plus. discriminate. Qed.

Lemma pow10_succ e : (pow10 (e + 1) == 10 * pow10 e)%Q.
Proof. rewrite pow10_add. unfold pow10 at 2. rewrite Qpower_1_r. ring. Qed.

Lemma pow10_nonneg n : (0 <= n)%Z -> (pow10 n == inject_Z (10 ^ n))%Q.
Proof. intros H. unfold pow10. now rewrite Zpower_Qpower. Qed.

Lemma pow10_le a b : (a <= b)%Z -> (pow10 a <= pow10 b)%Q.
Proof. intros H. unfold pow10. apply Qpower_le_compat_l; [assumption | lra]. Qed.

Lemma pow10_opp e : (pow10 (- e) == / pow10 e)%Q.
Proof. unfold pow10. apply Qpower_opp. Qed.

Lemma pow2_opp e : (pow2 (- e) == / pow2 e)%Q.
Proof. unfold pow2. apply Qpower_opp. Qed.

(** The order of two powers of ten is the order of their exponents. *)
Lemma pow10_lt_inv a b : (pow10 a < pow10 b)%Q -> (a < b)%Z.
Proof.
  intros H. destruct (Z_lt_le_dec a b) as [L | G]; [exact L | ].
  apply pow10_le in G. lra.
Qed.

Lemma decimal_pos d e : (0 < d)%Z -> (0 < decimal d e)%Q.
Proof.
  intros H. unfold decimal. apply Qmult_lt_0_compat; [ | apply pow10_pos].
  change 0%Q with (inject_Z 0). now rewrite <- Zlt_Qlt.
Qed.

Lemma digits10_fuel_spec fuel z :
  (0 < z < 2 ^ (Z.of_nat fuel + 1))%Z ->
  (10 ^ (Number.digits10_fuel fuel z - 1) <= z < 10 ^ Number.digits10_fuel fuel z)%Z
  /\ (1 <= Number.digits10_fuel fuel z)%Z.
Proof.
  revert z. induction fuel as [ | f IH]; intros z Hz.
  - cbn [Number.digits10_fuel]. change (2 ^ (Z.of_nat 0 + 1))%Z with 2%Z in Hz.
    change (10 ^ (1 - 1))%Z with 1%Z. change (10 ^ 1)%Z with 10%Z. lia.
  - cbn [Number.digits10_fuel]. destruct (Z.ltb_spec z 10) as [L | G].
    + change (10 ^ (1 - 1))%Z with 1%Z. change (10 ^ 1)%Z with 10%Z. lia.
    + assert (Hq : (0 < z / 10 < 2 ^ (Z.of_nat f + 1))%Z).
      { split.
        - apply Z.div_str_pos. lia.
        - apply Z.div_lt_upper_bound; [lia | ].
          rewrite Nat2Z.inj_succ in Hz.
          replace (Z.succ (Z.of_nat f) + 1)%Z with (Z.succ (Z.of_nat f + 1)) in Hz by lia.
          rewrite Z.pow_succ_r in Hz by lia. lia. }
      destruct (IH _ Hq) as [[Lo Hi] One].
      set (n := Number.digits10_fuel f (z / 10)) in *.
      replace (1 + n - 1)%Z with (Z.succ (n - 1)) by lia.
      replace (1 + n)%Z with (Z.succ n) by lia.
      rewrite !Z.pow_succ_r by lia.
      pose proof (Z.div_mod z 10 ltac:(lia)) as E.
      pose proof (Z.mod_pos_bound z 10 ltac:(lia)) as B.
      lia.
Qed.

Lemma digits10_spec z :
  (0 < z)%Z ->
  (10 ^ (Number.digits10 z - 1) <= z < 10 ^ Number.digits10 z)%Z
  /\ (1 <= Number.digits10 z)%Z.
Proof.
  intros Hz. unfold Number.digits10. apply digits10_fuel_spec.
  split; [exact Hz | ].
  rewrite Z2Nat.id by apply Z.log2_nonneg.
  pose proof (Z.log2_spec z Hz) as [_ H].
  replace (Z.log2 z + 1)%Z with (Z.succ (Z.log2 z)) by lia. exact H.
Qed.

(** A decimal lies between the powers of ten that the number of its digits
    gives. *)
Lemma decimal_digits10 d e :
  (0 < d)%Z ->
  (pow10 (Number.digits10 d + e - 1) <= decimal d e < pow10 (Number.digits10 d + e))%Q.
Proof.
  intros Hd. destruct (digits10_spec d Hd) as [[Lo Hi] One].
  set (n := Number.digits10 d) in *. unfold decimal.
  pose proof (pow10_pos e) as Pe.
  replace (n + e - 1)%Z with ((n - 1) + e)%Z by lia.
  rewrite !pow10_add, (pow10_nonneg (n - 1)), (pow10_nonneg n) by lia.
  split.
  - apply Qmult_le_compat_r; [ | lra]. now rewrite <- Zle_Qle.
  - apply Qmult_lt_compat_r; [exact Pe | ]. now rewrite <- Zlt_Qlt.
Qed.

Lemma pow2_pow10_bounds :
  (pow2 1021 < pow10 308)%Q /\ (pow10 (-308) < pow2 (-1020))%Q.
Proof. split; vm_compute; reflexivity. Qed.

Lemma digits2_pos_shifted p d :
  Zpos (digits2_pos (shift_pos d p)) = (Zpos (digits2_pos p) + Zpos d)%Z.
Proof.
  apply digits2_pos_unique. rewrite shift_pos_correct, Z.pow_pos_fold.
  pose proof (digits2_pos_bounds p) as [Lo Hi].
  pose proof (Pos2Z.is_pos (digits2_pos p)) as P.
  replace (Zpos (digits2_pos p) + Zpos d - 1)%Z
    with (Zpos d + (Zpos (digits2_pos p) - 1))%Z by lia.
  replace (Zpos (digits2_pos p) + Zpos d)%Z
    with (Zpos d + Zpos (digits2_pos p))%Z by lia.
  rewrite !Z.pow_add_r by lia.
  assert (0 < 2 ^ Zpos d)%Z by (apply Z.pow_pos_nonneg; lia).
  split; [apply Z.mul_le_mono_nonneg_l; lia | apply Z.mul_lt_mono_pos_l; lia].
Qed.

(** [binary_round] of a positive integer that does not overflow is the
    number nearest to it. *)
Lemma binary_round_nearest s p :
  (Zpos (digits2_pos p) <= 1023)%Z ->
  exists m' e',
    binary_round Number.prec Number.emax s p 0 = S754_finite s m' e'
    /\ nearest (inject_Z (Zpos p)) m' e'.
Proof.
  intros Hd. unfold binary_round, shl_align.
  assert (F : fexp Number.prec Number.emax (Zpos (digits2_pos p) + 0)
              = (Zpos (digits2_pos p) - 53)%Z).
  { unfold fexp, emin, Number.prec, Number.emax. lia. }
  rewrite F.
  destruct (Zpos (digits2_pos p) - 53 - 0)%Z as [ | q | q] eqn:E.
  - destruct (binary_round_aux_nearest s p 0 loc_Exact (inject_Z (Zpos p)))
      as (m' & e' & R & _ & N); try (cbv zeta; lia).
    { unfold located; cbn. reflexivity. }
    exists m', e'. split; [exact R | ].
    apply (nearest_ext (inject_Z (Zpos p) * pow2 0)); [ | exact N].
    unfold pow2. change (2 ^ 0)%Q with 1%Q. ring.
  - destruct (binary_round_aux_nearest s p 0 loc_Exact (inject_Z (Zpos p)))
      as (m' & e' & R & _ & N); try (cbv zeta; lia).
    { unfold located; cbn. reflexivity. }
    exists m', e'. split; [exact R | ].
    apply (nearest_ext (inject_Z (Zpos p) * pow2 0)); [ | exact N].
    unfold pow2. change (2 ^ 0)%Q with 1%Q. ring.
  - pose proof (digits2_pos_shifted p q) as Hs.
    destruct (binary_round_aux_nearest s (shift_pos q p)
                (Zpos (digits2_pos p) - 53) loc_Exact
                (inject_Z (Zpos (shift_pos q p))))
      as (m' & e' & R & _ & N); try (cbv zeta; lia).
    { unfold located; cbn. reflexivity. }
    exists m', e'. split; [exact R | ].
    apply (nearest_ext (inject_Z (Zpos (shift_pos q p))
                        * pow2 (Zpos (digits2_pos p) - 53))); [ | exact N].
    rewrite shift_pos_correct, Z.pow_pos_fold, inject_Z_mult.
    rewrite <- pow2_nonneg by lia.
    replace (Zpos (digits2_pos p) - 53)%Z with (- Zpos q)%Z by lia.
    rewrite pow2_opp. pose proof (pow2_pos (Zpos q)) as P.
    field. lra.
Qed.

Lemma pow2_lt_inv a b : (pow2 a < pow2 b)%Q -> (a < b)%Z.
Proof.
  intros H. destruct (Z_lt_le_dec a b) as [L | G]; [exact L | ].
  apply pow2_le in G. lra.
Qed.

(** The powers of two around a positive integer, as rationals. *)
Lemma digits2_pos_rational p :
  (pow2 (Zpos (digits2_pos p) - 1) <= inject_Z (Zpos p) < pow2 (Zpos (digits2_pos p)))%Q.
Proof.
  pose proof (digits2_pos_bounds p) as [Lo Hi].
  rewrite !pow2_nonneg by lia.
  split; [now rewrite <- Zle_Qle | now rewrite <- Zlt_Qlt].
Qed.

Lemma magnitude_zero p : (magnitude p 0 == inject_Z (Zpos p))%Q.
Proof. unfold magnitude, pow2. change (2 ^ 0)%Q with 1%Q. ring. Qed.

(** A quotient of positive integers lies between the powers of two that the
    numbers of their bits give. *)
Lemma quotient_bits a b (v : Q) :
  (v * inject_Z (Zpos b) == inject_Z (Zpos a))%Q ->
  (pow2 (Zpos (digits2_pos a) - Zpos (digits2_pos b) - 1) < v
   < pow2 (Zpos (digits2_pos a) - Zpos (digits2_pos b) + 1))%Q.
Proof.
  intros E.
  pose proof (digits2_pos_rational a) as [La Ha].
  pose proof (digits2_pos_rational b) as [Lb Hb].
  set (da := Zpos (digits2_pos a)) in *. set (db := Zpos (digits2_pos b)) in *.
  assert (Pb : (0 < inject_Z (Zpos b))%Q).
  { change 0%Q with (inject_Z 0). now rewrite <- Zlt_Qlt. }
  assert (E1 : (pow2 (da - 1) == pow2 (da - db - 1) * pow2 db)%Q).
  { rewrite <- pow2_add. now replace (da - db - 1 + db)%Z with (da - 1)%Z by lia. }
  assert (E2 : (pow2 da == pow2 (da - db + 1) * pow2 (db - 1))%Q).
  { rewrite <- pow2_add. now replace (da - db + 1 + (db - 1))%Z with da by lia. }
  pose proof (pow2_pos (da - db - 1)) as P1.
  pose proof (pow2_pos (da - db + 1)) as P2.
  set (A := inject_Z (Zpos a)) in *. set (B := inject_Z (Zpos b)) in *.
  set (x := pow2 (da - db - 1)) in *. set (y := pow2 (da - db + 1)) in *.
  set (u := pow2 db) in *. set (w := pow2 (db - 1)) in *.
  set (g := pow2 (da - 1)) in *. set (h := pow2 da) in *.
  clearbody A B x y u w g h. clear - E La Ha Lb Hb Pb E1 E2 P1 P2.
  split.
  - destruct (Qlt_le_dec x v) as [ | G]; [assumption | exfalso].
    assert (v * B <= x * B)%Q by (apply Qmult_le_compat_r; lra).
    assert (x * B < x * u)%Q by (apply Qmult_lt_l; lra).
    lra.
  - destruct (Qlt_le_dec v y) as [ | G]; [assumption | exfalso].
    assert (y * B <= v * B)%Q by (apply Qmult_le_compat_r; lra).
    assert (y * w <= y * B)%Q by (apply Qmult_le_l; lra).
    lra.
Qed.

(** [of_decimal] of a decimal within the normal range is the number nearest
    to it. *)
Lemma of_decimal_nearest neg d e :
  (0 < d)%Z ->
  (pow2 (-1020) <= decimal d e < pow2 1021)%Q ->
  exists m' e',
    Number.of_decimal neg d e = S754_finite neg m' e'
    /\ nearest (decimal d e) m' e'.
Proof.
  intros Hd [Lo Hi]. unfold Number.of_decimal.
  destruct (Z.leb_spec d 0) as [ | _]; [lia | ].
  pose proof (decimal_digits10 d e Hd) as [DLo DHi].
  pose proof pow2_pow10_bounds as [BHi BLo].
  cbv zeta.
  destruct (Z.leb_spec 309 (Number.digits10 d + e - 1)) as [G | _].
  { exfalso.
    assert (pow10 308 <= pow10 (Number.digits10 d + e - 1))%Q
      by (apply pow10_le; lia).
    lra. }
  destruct (Z.leb_spec (Number.digits10 d + e) (-324)) as [G | _].
  { exfalso.
    assert (pow10 (Number.digits10 d + e) <= pow10 (-308))%Q
      by (apply pow10_le; lia).
    lra. }
  destruct (Z.leb_spec 0 e) as [He | He].
  - assert (Hp : (0 < d * 10 ^ e)%Z).
    { apply Z.mul_pos_pos; [exact Hd | apply Z.pow_pos_nonneg; lia]. }
    assert (Ep : Zpos (Z.to_pos (d * 10 ^ e)) = (d * 10 ^ e)%Z)
      by (apply Z2Pos.id; exact Hp).
    assert (Ev : (inject_Z (Zpos (Z.to_pos (d * 10 ^ e))) == decimal d e)%Q).
    { rewrite Ep, inject_Z_mult. unfold decimal. now rewrite pow10_nonneg. }
    destruct (binary_round_nearest neg (Z.to_pos (d * 10 ^ e)))
      as (m' & e' & R & N).
    { pose proof (digits2_pos_rational (Z.to_pos (d * 10 ^ e))) as [L _].
      assert (Hlt : (pow2 (Zpos (digits2_pos (Z.to_pos (d * 10 ^ e))) - 1)
                     < pow2 1021)%Q) by lra.
      apply pow2_lt_inv in Hlt. lia. }
    exists m', e'. split; [exact R | ].
    exact (nearest_ext _ _ _ _ Ev N).
  - assert (Hp : (0 < 10 ^ (- e))%Z) by (apply Z.pow_pos_nonneg; lia).
    assert (Ea : Zpos (Z.to_pos d) = d) by (apply Z2Pos.id; exact Hd).
    assert (Eb : Zpos (Z.to_pos (10 ^ (- e))) = (10 ^ (- e))%Z)
      by (apply Z2Pos.id; exact Hp).
    assert (Ev : (decimal d e * inject_Z (Zpos (Z.to_pos (10 ^ (- e))))
                  == inject_Z (Zpos (Z.to_pos d)))%Q).
    { rewrite Ea, Eb. unfold decimal. rewrite <- pow10_nonneg by lia.
      rewrite pow10_opp. pose proof (pow10_pos e). field. lra. }
    pose proof (quotient_bits _ _ _ Ev) as [QLo QHi].
    destruct (div_nearest neg (Z.to_pos d) 0 false (Z.to_pos (10 ^ (- e))) 0)
      as (m' & e' & R & _ & N).
    { cbv zeta.
      assert (H1 : (pow2 (Zpos (digits2_pos (Z.to_pos d))
                          - Zpos (digits2_pos (Z.to_pos (10 ^ (- e)))) - 1)
                    < pow2 1021)%Q) by lra.
      assert (H2 : (pow2 (-1020)
                    < pow2 (Zpos (digits2_pos (Z.to_pos d))
                            - Zpos (digits2_pos (Z.to_pos (10 ^ (- e)))) + 1))%Q)
        by lra.
      apply pow2_lt_inv in H1, H2. lia. }
    rewrite xorb_false_r in R.
    exists m', e'. split; [exact R | ].
    apply (nearest_ext (magnitude (Z.to_pos d) 0
                        / magnitude (Z.to_pos (10 ^ (- e))) 0)); [ | exact N].
    rewrite !magnitude_zero.
    assert (Pb : (0 < inject_Z (Zpos (Z.to_pos (10 ^ (- e)))))%Q).
    { change 0%Q with (inject_Z 0). now rewrite <- Zlt_Qlt. }
    rewrite <- Ev. field. lra.
Qed.

(* ===================================================================== *)
(** ** Printing facts: the digits that [toString] chooses *)
(* ===================================================================== *)

Lemma number_eqb_eq x y : Number.eqb x y = true -> x = y.
Proof.
  destruct x as [a | a | | a m e], y as [b | b | | b n f];
    cbn [Number.eqb]; try discriminate; intros H.
  - now apply Bool.eqb_prop in H as ->.
  - now apply Bool.eqb_prop in H as ->.
  - reflexivity.
  - apply andb_prop in H as [H H3]. apply andb_prop in H as [H1 H2].
    apply Bool.eqb_prop in H1 as ->. apply Pos.eqb_eq in H2 as ->.
    apply Z.eqb_eq in H3 as ->. reflexivity.
Qed.

Lemma number_eqb_refl x : Number.eqb x x = true.
Proof.
  destruct x as [a | a | | a m e]; cbn [Number.eqb];
    rewrite ?Bool.eqb_reflx, ?Pos.eqb_refl, ?Z.eqb_refl; reflexivity.
Qed.

Lemma inject_Z_pos z : (0 < z)%Z -> (0 < inject_Z z)%Q.
Proof. intros H. change 0%Q with (inject_Z 0). now rewrite <- Zlt_Qlt. Qed.

(** [scaled m e scale] is a fraction of positive integers whose value is
    [m * 2^e / 10^scale]. *)
Lemma scaled_spec m e scale :
  let '(num, den) := Number.scaled m e scale in
  (0 < num)%Z /\ (0 < den)%Z
  /\ (inject_Z num * pow10 scale == magnitude m e * inject_Z den)%Q.
Proof.
  unfold Number.scaled, magnitude.
  pose proof (pow2_pos e) as P2. pose proof (pow10_pos scale) as P10.
  destruct (Z.leb_spec 0 e) as [He | He], (Z.ltb_spec scale 0) as [Hs | Hs];
    [ destruct (Z.ltb_spec e 0); [lia | ]
    | destruct (Z.ltb_spec e 0); [lia | ]
    | destruct (Z.ltb_spec e 0); [ | lia]
    | destruct (Z.ltb_spec e 0); [ | lia] ];
    (destruct (Z.leb_spec 0 scale); [try lia | try lia]);
    (split; [ | split]).
  all: try (repeat apply Z.mul_pos_pos; try apply Z.pow_pos_nonneg; lia).
  all: rewrite ?inject_Z_mult.
  all: rewrite <- ?pow2_nonneg, <- ?pow10_nonneg by lia.
  all: rewrite ?pow10_opp, ?pow2_opp.
  all: change (inject_Z 1) with 1%Q.
  all: field; lra.
Qed.

Lemma below_pow10_spec m e n :
  Number.below_pow10 m e n = true <-> (magnitude m e < pow10 n)%Q.
Proof.
  unfold Number.below_pow10. pose proof (scaled_spec m e n) as H.
  destruct (Number.scaled m e n) as [num den]. destruct H as (Hn & Hd & E).
  pose proof (inject_Z_pos _ Hn) as Pn. pose proof (inject_Z_pos _ Hd) as Pd.
  pose proof (pow10_pos n) as P10.
  rewrite Z.ltb_lt, (Zlt_Qlt num den).
  set (N := inject_Z num) in *. set (D := inject_Z den) in *.
  set (X := magnitude m e) in *. set (T := pow10 n) in *.
  clearbody N D X T. clear - E Pn Pd P10.
  split; intros H.
  - destruct (Qlt_le_dec X T) as [ | G]; [assumption | exfalso].
    assert (T * D <= X * D)%Q by (apply Qmult_le_compat_r; lra).
    assert (N * T < D * T)%Q by (apply Qmult_lt_compat_r; lra).
    lra.
  - destruct (Qlt_le_dec N D) as [ | G]; [assumption | exfalso].
    assert (X * D < T * D)%Q by (apply Qmult_lt_compat_r; lra).
    assert (D * T <= N * T)%Q by (apply Qmult_le_compat_r; lra).
    lra.
Qed.

Lemma first_pow10_above_lower fuel m e n :
  (pow10 (n - 1) <= magnitude m e)%Q ->
  (pow10 (Number.first_pow10_above fuel m e n - 1) <= magnitude m e)%Q.
Proof.
  revert n. induction fuel as [ | f IH]; intros n H; cbn [Number.first_pow10_above].
  - exact H.
  - destruct (Number.below_pow10 m e n) eqn:B; [exact H | ].
    apply IH. replace (n + 1 - 1)%Z with n by lia.
    destruct (Qlt_le_dec (magnitude m e) (pow10 n)) as [L | G]; [ | exact G].
    apply below_pow10_spec in L. congruence.
Qed.

Lemma forallb_range (P : Z -> bool) lo n :
  forallb (fun i => P (lo + Z.of_nat i)%Z) (seq 0 n) = true ->
  forall z, (lo <= z < lo + Z.of_nat n)%Z -> P z = true.
Proof.
  intros H z Hz. rewrite forallb_forall in H.
  specialize (H (Z.to_nat (z - lo))).
  replace (lo + Z.of_nat (Z.to_nat (z - lo)))%Z with z in H by lia.
  apply H. apply in_seq. lia.
Qed.

Lemma estimate_is_low_everywhere l2 :
  (-1074 <= l2 <= 1023)%Z -> estimate_is_low l2 = true.
Proof.
  intros H. apply (forallb_range estimate_is_low (-1074) 2098); [ | lia].
  vm_compute. reflexivity.
Qed.

(** The decimal exponent [n] that [toString] computes is not too large:
    [10^(n-1)] is at most the number. *)
Lemma decimal_exponent_lower m e :
  (-1074 <= Zpos (digits2_pos m) + e - 1 <= 1023)%Z ->
  (pow10 (Number.decimal_exponent m e - 1) <= magnitude m e)%Q.
Proof.
  intros H. unfold Number.decimal_exponent. cbv zeta.
  apply first_pow10_above_lower.
  pose proof (estimate_is_low_everywhere _ H) as L.
  unfold estimate_is_low in L. apply Qle_bool_iff in L.
  set (l2 := (Zpos (digits2_pos m) + e - 1)%Z) in *.
  replace (l2 * 30103 / 100000 - 1 - 1)%Z with (l2 * 30103 / 100000 - 2)%Z by lia.
  eapply Qle_trans; [exact L | ].
  unfold magnitude. pose proof (digits2_pos_rational m) as [Lo _].
  pose proof (pow2_pos e) as Pe.
  replace l2 with ((Zpos (digits2_pos m) - 1) + e)%Z by (unfold l2; lia).
  rewrite pow2_add. apply Qmult_le_compat_r; lra.
Qed.

(** A normal number of the range of [converted], as a rational. *)
Lemma converted_magnitude m e :
  Zpos (digits2_pos m) = 53%Z -> (-1071 <= e <= 967)%Z ->
  (pow2 (-1019) <= magnitude m e < pow2 1020)%Q
  /\ (4503599627370496 * pow2 e <= magnitude m e < 9007199254740992 * pow2 e)%Q.
Proof.
  intros Hm He. pose proof (digits2_pos_rational m) as [Lo Hi].
  rewrite Hm in Lo, Hi. pose proof (pow2_pos e) as Pe.
  assert (B : (4503599627370496 * pow2 e <= magnitude m e
               < 9007199254740992 * pow2 e)%Q).
  { unfold magnitude. split.
    - apply Qmult_le_compat_r; [exact Lo | lra].
    - apply Qmult_lt_compat_r; [exact Pe | exact Hi]. }
  split; [ | exact B].
  assert (L : (pow2 (-1071) <= pow2 e)%Q) by (apply pow2_le; lia).
  assert (U : (pow2 e <= pow2 967)%Q) by (apply pow2_le; lia).
  assert (E1 : (pow2 (-1019) == 4503599627370496 * pow2 (-1071))%Q)
    by (vm_compute; reflexivity).
  assert (E2 : (pow2 1020 == 9007199254740992 * pow2 967)%Q)
    by (vm_compute; reflexivity).
  destruct B as [B1 B2].
  set (X := magnitude m e) in *. set (E := pow2 e) in *.
  set (a := pow2 (-1019)) in *. set (b := pow2 1020) in *.
  set (c := pow2 (-1071)) in *. set (d := pow2 967) in *.
  clearbody X E a b c d. clear - B1 B2 L U E1 E2. lra.
Qed.

(** A decimal that a normal number is nearest to is read as that number. *)
Lemma nearest_reads neg m e d scale :
  Zpos (digits2_pos m) = 53%Z -> (-1071 <= e <= 967)%Z ->
  (0 < d)%Z ->
  nearest (decimal d scale) m e ->
  Number.of_decimal neg d scale = S754_finite neg m e.
Proof.
  intros Hm He Hd N.
  pose proof (converted_magnitude m e Hm He) as [[R1 R2] _].
  pose proof (nearest_bounds _ _ _ N) as [B1 B2].
  assert (E1 : (pow2 (-1019) == 2 * pow2 (-1020))%Q) by (vm_compute; reflexivity).
  assert (E2 : (pow2 1021 == 2 * pow2 1020)%Q) by (vm_compute; reflexivity).
  pose proof (pow2_pos (-1020)) as P1.
  destruct (of_decimal_nearest neg d scale Hd) as (m' & e' & R & N').
  { set (X := magnitude m e) in *. set (v := decimal d scale) in *.
    set (a := pow2 (-1019)) in *. set (b := pow2 1020) in *.
    set (c := pow2 (-1020)) in *. set (f := pow2 1021) in *.
    clearbody X v a b c f. clear - R1 R2 B1 B2 E1 E2 P1. lra. }
  destruct (nearest_unique _ _ _ _ _ (decimal_pos d scale Hd) N N') as [-> ->].
  exact R.
Qed.

(** A decimal between half and twice a normal number, and read as that
    number, is one that the number is nearest to. *)
Lemma read_is_nearest neg m e d scale :
  Zpos (digits2_pos m) = 53%Z -> (-1071 <= e <= 967)%Z ->
  (0 < d)%Z ->
  (magnitude m e * (1 # 2) <= decimal d scale <= magnitude m e * 2)%Q ->
  Number.of_decimal neg d scale = S754_finite neg m e ->
  nearest (decimal d scale) m e.
Proof.
  intros Hm He Hd [B1 B2] R.
  pose proof (converted_magnitude m e Hm He) as [[R1 R2] _].
  assert (E1 : (pow2 (-1019) == 2 * pow2 (-1020))%Q) by (vm_compute; reflexivity).
  assert (E2 : (pow2 1021 == 2 * pow2 1020)%Q) by (vm_compute; reflexivity).
  destruct (of_decimal_nearest neg d scale Hd) as (m' & e' & R' & N').
  { set (X := magnitude m e) in *. set (v := decimal d scale) in *.
    set (a := pow2 (-1019)) in *. set (b := pow2 1020) in *.
    set (c := pow2 (-1020)) in *. set (f := pow2 1021) in *.
    clearbody X v a b c f. clear - R1 R2 B1 B2 E1 E2. lra. }
  rewrite R in R'. injection R' as <- <-. exact N'.
Qed.

(** The quotient [q] of [scaled m e scale]: the number is [q * 10^scale]
    plus a remainder below [10^scale]; the remainder is compared with half
    of [10^scale] as twice the integer remainder is with the divisor. *)
Lemma scaled_quotient m e scale :
  let '(num, den) := Number.scaled m e scale in
  (0 < den)%Z
  /\ exists g : Q,
      (magnitude m e == decimal (num / den) scale + g)%Q
      /\ (0 <= g < pow10 scale)%Q
      /\ ((2 * (num mod den) <= den)%Z -> (g <= pow10 scale * (1 # 2))%Q)
      /\ ((den <= 2 * (num mod den))%Z -> (pow10 scale * (1 # 2) <= g)%Q).
Proof.
  pose proof (scaled_spec m e scale) as H.
  destruct (Number.scaled m e scale) as [num den]. destruct H as (Hn & Hd & E).
  split; [exact Hd | ].
  pose proof (Z.div_mod num den ltac:(lia)) as DM.
  pose proof (Z.mod_pos_bound num den Hd) as [R0 R1].
  set (q := (num / den)%Z) in *. set (r := (num mod den)%Z) in *.
  pose proof (inject_Z_pos _ Hd) as Pd. pose proof (pow10_pos scale) as P10.
  assert (EN : (inject_Z num == inject_Z den * inject_Z q + inject_Z r)%Q).
  { now rewrite <- inject_Z_mult, <- inject_Z_plus, <- DM. }
  assert (Q0 : (0 <= inject_Z r)%Q).
  { change 0%Q with (inject_Z 0). now rewrite <- Zle_Qle. }
  assert (Q1 : (inject_Z r < inject_Z den)%Q) by now rewrite <- Zlt_Qlt.
  exists (inject_Z r * pow10 scale / inject_Z den)%Q.
  split; [ | split; [split | split]].
  - unfold decimal. apply (Qmult_inj_r _ _ (inject_Z den)); [lra | ].
    rewrite <- E, EN. field. lra.
  - apply Qle_shift_div_l; [exact Pd | ].
    rewrite Qmult_0_l. apply Qmult_le_0_compat; lra.
  - apply Qlt_shift_div_r; [exact Pd | ].
    rewrite (Qmult_comm (pow10 scale)). apply Qmult_lt_compat_r; assumption.
  - intros H. apply Qle_shift_div_r; [exact Pd | ].
    assert (H' : (2 * inject_Z r <= inject_Z den)%Q).
    { change 2%Q with (inject_Z 2). rewrite <- inject_Z_mult.
      now rewrite <- Zle_Qle. }
    assert (2 * inject_Z r * pow10 scale <= inject_Z den * pow10 scale)%Q
      by (apply Qmult_le_compat_r; lra).
    lra.
  - intros H. apply Qle_shift_div_l; [exact Pd | ].
    assert (H' : (inject_Z den <= 2 * inject_Z r)%Q).
    { change 2%Q with (inject_Z 2). rewrite <- inject_Z_mult.
      now rewrite <- Zle_Qle. }
    assert (inject_Z den * pow10 scale <= 2 * inject_Z r * pow10 scale)%Q
      by (apply Qmult_le_compat_r; lra).
    lra.
Qed.

Lemma canonical_magnitude m e :
  Zpos (digits2_pos m) = 53%Z ->
  (4503599627370496 * pow2 e <= magnitude m e < 9007199254740992 * pow2 e)%Q
  /\ (2 ^ 52 <= Zpos m < 2 ^ 53)%Z.
Proof.
  intros Hm. pose proof (digits2_pos_rational m) as [Lo Hi].
  pose proof (digits2_pos_bounds m) as B.
  rewrite Hm in Lo, Hi, B. pose proof (pow2_pos e) as Pe.
  split; [ | exact B]. unfold magnitude. split.
  - apply Qmult_le_compat_r; [exact Lo | lra].
  - apply Qmult_lt_compat_r; [exact Pe | exact Hi].
Qed.

(** A rational within a relative distance of [10^-16 / 2] of a normal
    number has that number as its nearest. *)
Lemma close_is_nearest m e v :
  Zpos (digits2_pos m) = 53%Z ->
  (magnitude m e * (1 - (1 # 20000000000000000)) <= v
   <= magnitude m e * (1 + (1 # 20000000000000000)))%Q ->
  nearest v m e.
Proof.
  intros Hm [B1 B2]. destruct (canonical_magnitude m e Hm) as [[X1 X2] Hr].
  pose proof (pow2_pos e) as Pe.
  unfold nearest. split; [exact Hr | ].
  assert (EX : (Zpos m = 2 ^ 52)%Z
               -> (magnitude m e == 4503599627370496 * pow2 e)%Q).
  { intros Eq. unfold magnitude. rewrite Eq.
    change (inject_Z (2 ^ 52)) with 4503599627370496%Q. reflexivity. }
  destruct (Z.eqb_spec (Zpos m) (2 ^ 52)) as [Eq | _];
    [specialize (EX Eq) | clear EX];
    set (X := magnitude m e) in *; set (E := pow2 e) in *;
    clearbody X E.
  - clear - B1 B2 X1 X2 Pe EX.
    split; [lra | ]. split; [intros H; exfalso; lra | lra].
  - clear - B1 B2 X1 X2 Pe.
    split; [lra | ]. split; [intros H; exfalso; lra | ].
    split; [lra | intros H; exfalso; lra].
Qed.

Lemma decimal_succ d scale :
  (decimal (d + 1) scale == decimal d scale + pow10 scale)%Q.
Proof. unfold decimal. rewrite inject_Z_plus. change (inject_Z 1) with 1%Q. ring. Qed.

Lemma decimal_pos_inv d scale : (0 < decimal d scale)%Q -> (0 < d)%Z.
Proof.
  intros H. unfold decimal in H. pose proof (pow10_pos scale) as P.
  destruct (Z_lt_le_dec 0 d) as [ | G]; [assumption | exfalso].
  assert (Hd : (inject_Z d <= 0)%Q).
  { change 0%Q with (inject_Z 0). now rewrite <- Zle_Qle. }
  assert (inject_Z d * pow10 scale <= 0 * pow10 scale)%Q
    by (apply Qmult_le_compat_r; lra).
  lra.
Qed.

(** What [candidate] returns has been read back. *)
Lemma candidate_verified m e n k s scale :
  Number.candidate m e n k = Some (s, scale) ->
  scale = (n - k)%Z
  /\ (s = (fst (Number.scaled m e (n - k)) / snd (Number.scaled m e (n - k)))%Z
      \/ s = (fst (Number.scaled m e (n - k)) / snd (Number.scaled m e (n - k)) + 1)%Z)
  /\ Number.of_decimal false s scale = S754_finite false m e.
Proof.
  unfold Number.candidate. cbv zeta.
  destruct (Number.scaled m e (n - k)) as [num den]. cbn [fst snd].
  destruct (Number.eqb (Number.of_decimal false (num / den) (n - k))
                       (S754_finite false m e)) eqn:Lo;
    destruct (Number.eqb (Number.of_decimal false (num / den + 1) (n - k))
                         (S754_finite false m e)) eqn:Hi;
    try discriminate;
    try apply number_eqb_eq in Lo; try apply number_eqb_eq in Hi.
  - destruct (2 * (num mod den) ?= den)%Z;
      [destruct (Z.even (num / den)) | | ];
      intros H; injection H as <- <-; auto.
  - intros H; injection H as <- <-; auto.
  - intros H; injection H as <- <-; auto.
Qed.

(** Seventeen digits are enough: [candidate] finds a decimal. *)
Lemma candidate_last m e n :
  Zpos (digits2_pos m) = 53%Z -> (-1071 <= e <= 967)%Z ->
  (pow10 (n - 1) <= magnitude m e)%Q ->
  Number.candidate m e n 17 <> None.
Proof.
  intros Hm He Hn.
  assert (Hn' : (pow10 (n - 17) * 10000000000000000 <= magnitude m e)%Q).
  { eapply Qle_trans; [ | exact Hn].
    replace (n - 1)%Z with ((n - 17) + 16)%Z by lia. rewrite pow10_add.
    apply Qmult_le_l; [apply pow10_pos | ]. vm_compute. discriminate. }
  pose proof (scaled_quotient m e (n - 17)) as H.
  unfold Number.candidate. cbv zeta.
  destruct (Number.scaled m e (n - 17)) as [num den].
  destruct H as (Hd & g & EX & [G0 G1] & Gl & Gu).
  pose proof (pow10_pos (n - 17)) as P10.
  pose proof (magnitude_pos m e) as PX.
  pose proof (decimal_succ (num / den) (n - 17)) as ES.
  destruct (Z_le_gt_dec (2 * (num mod den)) den) as [L | G].
  - specialize (Gl L). clear Gu.
    assert (C : (magnitude m e * (1 - (1 # 20000000000000000))
                 <= decimal (num / den) (n - 17)
                 <= magnitude m e * (1 + (1 # 20000000000000000)))%Q).
    { set (X := magnitude m e) in *. set (v := decimal (num / den) (n - 17)) in *.
      set (t := pow10 (n - 17)) in *. clearbody X v t.
      clear - Hn' EX G0 G1 Gl P10 PX. lra. }
    assert (Pq : (0 < num / den)%Z).
    { apply (decimal_pos_inv _ (n - 17)).
      set (X := magnitude m e) in *. set (v := decimal (num / den) (n - 17)) in *.
      clearbody X v. clear - C PX. lra. }
    rewrite (nearest_reads false m e _ _ Hm He Pq (close_is_nearest _ _ _ Hm C)).
    rewrite number_eqb_refl.
    destruct (Number.eqb _ _); [ | discriminate].
    destruct (2 * (num mod den) ?= den)%Z; discriminate.
  - specialize (Gu ltac:(lia)). clear Gl.
    assert (C : (magnitude m e * (1 - (1 # 20000000000000000))
                 <= decimal (num / den + 1) (n - 17)
                 <= magnitude m e * (1 + (1 # 20000000000000000)))%Q).
    { set (X := magnitude m e) in *. set (v := decimal (num / den) (n - 17)) in *.
      set (v' := decimal (num / den + 1) (n - 17)) in *.
      set (t := pow10 (n - 17)) in *. clearbody X v v' t.
      clear - Hn' EX G0 G1 Gu P10 PX ES. lra. }
    assert (Pq : (0 < num / den + 1)%Z).
    { apply (decimal_pos_inv _ (n - 17)).
      set (X := magnitude m e) in *.
      set (v' := decimal (num / den + 1) (n - 17)) in *.
      clearbody X v'. clear - C PX. lra. }
    rewrite (nearest_reads false m e _ _ Hm He Pq (close_is_nearest _ _ _ Hm C)).
    rewrite number_eqb_refl.
    destruct (Number.eqb _ _); [ | discriminate].
    destruct (2 * (num mod den) ?= den)%Z; discriminate.
Qed.

Lemma shortest_from_candidate m e n fuel k :
  (Z.of_nat fuel + k = 17)%Z ->
  Number.candidate m e n 17 <> None ->
  exists k', (k <= k')%Z
             /\ Number.candidate m e n k' = Some (Number.shortest_from fuel m e n k).
Proof.
  revert k. induction fuel as [ | f IH]; intros k Hk Hlast;
    cbn [Number.shortest_from].
  - replace k with 17%Z by lia.
    destruct (Number.candidate m e n 17) as [c | ] eqn:C; [ | congruence].
    exists 17%Z. split; [lia | exact C].
  - destruct (Number.candidate m e n k) as [c | ] eqn:C.
    + exists k. split; [lia | exact C].
    + destruct (IH (k + 1)%Z ltac:(lia) Hlast) as (k' & Hk' & E).
      exists k'. split; [lia | exact E].
Qed.

Lemma strip_zeros_spec fuel s scale s' scale' :
  (0 < s)%Z ->
  Number.strip_zeros fuel s scale = (s', scale') ->
  (0 < s')%Z /\ (decimal s' scale' == decimal s scale)%Q.
Proof.
  revert s scale. induction fuel as [ | f IH]; intros s scale Hs;
    cbn [Number.strip_zeros].
  - intros H; injection H as <- <-. split; [exact Hs | reflexivity].
  - destruct (Z.ltb_spec 0 s) as [_ | ]; [ | lia]. cbn [andb].
    destruct (Z.eqb_spec (s mod 10) 0) as [Z0 | _].
    + intros H.
      pose proof (Z.div_mod s 10 ltac:(lia)) as DM. rewrite Z0 in DM.
      destruct (IH (s / 10)%Z (scale + 1)%Z ltac:(lia) H) as [P E].
      split; [exact P | ]. rewrite E. unfold decimal.
      rewrite pow10_succ. rewrite DM at 2.
      rewrite Z.add_0_r, inject_Z_mult. change (inject_Z 10) with 10%Q. ring.
    + intros H; injection H as <- <-. split; [exact Hs | reflexivity].
Qed.

(** The digits and the scale that [toString] settles on denote a decimal
    that the number is nearest to. *)
Lemma shortest_digits m e :
  Zpos (digits2_pos m) = 53%Z -> (-1071 <= e <= 967)%Z ->
  exists s scale,
    Number.shortest m e
    = (digits_of s, (Z.of_nat (String.length (digits_of s)) + scale)%Z)
    /\ (0 < s)%Z
    /\ nearest (decimal s scale) m e.
Proof.
  intros Hm He.
  assert (Hn : (pow10 (Number.decimal_exponent m e - 1) <= magnitude m e)%Q)
    by (apply decimal_exponent_lower; lia).
  set (n := Number.decimal_exponent m e) in *.
  pose proof (candidate_last m e n Hm He Hn) as Hlast.
  destruct (shortest_from_candidate m e n 16 1 eq_refl Hlast) as (k & Hk & C).
  unfold Number.shortest. cbv zeta. fold n.
  destruct (Number.shortest_from 16 m e n 1) as [s0 scale0].
  apply candidate_verified in C as (-> & Hq & R).
  pose proof (scaled_quotient m e (n - k)) as H.
  destruct (Number.scaled m e (n - k)) as [num den]. cbn [fst snd] in Hq.
  destruct H as (Hd & g & EX & [G0 G1] & _).
  pose proof (pow10_pos (n - k)) as P10.
  pose proof (magnitude_pos m e) as PX.
  pose proof (decimal_succ (num / den) (n - k)) as ES.
  assert (Hn' : (pow10 (n - k) <= magnitude m e)%Q).
  { eapply Qle_trans; [ | exact Hn]. apply pow10_le. lia. }
  assert (P0 : (0 < s0)%Z).
  { destruct (Z_lt_le_dec 0 s0) as [ | G]; [assumption | exfalso].
    unfold Number.of_decimal in R.
    destruct (Z.leb_spec s0 0); [discriminate | lia]. }
  assert (V0 : (0 <= decimal (num / den) (n - k))%Q).
  { destruct Hq as [-> | ->].
    - apply Qlt_le_weak, decimal_pos, P0.
    - assert (0 <= num / den)%Z by lia.
      unfold decimal. apply Qmult_le_0_compat; [ | lra].
      change 0%Q with (inject_Z 0). now rewrite <- Zle_Qle. }
  assert (V1 : (num / den <> 0)%Z -> (pow10 (n - k) <= decimal (num / den) (n - k))%Q).
  { intros NZ. assert (1 <= num / den)%Z.
    { destruct Hq as [-> | ->]; lia. }
    unfold decimal.
    rewrite <- (Qmult_1_l (pow10 (n - k))) at 1.
    apply Qmult_le_compat_r; [ | lra].
    change 1%Q with (inject_Z 1). now rewrite <- Zle_Qle. }
  assert (B : (magnitude m e * (1 # 2) <= decimal s0 (n - k)
               <= magnitude m e * 2)%Q).
  { destruct (Z.eq_dec (num / den) 0) as [Z0 | NZ].
    - assert (s0 = 1%Z) by (destruct Hq as [-> | ->]; lia). subst s0.
      rewrite Z0 in EX.
      assert (E1 : (decimal 1 (n - k) == pow10 (n - k))%Q)
        by (unfold decimal; change (inject_Z 1) with 1%Q; ring).
      assert (E0 : (decimal 0 (n - k) == 0)%Q)
        by (unfold decimal; change (inject_Z 0) with 0%Q; ring).
      set (X := magnitude m e) in *. set (v := decimal 1 (n - k)) in *.
      set (v0 := decimal 0 (n - k)) in *. set (t := pow10 (n - k)) in *.
      clearbody X v v0 t. clear - EX G0 G1 E0 E1 Hn' PX. lra.
    - specialize (V1 NZ).
      destruct Hq as [-> | ->];
        set (X := magnitude m e) in *;
        set (v := decimal (num / den) (n - k)) in *;
        try set (v' := decimal (num / den + 1) (n - k)) in *;
        set (t := pow10 (n - k)) in *.
      + clearbody X v t. clear - EX G0 G1 V1 Hn' PX. lra.
      + clearbody X v v' t. clear - EX G0 G1 V1 ES Hn' PX. lra. }
  pose proof (read_is_nearest false m e s0 (n - k) Hm He P0 B R) as N.
  destruct (Number.strip_zeros 400 s0 (n - k)) as [s scale] eqn:SZ.
  apply strip_zeros_spec in SZ as [P E]; [ | exact P0].
  exists s, scale. split; [reflexivity | ]. split; [exact P | ].
  apply (nearest_ext (decimal s0 (n - k))); [now symmetry | exact N].
Qed.

(* ===================================================================== *)
(** ** Text facts: what [parseFloat] reads in the text of [toString] *)
(* ===================================================================== *)

Lemma text_append_nil_r (s : string) : s ++ EmptyString = s.
Proof. induction s as [ | c r IH]; cbn [append]; [reflexivity | now rewrite IH]. Qed.

Lemma text_append_assoc (a b c : string) : (a ++ b) ++ c = a ++ (b ++ c).
Proof. induction a as [ | x r IH]; cbn [append]; [reflexivity | now rewrite IH]. Qed.

Lemma text_length_append (a b : string) :
  String.length (a ++ b) = (String.length a + String.length b)%nat.
Proof. induction a as [ | x r IH]; cbn [append String.length]; [reflexivity | now rewrite IH]. Qed.

Lemma all_digits_append a b :
  all_digits a = true -> all_digits b = true -> all_digits (a ++ b) = true.
Proof.
  induction a as [ | x r IH]; cbn [append all_digits]; intros Ha Hb; [exact Hb | ].
  apply andb_prop in Ha as [H1 H2]. rewrite H1. cbn [andb]. now apply IH.
Qed.

Lemma span_digits_append ds rest :
  all_digits ds = true -> starts_with_digit rest = false ->
  span_digits (ds ++ rest) = (ds, rest).
Proof.
  induction ds as [ | c r IH]; cbn [append all_digits]; intros Hd Hr.
  - destruct rest as [ | c r]; [reflexivity | ].
    cbn [starts_with_digit] in Hr. cbn [span_digits]. now rewrite Hr.
  - apply andb_prop in Hd as [H1 H2]. cbn [span_digits]. rewrite H1.
    now rewrite (IH H2 Hr).
Qed.

Lemma span_digits_all ds :
  all_digits ds = true -> span_digits ds = (ds, EmptyString).
Proof.
  intros H. rewrite <- (text_append_nil_r ds) at 1.
  now apply span_digits_append.
Qed.

Lemma digits_value_from_append acc a b :
  digits_value_from acc (a ++ b) = digits_value_from (digits_value_from acc a) b.
Proof.
  revert acc. induction a as [ | x r IH]; intros acc; cbn [append digits_value_from];
    [reflexivity | apply IH].
Qed.

Lemma digits_value_from_acc acc s :
  digits_value_from acc s
  = (acc * 10 ^ Z.of_nat (String.length s) + digits_value_from 0 s)%Z.
Proof.
  revert acc. induction s as [ | c r IH]; intros acc;
    cbn [digits_value_from String.length].
  - change (10 ^ Z.of_nat 0)%Z with 1%Z. lia.
  - rewrite (IH (10 * acc + Chars.digit_value c)%Z),
            (IH (10 * 0 + Chars.digit_value c)%Z).
    rewrite Nat2Z.inj_succ, Z.pow_succ_r by lia. ring.
Qed.

Lemma code_digit_char d :
  (0 <= d <= 9)%Z -> Chars.code (Chars.digit_char d) = (48 + d)%Z.
Proof.
  intros H.
  assert (C : (d = 0 \/ d = 1 \/ d = 2 \/ d = 3 \/ d = 4 \/ d = 5 \/ d = 6
               \/ d = 7 \/ d = 8 \/ d = 9)%Z) by lia.
  destruct C as [-> | [-> | [-> | [-> | [-> | [-> | [-> | [-> | [-> | ->]]]]]]]]];
    reflexivity.
Qed.

Lemma is_digit_digit_char d :
  (0 <= d <= 9)%Z -> Chars.is_digit (Chars.digit_char d) = true.
Proof.
  intros H. unfold Chars.is_digit. rewrite (code_digit_char d H).
  apply andb_true_intro. split; apply Z.leb_le; lia.
Qed.

Lemma digit_value_digit_char d :
  (0 <= d <= 9)%Z -> Chars.digit_value (Chars.digit_char d) = d.
Proof. intros H. unfold Chars.digit_value. rewrite (code_digit_char d H). lia. Qed.

(** [digits_of_fuel] puts the decimal digits of [z] in front of [acc]. *)
Lemma digits_of_fuel_spec fuel z acc :
  (0 <= z < 2 ^ (Z.of_nat fuel + 1))%Z ->
  exists ds,
    digits_of_fuel fuel z acc = ds ++ acc
    /\ all_digits ds = true
    /\ ds <> EmptyString
    /\ digits_value_from 0 ds = z.
Proof.
  revert z acc. induction fuel as [ | f IH]; intros z acc Hz.
  - change (2 ^ (Z.of_nat 0 + 1))%Z with 2%Z in Hz.
    assert (Hm : (z mod 10 = z)%Z) by (apply Z.mod_small; lia).
    exists (String (Chars.digit_char z) EmptyString).
    cbn [digits_of_fuel append all_digits digits_value_from]. rewrite Hm.
    rewrite is_digit_digit_char, digit_value_digit_char by lia.
    split; [reflexivity | split; [reflexivity | split; [discriminate | lia]]].
  - cbn [digits_of_fuel]. destruct (Z.ltb_spec z 10) as [L | G].
    + assert (Hm : (z mod 10 = z)%Z) by (apply Z.mod_small; lia).
      exists (String (Chars.digit_char z) EmptyString).
      cbn [append all_digits digits_value_from]. rewrite Hm.
      rewrite is_digit_digit_char, digit_value_digit_char by lia.
      split; [reflexivity | split; [reflexivity | split; [discriminate | lia]]].
    + pose proof (Z.div_mod z 10 ltac:(lia)) as DM.
      pose proof (Z.mod_pos_bound z 10 ltac:(lia)) as B.
      assert (Hq : (0 <= z / 10 < 2 ^ (Z.of_nat f + 1))%Z).
      { split; [apply Z.div_pos; lia | ].
        apply Z.div_lt_upper_bound; [lia | ].
        rewrite Nat2Z.inj_succ in Hz.
        replace (Z.succ (Z.of_nat f) + 1)%Z with (Z.succ (Z.of_nat f + 1)) in Hz by lia.
        rewrite Z.pow_succ_r in Hz by lia. lia. }
      destruct (IH (z / 10)%Z (String (Chars.digit_char (z mod 10)) acc) Hq)
        as (ds & E & A & _ & V).
      exists (ds ++ String (Chars.digit_char (z mod 10)) EmptyString).
      split; [ | split; [ | split]].
      * rewrite E, text_append_assoc. reflexivity.
      * apply all_digits_append; [exact A | ].
        cbn [all_digits]. now rewrite is_digit_digit_char by lia.
      * destruct ds; discriminate.
      * rewrite digits_value_from_append, V. cbn [digits_value_from].
        rewrite digit_value_digit_char by lia. lia.
Qed.

Lemma digits_of_spec z :
  (0 <= z)%Z ->
  all_digits (digits_of z) = true
  /\ digits_of z <> EmptyString
  /\ digits_value (digits_of z) = z.
Proof.
  intros Hz. unfold digits_of, digits_value.
  destruct (digits_of_fuel_spec (Z.to_nat (Z.log2 z)) z EmptyString)
    as (ds & E & A & N & V).
  { split; [exact Hz | ]. rewrite Z2Nat.id by apply Z.log2_nonneg.
    destruct (Z.eq_dec z 0) as [-> | NZ]; [reflexivity | ].
    pose proof (Z.log2_spec z ltac:(lia)) as [_ H].
    replace (Z.log2 z + 1)%Z with (Z.succ (Z.log2 z)) by lia. exact H. }
  rewrite E, text_append_nil_r. auto.
Qed.

Lemma all_digits_zeros j : all_digits (repeat_char "0" j) = true.
Proof. induction j as [ | j IH]; cbn [repeat_char all_digits]; [reflexivity | exact IH]. Qed.

Lemma length_zeros j : String.length (repeat_char "0" j) = j.
Proof. induction j as [ | j IH]; cbn [repeat_char String.length]; [reflexivity | now rewrite IH]. Qed.

Lemma digits_value_from_zeros acc j :
  digits_value_from acc (repeat_char "0" j) = (acc * 10 ^ Z.of_nat j)%Z.
Proof.
  revert acc. induction j as [ | j IH]; intros acc; cbn [repeat_char digits_value_from].
  - change (10 ^ Z.of_nat 0)%Z with 1%Z. lia.
  - rewrite IH. change (Chars.digit_value "0") with 0%Z.
    rewrite Nat2Z.inj_succ, Z.pow_succ_r by lia. ring.
Qed.

Lemma take_drop n s : take n s ++ drop n s = s.
Proof.
  revert s. induction n as [ | n IH]; intros s; [reflexivity | ].
  destruct s as [ | c r]; cbn [take drop append]; [reflexivity | now rewrite IH].
Qed.

Lemma all_digits_take n s : all_digits s = true -> all_digits (take n s) = true.
Proof.
  revert s. induction n as [ | n IH]; intros s H; [reflexivity | ].
  destruct s as [ | c r]; cbn [take all_digits] in *; [reflexivity | ].
  apply andb_prop in H as [H1 H2]. rewrite H1. cbn [andb]. now apply IH.
Qed.

Lemma all_digits_drop n s : all_digits s = true -> all_digits (drop n s) = true.
Proof.
  revert s. induction n as [ | n IH]; intros s H; [exact H | ].
  destruct s as [ | c r]; cbn [drop all_digits] in *; [reflexivity | ].
  apply andb_prop in H as [H1 H2]. now apply IH.
Qed.

Lemma length_drop n s :
  (n <= String.length s)%nat ->
  String.length (drop n s) = (String.length s - n)%nat.
Proof.
  revert s. induction n as [ | n IH]; intros s H; cbn [drop]; [lia | ].
  destruct s as [ | c r]; cbn [String.length] in *; [lia | ].
  apply IH. lia.
Qed.

Lemma take_nonempty n s :
  (0 < n)%nat -> s <> EmptyString -> take n s <> EmptyString.
Proof.
  intros Hn Hs. destruct n; [lia | ]. destruct s; [congruence | discriminate].
Qed.

Lemma starts_with_digit_append ds rest :
  all_digits ds = true -> ds <> EmptyString ->
  starts_with_digit (ds ++ rest) = true.
Proof.
  intros A N. destruct ds as [ | c r]; [congruence | ].
  cbn [all_digits] in A. apply andb_prop in A as [A _]. exact A.
Qed.

Lemma parse_exponent_text x :
  Number.parse_exponent (String "e" (Number.format_exponent x)) = x.
Proof.
  unfold Number.parse_exponent, Number.format_exponent.
  change (Ascii.eqb "e" "e" || Ascii.eqb "e" "E")%bool with true. cbv iota.
  destruct (digits_of_spec (Z.abs x) (Z.abs_nonneg x)) as (A & N & V).
  destruct (Z.ltb_spec x 0) as [L | G]; cbn [append Number.parse_sign];
    rewrite (span_digits_all _ A);
    destruct (digits_of (Z.abs x)) as [ | c r]; try congruence; lia.
Qed.

Lemma parse_unsigned_dotted ip r fp tail :
  all_digits ip = true -> ip <> EmptyString ->
  span_digits r = (fp, tail) ->
  Number.parse_unsigned (ip ++ String "." r)
  = Some (digits_value (ip ++ fp),
          (Number.parse_exponent tail - Z.of_nat (String.length fp))%Z).
Proof.
  intros A N S. unfold Number.parse_unsigned.
  rewrite (span_digits_append ip (String "." r) A eq_refl). cbv iota beta.
  rewrite S. destruct ip as [ | c i]; [congruence | reflexivity].
Qed.

Lemma parse_unsigned_integer ip :
  all_digits ip = true -> ip <> EmptyString ->
  Number.parse_unsigned ip = Some (digits_value ip, 0%Z).
Proof.
  intros A N. unfold Number.parse_unsigned.
  rewrite (span_digits_all ip A). cbv iota beta.
  destruct ip as [ | c i]; [congruence | ].
  rewrite text_append_nil_r. reflexivity.
Qed.

Lemma parse_unsigned_exponent ip x :
  all_digits ip = true -> ip <> EmptyString ->
  Number.parse_unsigned (ip ++ String "e" (Number.format_exponent x))
  = Some (digits_value ip, x).
Proof.
  intros A N. unfold Number.parse_unsigned.
  rewrite (span_digits_append ip (String "e" (Number.format_exponent x)) A eq_refl).
  cbv iota beta. rewrite parse_exponent_text.
  destruct ip as [ | c i]; [congruence | ].
  rewrite text_append_nil_r. cbn [String.length]. now rewrite Z.sub_0_r.
Qed.

Lemma decimal_ext d e d' e' :
  d = d' -> e = e' -> (decimal d e == decimal d' e')%Q.
Proof. intros -> ->. reflexivity. Qed.

Lemma decimal_shift s scale :
  (0 <= scale)%Z -> (decimal (s * 10 ^ scale) 0 == decimal s scale)%Q.
Proof.
  intros H. unfold decimal. rewrite inject_Z_mult, <- pow10_nonneg by lia.
  unfold pow10 at 2. change (10 ^ 0)%Q with 1%Q. ring.
Qed.

(** The exponent layout: one digit, the others after a dot if there are
    any, and the exponent. *)
Lemma exponent_layout_parses ds s n :
  all_digits ds = true -> ds <> EmptyString ->
  digits_value_from 0 ds = s -> (0 < s)%Z ->
  let body :=
    match ds with
    | String d EmptyString => String d ("e" ++ Number.format_exponent (n - 1))
    | String d rest =>
        String d ("." ++ rest ++ "e" ++ Number.format_exponent (n - 1))
    | EmptyString => "0"
    end in
  starts_with_digit body = true
  /\ exists d e,
      Number.parse_unsigned body = Some (d, e)
      /\ (0 < d)%Z
      /\ (decimal d e == decimal s (n - Z.of_nat (String.length ds)))%Q.
Proof.
  intros A N V Hs.
  destruct ds as [ | c [ | c' r]]; [congruence | | ]; cbv zeta.
  - cbn [all_digits] in A. apply andb_prop in A as [Ac _].
    split; [exact Ac | ].
    exists s, (n - 1)%Z. split; [ | split; [exact Hs | ]].
    + change (String c ("e" ++ Number.format_exponent (n - 1)))
        with (String c EmptyString ++ String "e" (Number.format_exponent (n - 1))).
      rewrite parse_unsigned_exponent;
        [ | cbn [all_digits]; now rewrite Ac | discriminate].
      unfold digits_value. now rewrite V.
    + apply decimal_ext; [reflexivity | ]. cbn [String.length]. lia.
  - pose proof A as A0. cbn [all_digits] in A. apply andb_prop in A as [Ac Ar].
    split; [exact Ac | ].
    exists s, (n - 1 - Z.of_nat (String.length (String c' r)))%Z.
    split; [ | split; [exact Hs | ]].
    + change (String c ("." ++ String c' r ++ "e" ++ Number.format_exponent (n - 1)))
        with (String c EmptyString
              ++ String "." (String c' r ++ String "e" (Number.format_exponent (n - 1)))).
      rewrite (parse_unsigned_dotted _ _ (String c' r)
                 (String "e" (Number.format_exponent (n - 1))));
        [ | cbn [all_digits]; now rewrite Ac | discriminate
          | apply span_digits_append; [exact Ar | reflexivity] ].
      rewrite parse_exponent_text.
      change (String c EmptyString ++ String c' r) with (String c (String c' r)).
      unfold digits_value. now rewrite V.
    + apply decimal_ext; [reflexivity | ]. cbn [String.length]. lia.
Qed.

(** The text that [format] lays out is read, by [parse_unsigned], as the
    decimal it was made from. *)
Lemma format_parses s scale :
  (0 < s)%Z ->
  let ds := digits_of s in
  let n := (Z.of_nat (String.length ds) + scale)%Z in
  starts_with_digit (Number.format ds n) = true
  /\ exists d e,
      Number.parse_unsigned (Number.format ds n) = Some (d, e)
      /\ (0 < d)%Z
      /\ (decimal d e == decimal s scale)%Q.
Proof.
  intros Hs ds n.
  destruct (digits_of_spec s ltac:(lia)) as (A & N & V). fold ds in A, N, V.
  unfold digits_value in V.
  pose proof (exponent_layout_parses ds s n A N V Hs) as X. cbv zeta in X.
  replace (n - Z.of_nat (String.length ds))%Z with scale in X by (unfold n; lia).
  unfold Number.format. cbv zeta.
  set (k := Z.of_nat (String.length ds)) in *.
  assert (Hk : (0 < k)%Z).
  { unfold k. destruct ds; [congruence | cbn [String.length]; lia]. }
  destruct (Z.leb_spec k n) as [C1 | C1];
    [destruct (Z.leb_spec n 21) as [C2 | C2] | ]; cbn [andb].
  - (* digits and zeros *)
    clear X.
    assert (A' : all_digits (ds ++ repeat_char "0" (Z.to_nat (n - k))) = true)
      by (apply all_digits_append; [exact A | apply all_digits_zeros]).
    split; [now apply starts_with_digit_append | ].
    exists (s * 10 ^ scale)%Z, 0%Z. split; [ | split].
    + rewrite parse_unsigned_integer; [ | exact A' | destruct ds; [congruence | discriminate]].
      unfold digits_value.
      rewrite digits_value_from_append, V, digits_value_from_zeros.
      rewrite Z2Nat.id by lia. now replace (n - k)%Z with scale by lia.
    + apply Z.mul_pos_pos; [exact Hs | apply Z.pow_pos_nonneg; lia].
    + apply decimal_shift. lia.
  - (* exponent layout, large *)
    destruct (Z.ltb_spec 0 n) as [ | ]; [ | lia].
    destruct (Z.leb_spec n 21) as [ | _]; [lia | ]. cbn [andb].
    destruct (Z.ltb_spec (-6) n) as [_ | ]; [ | lia].
    destruct (Z.leb_spec n 0) as [ | _]; [lia | ]. cbn [andb].
    exact X.
  - destruct (Z.ltb_spec 0 n) as [C3 | C3];
      [destruct (Z.leb_spec n 21) as [C4 | C4] | ]; cbn [andb].
    + (* a dot inside the digits *)
      clear X.
      assert (Hn : (0 < Z.to_nat n <= String.length ds)%nat) by lia.
      split.
      { apply starts_with_digit_append;
          [now apply all_digits_take | apply take_nonempty; [lia | exact N]]. }
      exists s, (0 - Z.of_nat (String.length (drop (Z.to_nat n) ds)))%Z.
      split; [ | split; [exact Hs | ]].
      * change ("." ++ drop (Z.to_nat n) ds) with (String "." (drop (Z.to_nat n) ds)).
        rewrite (parse_unsigned_dotted _ _ (drop (Z.to_nat n) ds) EmptyString);
          [ | now apply all_digits_take | apply take_nonempty; [lia | exact N]
            | apply span_digits_all; now apply all_digits_drop ].
        rewrite take_drop. unfold digits_value. now rewrite V.
      * apply decimal_ext; [reflexivity | ].
        rewrite length_drop by lia. lia.
    + (* exponent layout, large *)
      destruct (Z.ltb_spec (-6) n) as [_ | ]; [ | lia].
      destruct (Z.leb_spec n 0) as [ | _]; [lia | ]. cbn [andb].
      exact X.
    + destruct (Z.ltb_spec (-6) n) as [C5 | C5];
        [destruct (Z.leb_spec n 0) as [_ | ]; [ | lia] | ]; cbn [andb].
      * (* zeros after the dot *)
        clear X.
        split; [reflexivity | ].
        exists s, (0 - Z.of_nat (String.length (repeat_char "0" (Z.to_nat (- n)) ++ ds)))%Z.
        split; [ | split; [exact Hs | ]].
        -- change ("0." ++ repeat_char "0" (Z.to_nat (- n)) ++ ds)
             with (String "0" EmptyString
                   ++ String "." (repeat_char "0" (Z.to_nat (- n)) ++ ds)).
           rewrite (parse_unsigned_dotted _ _ (repeat_char "0" (Z.to_nat (- n)) ++ ds)
                      EmptyString);
             [ | reflexivity | discriminate
               | apply span_digits_all, all_digits_append;
                 [apply all_digits_zeros | exact A] ].
           change (Number.parse_exponent EmptyString) with 0%Z.
           unfold digits_value. cbn [append digits_value_from].
           change (10 * 0 + Chars.digit_value "0")%Z with 0%Z.
           rewrite digits_value_from_append, digits_value_from_zeros, Z.mul_0_l.
           now rewrite V.
        -- apply decimal_ext; [reflexivity | ].
           rewrite text_length_append, length_zeros. lia.
      * (* exponent layout, small *)
        exact X.
Qed.

Lemma digit_is_not_space c : Chars.is_digit c = true -> Chars.is_space c = false.
Proof.
  unfold Chars.is_digit, Chars.is_space. intros H.
  apply andb_prop in H as [H1 H2]. apply Z.leb_le in H1, H2.
  destruct (Z.leb_spec 9 (Chars.code c)), (Z.leb_spec (Chars.code c) 13),
           (Z.eqb_spec (Chars.code c) 32); cbn [andb orb]; try reflexivity; lia.
Qed.

Lemma parse_sign_digit c r :
  Chars.is_digit c = true -> Number.parse_sign (String c r) = (false, String c r).
Proof.
  intros H.
  destruct c as [b0 b1 b2 b3 b4 b5 b6 b7];
    destruct b0, b1, b2, b3, b4, b5, b6, b7; try reflexivity;
    vm_compute in H; discriminate.
Qed.

Lemma starts_with_Infinity_digit c r :
  Chars.is_digit c = true -> Number.starts_with_Infinity (String c r) = false.
Proof.
  intros H. unfold Number.starts_with_Infinity. cbn [take String.eqb].
  destruct c as [b0 b1 b2 b3 b4 b5 b6 b7];
    destruct b0, b1, b2, b3, b4, b5, b6, b7; try reflexivity;
    vm_compute in H; discriminate.
Qed.

(** A text that starts with a digit, with or without a minus sign in front,
    is read as the decimal that [parse_unsigned] finds in it. *)
Lemma parseFloat_digits (neg : bool) (body : string) :
  starts_with_digit body = true ->
  Number.parseFloat ((if neg then "-" else EmptyString) ++ body)
  = match Number.parse_unsigned body with
    | None => Number.NaN
    | Some (d, e) => Number.of_decimal neg d e
    end.
Proof.
  intros H. destruct body as [ | c r]; [discriminate | ].
  cbn [starts_with_digit] in H. unfold Number.parseFloat.
  destruct neg; cbn [append].
  - change (skip_spaces (String "-" (String c r))) with (String "-" (String c r)).
    change (Number.parse_sign (String "-" (String c r))) with (true, String c r).
    cbv iota beta. now rewrite (starts_with_Infinity_digit c r H).
  - cbn [skip_spaces]. rewrite (digit_is_not_space c H).
    rewrite (parse_sign_digit c r H). cbv iota beta.
    now rewrite (starts_with_Infinity_digit c r H).
Qed.

(** [parseFloat] reads, in the text that [toString] gives a normal number
    of the range of [converted], the number itself. *)
Lemma toString_is_read_back x :
  converted x = true -> Number.parseFloat (Number.toString x) = x.
Proof.
  intros H. apply within_spec in H as (s & m & e & -> & Hm & He).
  destruct (shortest_digits m e Hm He) as (s0 & scale & E & P & N).
  unfold Number.toString. rewrite E.
  destruct (format_parses s0 scale P) as (D & d & e' & Hp & Pd & Ed).
  cbv zeta in D, Hp.
  rewrite (parseFloat_digits s _ D), Hp.
  apply (nearest_reads s m e d e' Hm He Pd).
  apply (nearest_ext (decimal s0 scale)); [now symmetry | exact N].
Qed.

Lemma toString_injective x y :
  converted x = true -> converted y = true ->
  Number.toString x = Number.toString y -> x = y.
Proof.
  intros Hx Hy E.
  rewrite <- (toString_is_read_back x Hx), <- (toString_is_read_back y Hy).
  now rewrite E.
Qed.

(* ===================================================================== *)
(** ** The sandbox amounts, as texts *)
(* ===================================================================== *)

Lemma calculateMockSwapOutput_number fromToken toToken amount chainId :
  calculateMockSwapOutput fromToken toToken amount chainId
  = Number.toString (mockSwapNumber fromToken toToken amount chainId).
Proof. reflexivity. Qed.

Lemma mockQuoteOutputAmount_number fromToken toToken amount chainId :
  mockQuoteOutputAmount fromToken toToken amount chainId
  = match mockQuoteNumber fromToken toToken amount chainId with
    | Some y => Number.toString y
    | None => amount
    end.
Proof.
  unfold mockQuoteOutputAmount, mockQuoteNumber, quote_number. cbv zeta.
  destruct (String.eqb (getTokenSymbol fromToken chainId) "ETH"
            && String.eqb (getTokenSymbol toToken chainId) "USDC")%bool;
    [reflexivity | ].
  destruct (String.eqb (getTokenSymbol fromToken chainId) "USDC"
            && String.eqb (getTokenSymbol toToken chainId) "ETH")%bool;
    [reflexivity | ].
  destruct (String.eqb (getTokenSymbol fromToken chainId) "USDC"
            && String.eqb (getTokenSymbol toToken chainId) "USDT")%bool;
    reflexivity.
Qed.

(** For an ordinary amount, the text that [calculateMockSwapOutput] returns
    is not the text of the mock conversion of [getSwapQuote], whatever the
    tokens and the chain. *)
Lemma sandbox_amounts_differ fromToken toToken amount chainId :
  ordinary (Number.parseFloat amount) = true ->
  calculateMockSwapOutput fromToken toToken amount chainId
  <> mockQuoteOutputAmount fromToken toToken amount chainId.
Proof.
  intros Hx.
  rewrite calculateMockSwapOutput_number, mockQuoteOutputAmount_number.
  unfold mockSwapNumber, mockQuoteNumber.
  destruct (swap_number_is_not_quote_number
              (getTokenSymbol fromToken chainId) (getTokenSymbol toToken chainId)
              (Number.parseFloat amount)
              (getTokenSymbol_symbols fromToken chainId)
              (getTokenSymbol_symbols toToken chainId) Hx) as [Hz Hq].
  destruct (quote_number _ _ _) as [y | ].
  - destruct Hq as [Hy Hne]. intros E. apply Hne.
    exact (toString_injective _ _ Hz Hy E).
  - intros E. apply Hq.
    rewrite <- (toString_is_read_back _ Hz). now rewrite E.
Qed.

(* ===================================================================== *)
(** ** The claims *)
(* ===================================================================== *)

(** C1.  Whenever [payerPreferredToken] and [payeeRequiredToken] are equal
    after [toLowerCase] (so also when two addresses differ only in letter
    case), [calculatePaymentRoute] returns the direct route
    [{ swapRequired: false, directPayment: true, inputAmount: amount,
       outputAmount: amount, route: 'direct' }].  The only event it adds to
    the trace is its own [console.log] line: [getSwapQuote], whose first
    statement logs, is not called, no HTTP request is made and nothing is
    written to the database; no oracle is consulted either. *)
Theorem calculatePaymentRoute_same_token_direct :
  forall (world : World) (this : OKXDexService) (p : PaymentRouteParams)
         (rt : Runtime),
    toLowerCase (payerPreferredToken p) = toLowerCase (payeeRequiredToken p) ->
    let out := calculatePaymentRoute world this p rt in
    fst out = Normal (RouteDirect (amount p) (amount p))
    /\ new_events rt (snd out) =
         [ConsoleLog ("Calculating payment route from " ++ payerPreferredToken p
                        ++ " to " ++ payeeRequiredToken p)]
    /\ ticks (snd out) = ticks rt.
Proof.
  intros world this p rt Heq out; subst out.
  rewrite calculatePaymentRoute_direct by (rewrite Heq; apply String.eqb_refl).
  cbn [fst snd]; unfold route_entered.
  rewrite new_events_app; auto.
Qed.

Lemma calculatePaymentRoute_same_token_direct_witness :
  let out := calculatePaymentRoute (constant_world timed_out None) live_service
               (demo_route "0xAAbb000000000000000000000000000000000001"
                           "0xaaBB000000000000000000000000000000000001" "100") fresh in
  fst out = Normal (RouteDirect "100" "100")
  /\ new_events fresh (snd out) =
       [ConsoleLog "Calculating payment route from 0xAAbb000000000000000000000000000000000001 to 0xaaBB000000000000000000000000000000000001"]
  /\ ticks (snd out) = 0%nat.
Proof.
  apply (calculatePaymentRoute_same_token_direct
           (constant_world timed_out None) live_service
           (demo_route "0xAAbb000000000000000000000000000000000001"
                       "0xaaBB000000000000000000000000000000000001" "100") fresh).
  reflexivity.
Defined.

(** C2.  The code at the inputs of the claim.  In sandbox mode
    [getSwapQuote] answers ETH to USDC, amount ["1"], with [toTokenAmount]
    ["2500"], not with [2500 * 0.997], which prints as ["2492.5"]; and USDC to
    USDT, amount ["100"], with ["99.9"], not with [100 * 0.999 * 0.997], which
    prints as ["99.6003"].  The fee-adjusted values are the ones that the
    other sandbox conversion, [calculateMockSwapOutput], returns. *)
Theorem getSwapQuote_sandbox_quote_has_no_fee :
  forall (world : World) (rt : Runtime),
    quoted_amount (fst (getSwapQuote world sandbox_service (demo_quote ETH USDC "1") rt))
      = Some "2500"
    /\ Number.toString (Number.mul Number.lit_2500 Number.lit_0_997) = "2492.5"
    /\ quoted_amount (fst (getSwapQuote world sandbox_service (demo_quote USDC USDT "100") rt))
      = Some "99.9"
    /\ Number.toString
         (Number.mul (Number.mul (Number.of_Z 100) Number.lit_0_999) Number.lit_0_997)
       = "99.6003"
    /\ calculateMockSwapOutput ETH USDC "1" "84532" = "2492.5"
    /\ calculateMockSwapOutput USDC USDT "100" "84532" = "99.6003".
Proof.
  intros world rt.
  rewrite !getSwapQuote_sandbox by reflexivity.
  repeat split; vm_compute; reflexivity.
Qed.

(** C3, as stated, fails: not every malformed envelope comes back as
    [swapPossible: false].  In live mode, when the provider answers with
    code ['0'] and a first [data] entry that carries none of the fields of
    a quote (here the empty object), [getSwapQuote] reports a success and
    [calculatePaymentRoute] returns
    [{ swapRequired: true, swapPossible: true, ... }] with [outputAmount]
    and the other fields [undefined]: no error, no reason. *)
Lemma calculatePaymentRoute_reports_shapeless_quote_as_possible :
  fst (getSwapQuote (constant_world shapeless_quote None) live_service
         (route_quote_params (demo_route ETH USDC "100"))
         (route_entered (demo_route ETH USDC "100") fresh))
    = Normal (QuoteSuccess (VObj []))
  /\ fst (calculatePaymentRoute (constant_world shapeless_quote None) live_service
            (demo_route ETH USDC "100") fresh)
    = Normal (RouteSwap "100" VUndefined VUndefined VUndefined VUndefined
                        VUndefined VUndefined)
  /\ forall reason,
       fst (calculatePaymentRoute (constant_world shapeless_quote None) live_service
              (demo_route ETH USDC "100") fresh)
       <> Normal (RouteUnavailable reason).
Proof.
  split; [vm_compute; reflexivity | ].
  split; [vm_compute; reflexivity | ].
  intros reason H. vm_compute in H. discriminate H.
Qed.

(** C3, amended.  [calculatePaymentRoute] never throws: for every world,
    service, request and runtime it completes normally with a route, and so
    does the [getSwapQuote] it calls.  Every failure that the quote adapter
    reports, that is every [{ success: false, error: reason, data: null }]
    (provider rejection, timeout or network error, envelope with an error
    code, error inside the adapter), comes back as
    [{ swapRequired: true, swapPossible: false, error: reason }] with the
    same reason; and a successful answer that carries no quote ([data] is
    [null]: an envelope with code ['0'] and no first [data] entry) comes back
    in the same shape, with the message of the [TypeError] that the outer
    [catch] intercepts.  Every other successful answer, well-formed or not,
    comes back as [{ swapRequired: true, swapPossible: true, ... }] whose
    fields are the properties of the quote, [undefined] where it has none:
    in live mode this is the case of every envelope with code ['0'] and a
    truthy first [data] entry, whatever its shape.  In live mode the four
    answers of the provider are thus told apart: a rejected request comes
    back as unavailable with the message of the rejection, an envelope whose
    code is not ['0'] as unavailable with its [msg], an envelope with code
    ['0'] and no truthy first [data] entry as unavailable with the message
    of the [TypeError], and an envelope with code ['0'] and a truthy first
    [data] entry as possible. *)
Theorem calculatePaymentRoute_never_throws :
  forall (world : World) (this : OKXDexService) (p : PaymentRouteParams)
         (rt : Runtime),
    let quote := getSwapQuote world this (route_quote_params p) (route_entered p rt) in
    (exists route rt', calculatePaymentRoute world this p rt = (Normal route, rt'))
    /\ (exists q rt', quote = (Normal q, rt'))
    /\ (forall reason,
          String.eqb (toLowerCase (payerPreferredToken p))
                     (toLowerCase (payeeRequiredToken p)) = false ->
          fst quote = Normal (QuoteFailure reason) ->
          calculatePaymentRoute world this p rt
            = (Normal (RouteUnavailable reason), snd quote))
    /\ (String.eqb (toLowerCase (payerPreferredToken p))
                   (toLowerCase (payeeRequiredToken p)) = false ->
        fst quote = Normal (QuoteSuccess VNull) ->
        fst (calculatePaymentRoute world this p rt)
          = Normal (RouteUnavailable
                      "Cannot read properties of null (reading 'toTokenAmount')"))
    /\ (forall data,
          String.eqb (toLowerCase (payerPreferredToken p))
                     (toLowerCase (payeeRequiredToken p)) = false ->
          fst quote = Normal (QuoteSuccess data) ->
          data <> VNull ->
          data <> VUndefined ->
          fst (calculatePaymentRoute world this p rt)
            = Normal (RouteSwap (amount p)
                        (opt_get data "toTokenAmount") (opt_get data "estimatedGas")
                        (opt_get data "tradeFee") (opt_get data "priceImpact")
                        (opt_get data "route") (opt_get data "slippage")))
    /\ (forall envelope first,
          testnetMode (config this) = false ->
          String.eqb (toLowerCase (payerPreferredToken p))
                     (toLowerCase (payeeRequiredToken p)) = false ->
          quote_response world this (route_quote_params p) (route_entered p rt)
            = AxiosResolved envelope ->
          opt_get envelope "code" = VStr "0" ->
          opt_index0 (opt_get envelope "data") = first ->
          truthy first = true ->
          fst (calculatePaymentRoute world this p rt)
            = Normal (RouteSwap (amount p)
                        (opt_get first "toTokenAmount") (opt_get first "estimatedGas")
                        (opt_get first "tradeFee") (opt_get first "priceImpact")
                        (opt_get first "route") (opt_get first "slippage")))
    /\ (forall e,
          testnetMode (config this) = false ->
          String.eqb (toLowerCase (payerPreferredToken p))
                     (toLowerCase (payeeRequiredToken p)) = false ->
          quote_response world this (route_quote_params p) (route_entered p rt)
            = AxiosRejected e ->
          fst (calculatePaymentRoute world this p rt)
            = Normal (RouteUnavailable (message e)))
    /\ (forall envelope,
          testnetMode (config this) = false ->
          String.eqb (toLowerCase (payerPreferredToken p))
                     (toLowerCase (payeeRequiredToken p)) = false ->
          quote_response world this (route_quote_params p) (route_entered p rt)
            = AxiosResolved envelope ->
          strict_ne_string (opt_get envelope "code") "0" = true ->
          fst (calculatePaymentRoute world this p rt)
            = Normal (RouteUnavailable (api_error_reason "OKX API Error: " envelope)))
    /\ (forall envelope,
          testnetMode (config this) = false ->
          String.eqb (toLowerCase (payerPreferredToken p))
                     (toLowerCase (payeeRequiredToken p)) = false ->
          quote_response world this (route_quote_params p) (route_entered p rt)
            = AxiosResolved envelope ->
          opt_get envelope "code" = VStr "0" ->
          truthy (opt_index0 (opt_get envelope "data")) = false ->
          fst (calculatePaymentRoute world this p rt)
            = Normal (RouteUnavailable
                        "Cannot read properties of null (reading 'toTokenAmount')")).
Proof.
  intros world this p rt quote; subst quote.
  split; [apply calculatePaymentRoute_returns | ].
  split; [apply getSwapQuote_returns | ].
  split; [ | split; [ | split; [ | split; [ | split; [ | split]]]]].
  - intros reason Hne Hq. now apply calculatePaymentRoute_quote_failure.
  - intros Hne Hq. now apply calculatePaymentRoute_no_quote_data.
  - intros data Hne Hq Hnull Hundef.
    now apply calculatePaymentRoute_quote_data.
  - intros envelope first Hmode Hne Hresp Hcode Hfirst Htruthy.
    apply calculatePaymentRoute_quote_data; try assumption.
    + rewrite getSwapQuote_live by assumption. cbn [fst].
      rewrite Hresp. cbn [quote_outcome]. rewrite Hcode.
      cbn [strict_ne_string String.eqb Ascii.eqb Bool.eqb negb].
      rewrite Hfirst. unfold or_else. rewrite Htruthy. reflexivity.
    + intros ->. discriminate Htruthy.
    + intros ->. discriminate Htruthy.
  - intros e Hmode Hne Hresp.
    rewrite (calculatePaymentRoute_quote_failure world this p rt (message e));
      [reflexivity | assumption | ].
    rewrite getSwapQuote_live by assumption. cbn [fst].
    rewrite Hresp. reflexivity.
  - intros envelope Hmode Hne Hresp Hcode.
    rewrite (calculatePaymentRoute_quote_failure world this p rt
               (api_error_reason "OKX API Error: " envelope));
      [reflexivity | assumption | ].
    rewrite getSwapQuote_live by assumption. cbn [fst].
    rewrite Hresp. cbn [quote_outcome]. rewrite Hcode. reflexivity.
  - intros envelope Hmode Hne Hresp Hcode Hfalsy.
    apply calculatePaymentRoute_no_quote_data; [assumption | ].
    rewrite getSwapQuote_live by assumption. cbn [fst].
    rewrite Hresp. cbn [quote_outcome]. rewrite Hcode.
    cbn [strict_ne_string String.eqb Ascii.eqb Bool.eqb negb].
    unfold or_else. rewrite Hfalsy. reflexivity.
Qed.

Lemma calculatePaymentRoute_never_throws_witness :
  fst (calculatePaymentRoute (constant_world timed_out None) live_service
         (demo_route ETH USDC "100") fresh)
    = Normal (RouteUnavailable "timeout of 15000ms exceeded")
  /\ fst (calculatePaymentRoute (constant_world empty_envelope None) live_service
            (demo_route ETH USDC "100") fresh)
    = Normal (RouteUnavailable
                "Cannot read properties of null (reading 'toTokenAmount')")
  /\ fst (calculatePaymentRoute (constant_world two_entries None) live_service
            (demo_route ETH USDC "100") fresh)
    = Normal (RouteSwap "100" (VStr "2490") VUndefined VUndefined VUndefined
                        VUndefined VUndefined).
Proof.
  split; [ | split].
  - pose proof (calculatePaymentRoute_never_throws
                  (constant_world timed_out None) live_service
                  (demo_route ETH USDC "100") fresh) as (_ & _ & H & _).
    rewrite (H "timeout of 15000ms exceeded"); reflexivity.
  - pose proof (calculatePaymentRoute_never_throws
                  (constant_world empty_envelope None) live_service
                  (demo_route ETH USDC "100") fresh) as (_ & _ & _ & H & _).
    apply H; reflexivity.
  - pose proof (calculatePaymentRoute_never_throws
                  (constant_world two_entries None) live_service
                  (demo_route ETH USDC "100") fresh) as (_ & _ & _ & _ & _ & H & _).
    exact (H _ _ eq_refl eq_refl eq_refl eq_refl eq_refl eq_refl).
Defined.

(** C4, as stated, fails: a zero amount and an empty amount are not
    rejected.  In sandbox mode [getSwapQuote] answers amount ["0"] with
    [success: true] and [toTokenAmount] ["0"], and the empty amount with
    [toTokenAmount] ["NaN"]; in live mode the empty amount is sent to the
    provider, as [amount=] in the query of the HTTP GET. *)
Lemma getSwapQuote_accepts_zero_and_empty_amount :
  fst (getSwapQuote (constant_world timed_out None) sandbox_service
         (demo_quote ETH USDC "0") fresh)
    = Normal (QuoteSuccess (mockQuote (demo_quote ETH USDC "0")))
  /\ quoted_amount (fst (getSwapQuote (constant_world timed_out None) sandbox_service
                           (demo_quote ETH USDC "0") fresh)) = Some "0"
  /\ quoted_amount (fst (getSwapQuote (constant_world timed_out None) sandbox_service
                           (demo_quote ETH USDC EmptyString) fresh)) = Some "NaN"
  /\ new_events fresh
       (snd (getSwapQuote (constant_world timed_out None) live_service
               (demo_quote ETH USDC EmptyString) fresh))
     = [ConsoleLog "Getting swap quote:  tokens from 0xEeeeeEeeeEeEeeEeEeEeeEEEeeeeEeeeeeeeEEeE to 0x833589fCD6eDb6E08f4c7C32D4f71b54bdA02913 on chain 84532";
        HttpGet "https://web3.okx.com/api/v5/dex/aggregator/quote?chainId=84532&fromTokenAddress=0xEeeeeEeeeEeEeeEeEeEeeEEEeeeeEeeeeeeeEEeE&toTokenAddress=0x833589fCD6eDb6E08f4c7C32D4f71b54bdA02913&amount=&slippage=0.5&userWalletAddress=0x742d35Cc6464f4F4D4Cc7b5A87e1f0E6D5F3D5B8"
                mock_headers 15000;
        ConsoleError "Error getting swap quote: timeout of 15000ms exceeded"].
Proof. repeat split; vm_compute; reflexivity. Qed.

(** C4, amended.  [getSwapQuote] does not validate the amount; whatever the
    amount is, zero and empty included, it is passed through.  In sandbox
    mode the call succeeds with the mock quote, whose [fromTokenAmount] is
    the amount as given and whose [toTokenAmount] is the mock conversion of
    it.  In live mode the first two events are the log line and the HTTP GET
    to the provider, and the query of that request carries the amount,
    URL-encoded, as its fourth parameter. *)
Theorem getSwapQuote_passes_amount_through :
  forall (world : World) (this : OKXDexService) (p : SwapQuoteParams)
         (rt : Runtime),
    (testnetMode (config this) = true ->
       fst (getSwapQuote world this p rt) = Normal (QuoteSuccess (mockQuote p))
       /\ opt_get (mockQuote p) "fromTokenAmount" = VStr (q_amount p)
       /\ opt_get (mockQuote p) "toTokenAmount"
          = VStr (mockQuoteOutputAmount (q_fromTokenAddress p) (q_toTokenAddress p)
                                        (q_amount p) (q_chainId p)))
    /\ (testnetMode (config this) = false ->
          (exists failure,
              new_events rt (snd (getSwapQuote world this p rt))
              = quote_log p :: quote_request world this p rt :: failure)
          /\ quote_query p
             = "chainId=" ++ urlencode (q_chainId p)
               ++ "&fromTokenAddress=" ++ urlencode (q_fromTokenAddress p)
               ++ "&toTokenAddress=" ++ urlencode (q_toTokenAddress p)
               ++ "&amount=" ++ urlencode (q_amount p)
               ++ "&slippage=" ++ urlencode (slippage_or_default (q_slippage p))
               ++ "&userWalletAddress=" ++ urlencode (q_userWalletAddress p)).
Proof.
  intros world this p rt; split; intros Hmode.
  - split; [ | split].
    + now rewrite getSwapQuote_sandbox.
    + reflexivity.
    + reflexivity.
  - split.
    + now apply getSwapQuote_live_request.
    + apply quote_query_layout.
Qed.

Lemma getSwapQuote_passes_amount_through_witness :
  fst (getSwapQuote (constant_world timed_out None) sandbox_service
         (demo_quote ETH USDT EmptyString) fresh)
    = Normal (QuoteSuccess (mockQuote (demo_quote ETH USDT EmptyString)))
  /\ exists failure,
       new_events fresh
         (snd (getSwapQuote (constant_world timed_out None) live_service
                 (demo_quote ETH USDT "0") fresh))
       = quote_log (demo_quote ETH USDT "0")
           :: quote_request (constant_world timed_out None) live_service
                (demo_quote ETH USDT "0") fresh
           :: failure.
Proof.
  split.
  - apply (getSwapQuote_passes_amount_through
             (constant_world timed_out None) sandbox_service
             (demo_quote ETH USDT EmptyString) fresh).
    reflexivity.
  - apply (getSwapQuote_passes_amount_through
             (constant_world timed_out None) live_service
             (demo_quote ETH USDT "0") fresh).
    reflexivity.
Defined.

(** C5.  In live mode, when the provider answers the quote request with an
    envelope whose [code] is not the string ['0'] (another string, a number,
    or no [code] at all), [getSwapQuote] completes normally with
    [{ success: false, error: reason, data: null }], the reason being the
    message of the error thrown inside its [try].  A [calculatePaymentRoute]
    that gets this result completes normally too, and when the two tokens
    differ its route is [{ swapRequired: true, swapPossible: false, error }]
    with the same reason. *)
Theorem getSwapQuote_envelope_error_is_failure :
  forall (world : World) (this : OKXDexService) (p : SwapQuoteParams)
         (rt : Runtime) (data : JsVal),
    testnetMode (config this) = false ->
    quote_response world this p rt = AxiosResolved data ->
    strict_ne_string (opt_get data "code") "0" = true ->
    fst (getSwapQuote world this p rt)
      = Normal (QuoteFailure (api_error_reason "OKX API Error: " data))
    /\ forall (r : PaymentRouteParams) (rt0 : Runtime),
         route_quote_params r = p ->
         route_entered r rt0 = rt ->
         exists route,
           fst (calculatePaymentRoute world this r rt0) = Normal route
           /\ (String.eqb (toLowerCase (payerPreferredToken r))
                          (toLowerCase (payeeRequiredToken r)) = false ->
               route = RouteUnavailable (api_error_reason "OKX API Error: " data)).
Proof.
  intros world this p rt data Hmode Hresp Hcode.
  assert (Hq : fst (getSwapQuote world this p rt)
               = Normal (QuoteFailure (api_error_reason "OKX API Error: " data))).
  { rewrite getSwapQuote_live by assumption.
    rewrite Hresp; cbn [fst quote_outcome]. now rewrite Hcode. }
  split; [exact Hq | ].
  intros r rt0 Hp Hrt; subst p rt.
  destruct (String.eqb (toLowerCase (payerPreferredToken r))
                       (toLowerCase (payeeRequiredToken r))) eqn:Heq.
  - rewrite calculatePaymentRoute_direct by assumption.
    eexists; split; [reflexivity | discriminate].
  - rewrite (calculatePaymentRoute_quote_failure world this r rt0 _ Heq Hq).
    eexists; split; [reflexivity | reflexivity].
Qed.

Lemma getSwapQuote_envelope_error_is_failure_witness :
  fst (getSwapQuote (constant_world rate_limited None) live_service
         (route_quote_params (demo_route ETH USDC "100"))
         (route_entered (demo_route ETH USDC "100") fresh))
    = Normal (QuoteFailure "OKX API Error: Rate limit reached")
  /\ exists route,
       fst (calculatePaymentRoute (constant_world rate_limited None) live_service
              (demo_route ETH USDC "100") fresh) = Normal route
       /\ (String.eqb (toLowerCase ETH) (toLowerCase USDC) = false ->
           route = RouteUnavailable "OKX API Error: Rate limit reached").
Proof.
  pose proof (getSwapQuote_envelope_error_is_failure
                (constant_world rate_limited None) live_service
                (route_quote_params (demo_route ETH USDC "100"))
                (route_entered (demo_route ETH USDC "100") fresh)
                (VObj [("code", VStr "50011"); ("msg", VStr "Rate limit reached")])
                eq_refl eq_refl eq_refl) as [H1 H2].
  split; [exact H1 | ].
  exact (H2 (demo_route ETH USDC "100") fresh eq_refl eq_refl).
Defined.




(** C7.  A failure of the audit write is logged and swallowed.
    [logSwapTransaction] always completes normally; when the database
    rejects the write with an error, the last event of its trace is the
    [console.error] line that carries the message of that error; and the
    value that [executeSwap] returns to its caller is the same whatever the
    audit store answers, success or failure. *)
Theorem audit_log_failure_is_swallowed :
  forall (world : World) (this : OKXDexService) (p : ExecuteSwapParams)
         (rt : Runtime),
    (forall store1 store2,
        fst (executeSwap (with_audit_store world store1) this p rt)
        = fst (executeSwap (with_audit_store world store2) this p rt))
    /\ (forall swapData,
          exists rt', logSwapTransaction world swapData rt = (Normal tt, rt'))
    /\ (forall swapData e,
          (forall t data, prisma_transaction_create world t data = Some e) ->
          exists before,
            trace (snd (logSwapTransaction world swapData rt))
            = (before ++ [ConsoleError ("Error logging swap transaction: "
                                          ++ message e)])%list).
Proof.
  intros world this p rt. split; [ | split].
  - intros store1 store2. apply executeSwap_audit_store_irrelevant.
  - intros swapData. apply logSwapTransaction_returns.
  - intros swapData e Hfail. now apply logSwapTransaction_failure_logged.
Qed.

Lemma audit_log_failure_is_swallowed_witness :
  fst (executeSwap (with_audit_store (constant_world timed_out None)
                                     (fun _ _ => Some (Error "Can't reach database server")))
                   sandbox_service (demo_swap ETH USDC "1" (Some "x402_multi_1")) fresh)
  = fst (executeSwap (with_audit_store (constant_world timed_out None) (fun _ _ => None))
                     sandbox_service (demo_swap ETH USDC "1" (Some "x402_multi_1")) fresh)
  /\ exists before,
       trace (snd (logSwapTransaction
                     (constant_world timed_out (Some (Error "Can't reach database server")))
                     audit_sample fresh))
       = (before ++ [ConsoleError "Error logging swap transaction: Can't reach database server"])%list.
Proof.
  split.
  - apply (audit_log_failure_is_swallowed
             (constant_world timed_out None) sandbox_service
             (demo_swap ETH USDC "1" (Some "x402_multi_1")) fresh).
  - pose proof (audit_log_failure_is_swallowed
                  (constant_world timed_out (Some (Error "Can't reach database server")))
                  sandbox_service
                  (demo_swap ETH USDC "1" (Some "x402_multi_1")) fresh)
      as (_ & _ & H).
    exact (H audit_sample (Error "Can't reach database server")
             (fun _ _ => eq_refl)).
Defined.

(** C8.  In sandbox mode [getSwapQuote] never answers "unavailable": it
    always completes with [{ success: true, data: mockQuote }], writing two
    log lines and making no request.  For every pair of token symbols other
    than ETH to USDC, USDC to ETH and USDC to USDT (USDT to USDC, ETH to
    USDT, every WETH pair, unknown tokens), its [toTokenAmount] is the input
    amount itself, the very string: no rate is applied and no fee
    deducted. *)
Theorem getSwapQuote_sandbox_unquoted_pair_returns_amount :
  forall (world : World) (this : OKXDexService) (p : SwapQuoteParams)
         (rt : Runtime),
    testnetMode (config this) = true ->
    let out := getSwapQuote world this p rt in
    fst out = Normal (QuoteSuccess (mockQuote p))
    /\ new_events rt (snd out)
       = [quote_log p; ConsoleLog "Mock mode: Generating mock swap quote"]
    /\ (quoted_pair (getTokenSymbol (q_fromTokenAddress p) (q_chainId p))
                    (getTokenSymbol (q_toTokenAddress p) (q_chainId p)) = false ->
        quoted_amount (fst out) = Some (q_amount p)).
Proof.
  intros world this p rt Hmode out; subst out.
  rewrite getSwapQuote_sandbox by assumption; cbn [fst snd].
  rewrite new_events_app. repeat split.
  intros Hpair; unfold quoted_amount, mockQuote; cbn [opt_get assoc String.eqb Ascii.eqb Bool.eqb].
  now rewrite mockQuoteOutputAmount_unquoted.
Qed.

Lemma getSwapQuote_sandbox_unquoted_pair_returns_amount_witness :
  quoted_amount (fst (getSwapQuote (constant_world timed_out None) sandbox_service
                        (demo_quote USDT USDC "100") fresh)) = Some "100"
  /\ quoted_amount (fst (getSwapQuote (constant_world timed_out None) sandbox_service
                           (demo_quote ETH USDT "1.50") fresh)) = Some "1.50"
  /\ quoted_amount (fst (getSwapQuote (constant_world timed_out None) sandbox_service
                           (demo_quote WETH USDC "0.25") fresh)) = Some "0.25".
Proof.
  split; [ | split].
  - pose proof (getSwapQuote_sandbox_unquoted_pair_returns_amount
                  (constant_world timed_out None) sandbox_service
                  (demo_quote USDT USDC "100") fresh eq_refl) as (_ & _ & H).
    exact (H eq_refl).
  - pose proof (getSwapQuote_sandbox_unquoted_pair_returns_amount
                  (constant_world timed_out None) sandbox_service
                  (demo_quote ETH USDT "1.50") fresh eq_refl) as (_ & _ & H).
    exact (H eq_refl).
  - pose proof (getSwapQuote_sandbox_unquoted_pair_returns_amount
                  (constant_world timed_out None) sandbox_service
                  (demo_quote WETH USDC "0.25") fresh eq_refl) as (_ & _ & H).
    exact (H eq_refl).
Defined.

(** C9, as stated, fails: the quoted and the executed amount are not
    unequal for all parameters.  For ETH to USDC, a pair whose rate is
    2500, and amount ["0"], [executeSwap] and [getSwapQuote] both return
    [toTokenAmount] ["0"] in sandbox mode. *)
Lemma mock_quote_equals_execution_for_zero_amount :
  executed_amount
    (fst (executeSwap (constant_world timed_out None) sandbox_service
            (demo_swap ETH USDC "0" None) fresh))
  = quoted_amount
      (fst (getSwapQuote (constant_world timed_out None) sandbox_service
              (quote_of_swap (demo_swap ETH USDC "0" None)) fresh))
  /\ executed_amount
       (fst (executeSwap (constant_world timed_out None) sandbox_service
               (demo_swap ETH USDC "0" None) fresh)) = Some "0"
  /\ rate_of "ETH_USDC" = Number.lit_2500
  /\ Number.eqb (rate_of "ETH_USDC") Number.lit_1 = false.
Proof. repeat split; vm_compute; reflexivity. Qed.

(** C9, amended.  The sandbox quote path and the sandbox execution path use
    different conversion functions.  For the same parameters, the
    [toTokenAmount] of [executeSwap] is the text of
    [parseFloat(amount) * rate * 0.997], the rate being the one of
    [calculateMockSwapOutput]'s table; ETH to USDC is quoted at
    [amount * 2500] and executed at [amount * 2500 * 0.997].  Whenever
    [parseFloat(amount)] is an ordinary number (a normal binary64 number of
    magnitude at least [2^-1006] and less than [2^1006], of either sign),
    the [toTokenAmount] executed differs from the [toTokenAmount] quoted:
    for every pair of tokens, of a rate other than 1 or not, known or
    unknown, and on every chain.  The bound on the magnitude cannot be
    dropped at either end: for ETH to USDC and the amount ["1e308"] both
    paths return ["Infinity"], and for USDC to USDT and the amount
    ["5e-324"] both return ["5e-324"]. *)
Theorem mock_execution_and_quote_use_different_conversions :
  forall (world : World) (this : OKXDexService) (p : ExecuteSwapParams)
         (rt rt' : Runtime),
    testnetMode (config this) = true ->
    executed_amount (fst (executeSwap world this p rt))
      = Some (Number.toString
                (Number.mul
                   (Number.mul (Number.parseFloat (x_amount p))
                      (rate_of (rate_key (x_fromTokenAddress p) (x_toTokenAddress p)
                                         (x_chainId p))))
                   Number.lit_0_997))
    /\ (inherited (x_chainId p) = false ->
        x_fromTokenAddress p = ETH -> x_toTokenAddress p = USDC ->
        quoted_amount (fst (getSwapQuote world this (quote_of_swap p) rt'))
          = Some (Number.toString
                    (Number.mul (Number.parseFloat (x_amount p)) Number.lit_2500))
        /\ executed_amount (fst (executeSwap world this p rt))
           = Some (Number.toString
                     (Number.mul
                        (Number.mul (Number.parseFloat (x_amount p)) Number.lit_2500)
                        Number.lit_0_997)))
    /\ (ordinary (Number.parseFloat (x_amount p)) = true ->
        executed_amount (fst (executeSwap world this p rt))
        <> quoted_amount (fst (getSwapQuote world this (quote_of_swap p) rt')))
    /\ (inherited (x_chainId p) = false ->
        x_fromTokenAddress p = ETH -> x_toTokenAddress p = USDC ->
        x_amount p = "1e308" ->
        executed_amount (fst (executeSwap world this p rt)) = Some "Infinity"
        /\ quoted_amount (fst (getSwapQuote world this (quote_of_swap p) rt'))
           = Some "Infinity")
    /\ (inherited (x_chainId p) = false ->
        x_fromTokenAddress p = USDC -> x_toTokenAddress p = USDT ->
        x_amount p = "5e-324" ->
        executed_amount (fst (executeSwap world this p rt)) = Some "5e-324"
        /\ quoted_amount (fst (getSwapQuote world this (quote_of_swap p) rt'))
           = Some "5e-324").
Proof.
  intros world this p rt rt' Hmode.
  rewrite (executeSwap_sandbox_amount world this p rt Hmode).
  rewrite (getSwapQuote_sandbox_amount world this (quote_of_swap p) rt' Hmode).
  cbn [quote_of_swap q_fromTokenAddress q_toTokenAddress q_amount q_chainId].
  split; [reflexivity | ]. split; [ | split; [ | split]].
  - intros Hchain Hfrom Hto. rewrite Hfrom, Hto.
    unfold mockQuoteOutputAmount, calculateMockSwapOutput.
    rewrite !(getTokenSymbol_base_sepolia (x_chainId p)) by assumption.
    split; reflexivity.
  - intros Hx E. injection E as E.
    exact (sandbox_amounts_differ _ _ _ _ Hx E).
  - intros Hchain Hfrom Hto Hamount. rewrite Hfrom, Hto, Hamount.
    unfold mockQuoteOutputAmount, calculateMockSwapOutput.
    rewrite !(getTokenSymbol_base_sepolia (x_chainId p)) by assumption.
    split; vm_compute; reflexivity.
  - intros Hchain Hfrom Hto Hamount. rewrite Hfrom, Hto, Hamount.
    unfold mockQuoteOutputAmount, calculateMockSwapOutput.
    rewrite !(getTokenSymbol_base_sepolia (x_chainId p)) by assumption.
    split; vm_compute; reflexivity.
Qed.

Lemma mock_execution_and_quote_use_different_conversions_witness :
  executed_amount
    (fst (executeSwap (constant_world timed_out None) sandbox_service
            (demo_swap ETH USDC "1" None) fresh)) = Some "2492.5"
  /\ quoted_amount
       (fst (getSwapQuote (constant_world timed_out None) sandbox_service
               (quote_of_swap (demo_swap ETH USDC "1" None)) fresh)) = Some "2500"
  /\ executed_amount
       (fst (executeSwap (constant_world timed_out None) sandbox_service
               (demo_swap ETH USDC "1" None) fresh))
     <> quoted_amount
          (fst (getSwapQuote (constant_world timed_out None) sandbox_service
                  (quote_of_swap (demo_swap ETH USDC "1" None)) fresh)).
Proof.
  pose proof (mock_execution_and_quote_use_different_conversions
                (constant_world timed_out None) sandbox_service
                (demo_swap ETH USDC "1" None) fresh fresh eq_refl)
    as (H1 & H2 & H3 & _).
  split; [ | split].
  - rewrite H1. vm_compute; reflexivity.
  - destruct (H2 eq_refl eq_refl eq_refl) as [Hq _]. rewrite Hq.
    vm_compute; reflexivity.
  - apply H3. vm_compute; reflexivity.
Defined.

(** C10.  A service in production mode ([testnetMode] is [false]) whose API
    key is still the built-in default ['mock-okx-api-key'] gets from
    [generateAuthHeaders] exactly [Content-Type] and [X-Mock-Mode: 'true']:
    no key, signature, time stamp, passphrase or project header, whatever
    the arguments.  Its live quote request is therefore sent with these two
    headers only, unsigned. *)
Theorem generateAuthHeaders_default_key_is_unsigned :
  forall (world : World) (this : OKXDexService),
    testnetMode (config this) = false ->
    apiKey (config this) = "mock-okx-api-key" ->
    (forall timestamp method requestPath queryString body,
        generateAuthHeaders world this timestamp method requestPath queryString body
        = [("Content-Type", "application/json"); ("X-Mock-Mode", "true")])
    /\ (forall p rt,
          exists failure,
            new_events rt (snd (getSwapQuote world this p rt))
            = quote_log p
                :: HttpGet (quote_url this p)
                     [("Content-Type", "application/json"); ("X-Mock-Mode", "true")]
                     15000
                :: failure).
Proof.
  intros world this Hmode Hkey.
  assert (Hh : forall timestamp method requestPath queryString body,
             generateAuthHeaders world this timestamp method requestPath queryString body
             = mock_headers).
  { intros; unfold generateAuthHeaders. rewrite Hmode, Hkey. reflexivity. }
  split; [exact Hh | ].
  intros p rt. rewrite getSwapQuote_live by assumption; cbn [snd].
  rewrite new_events_app. unfold quote_request, quote_headers. rewrite Hh.
  eexists; reflexivity.
Qed.

Lemma generateAuthHeaders_default_key_is_unsigned_witness :
  testnetMode (config (new_OKXDexService production_env)) = false
  /\ apiKey (config (new_OKXDexService production_env)) = "mock-okx-api-key"
  /\ generateAuthHeaders (constant_world timed_out None)
       (new_OKXDexService production_env)
       "2025-06-26T15:31:38.000Z" "GET" "/aggregator/quote" "?chainId=84532" EmptyString
     = [("Content-Type", "application/json"); ("X-Mock-Mode", "true")].
Proof.
  split; [reflexivity | split; [reflexivity | ]].
  apply (generateAuthHeaders_default_key_is_unsigned
           (constant_world timed_out None) (new_OKXDexService production_env)
           eq_refl eq_refl).
Defined.


(* ===================================================================== *)
(** ** executeSwap, equationally *)
(* ===================================================================== *)

Lemma new_events_refl rt : new_events rt rt = [].
Proof.
  unfold new_events. induction (trace rt) as [ | ev l IH]; [reflexivity | exact IH].
Qed.

Lemma new_events_of_trace rt rt' evs :
  trace rt' = (trace rt ++ evs)%list -> new_events rt rt' = evs.
Proof.
  intros H; unfold new_events; rewrite H; clear H.
  induction (trace rt) as [ | ev l IH]; [reflexivity | exact IH].
Qed.

Lemma count_requests_app a b :
  count_requests (a ++ b) = (count_requests a + count_requests b)%nat.
Proof.
  induction a as [ | ev a IH]; [reflexivity | ].
  destruct ev; simpl; rewrite IH; reflexivity.
Qed.

Lemma count_writes_app a b :
  count_writes (a ++ b) = (count_writes a + count_writes b)%nat.
Proof.
  induction a as [ | ev a IH]; [reflexivity | ].
  destruct ev; simpl; rewrite IH; reflexivity.
Qed.

Section ExecuteSwapFacts.

Variable world : World.
Variable this : OKXDexService.

Lemma executeSwap_live p rt :
  testnetMode (config this) = false ->
  exists n,
    executeSwap world this p rt
    = (Normal (live_swap_result world this p rt),
       {| trace := trace rt ++ live_swap_events world this p rt; ticks := n |}).
Proof.
  intros Hmode; unfold executeSwap; rewrite Hmode.
  unfold try_catch at 1. unfold bind at 1. unfold console_log, emit.
  unfold bind at 1.
  change (getSwapQuote world this _ _) with
    (getSwapQuote world this (swap_quote_params p) (swap_entered p rt)).
  rewrite getSwapQuote_live by assumption.
  change (trace (swap_entered p rt)) with (trace rt ++ [swap_log p])%list.
  change (ticks (swap_entered p rt)) with (ticks rt).
  unfold live_swap_result, live_swap_events.
  destruct (quote_outcome _) as [q | reason]; cbn [quote_failed].
  - unfold swap_response, swap_request, swap_headers, swap_url.
    js_unfold.
    destruct (axios_get world _ _ _ _) as [data | e]; cbn [swap_outcome swap_failed].
    + destruct (strict_ne_string (opt_get data "code") "0").
      * unfold throw_api_error, api_error_reason. js_unfold.
        destruct (display _) as [msg | e]; cbn [swap_failed message];
          eexists; rewrite <- ?app_assoc; reflexivity.
      * destruct (truthy (opt_index0 (opt_get data "data")));
          cbn [negb swap_failed]; js_unfold;
          eexists; rewrite <- ?app_assoc; reflexivity.
    + cbn [message]. eexists. rewrite <- ?app_assoc; reflexivity.
  - js_unfold. cbn [message]. eexists. rewrite <- ?app_assoc; reflexivity.
Qed.

Lemma executeSwap_sandbox_trace p rt :
  testnetMode (config this) = true ->
  trace (snd (executeSwap world this p rt))
  = (trace rt ++ sandbox_swap_events world p rt)%list.
Proof.
  intros Hmode; unfold executeSwap; rewrite Hmode.
  unfold sandbox_swap_events, audit_events, audited_request.
  destruct (x_paymentRequestId p) as [[ | c r] | ].
  - js_unfold. cbn [snd]. rewrite <- ?app_assoc. reflexivity.
  - unfold logSwapTransaction, audit_record, mockSwapResult_of. js_unfold.
    cbn [transactionHash toTokenAmount l_paymentRequestId l_fromToken l_toToken
         l_fromAmount l_toAmount l_transactionHash l_chainId l_status env_or
         tx_txHash Nat.add].
    destruct (prisma_transaction_create world _ _); cbn [snd];
      rewrite <- ?app_assoc; reflexivity.
  - js_unfold. cbn [snd]. rewrite <- ?app_assoc. reflexivity.
Qed.

Lemma executeSwap_returns p rt :
  exists r rt', executeSwap world this p rt = (Normal r, rt').
Proof.
  destruct (testnetMode (config this)) eqn:Hmode.
  - pose proof (executeSwap_sandbox world this p rt Hmode) as H.
    destruct (executeSwap world this p rt) as [c rt']; simpl in H; subst c; eauto.
  - destruct (executeSwap_live p rt Hmode) as [n H]. rewrite H; eauto.
Qed.

End ExecuteSwapFacts.

Lemma executeSwap_live_events world this p rt :
  testnetMode (config this) = false ->
  new_events rt (snd (executeSwap world this p rt)) = live_swap_events world this p rt.
Proof.
  intros Hmode. destruct (executeSwap_live world this p rt Hmode) as [n H].
  rewrite H. apply new_events_of_trace. reflexivity.
Qed.

Lemma executeSwap_live_result world this p rt :
  testnetMode (config this) = false ->
  fst (executeSwap world this p rt) = Normal (live_swap_result world this p rt).
Proof.
  intros Hmode. destruct (executeSwap_live world this p rt Hmode) as [n H].
  now rewrite H.
Qed.

Lemma executeSwap_sandbox_events world this p rt :
  testnetMode (config this) = true ->
  new_events rt (snd (executeSwap world this p rt)) = sandbox_swap_events world p rt.
Proof.
  intros Hmode. apply new_events_of_trace. now apply executeSwap_sandbox_trace.
Qed.

Lemma quote_url_layout this q :
  quote_url this q = baseUrl (config this) ++ "/aggregator/quote?" ++ quote_query q.
Proof. unfold quote_url. cbn [append]. reflexivity. Qed.

Lemma swap_url_layout this p :
  swap_url this p
  = baseUrl (config this) ++ "/aggregator/swap?" ++ quote_query (swap_quote_params p).
Proof. unfold swap_url. cbn [append]. reflexivity. Qed.

Lemma swap_failed_no_request r : count_requests (swap_failed r) = O.
Proof. destruct r; reflexivity. Qed.

Lemma swap_failed_no_write r : count_writes (swap_failed r) = O.
Proof. destruct r; reflexivity. Qed.

(* ===================================================================== *)
(** ** Further properties: executeSwap *)
(* ===================================================================== *)

(** X1.  [executeSwap] never throws: in every mode it completes normally.
    In live mode, once the quote has succeeded, each way in which the swap
    request can fail is returned as [{ success: false, error }]: a rejected
    request (network error, timeout, HTTP error status) with the message of
    the rejection, an envelope whose [code] is not ['0'] with the message
    built from [msg], and an envelope without a first [data] element with
    ['No swap data received from OKX API']. *)
Theorem executeSwap_never_throws :
  forall (world : World) (this : OKXDexService) (p : ExecuteSwapParams)
         (rt : Runtime),
    (exists r rt', executeSwap world this p rt = (Normal r, rt'))
    /\ (testnetMode (config this) = false ->
        forall q,
          quote_outcome (quote_response world this (swap_quote_params p)
                                        (swap_entered p rt)) = QuoteSuccess q ->
          (forall e,
              swap_response world this p rt = AxiosRejected e ->
              fst (executeSwap world this p rt) = Normal (SwapFailure (message e)))
          /\ (forall data,
                swap_response world this p rt = AxiosResolved data ->
                strict_ne_string (opt_get data "code") "0" = true ->
                fst (executeSwap world this p rt)
                = Normal (SwapFailure (api_error_reason "OKX Swap Error: " data)))
          /\ (forall data,
                swap_response world this p rt = AxiosResolved data ->
                strict_ne_string (opt_get data "code") "0" = false ->
                truthy (opt_index0 (opt_get data "data")) = false ->
                fst (executeSwap world this p rt)
                = Normal (SwapFailure "No swap data received from OKX API"))).
Proof.
  intros world this p rt. split; [apply executeSwap_returns | ].
  intros Hmode q Hq.
  rewrite executeSwap_live_result by assumption.
  unfold live_swap_result; rewrite Hq.
  split; [ | split].
  - intros e He; rewrite He; reflexivity.
  - intros data Hd Hc; rewrite Hd; cbn [swap_outcome]; rewrite Hc; reflexivity.
  - intros data Hd Hc Ht; rewrite Hd; cbn [swap_outcome]; rewrite Hc, Ht; reflexivity.
Qed.

Lemma executeSwap_never_throws_witness :
  fst (executeSwap (quote_then timed_out) live_service
         (demo_swap ETH USDC "1" None) fresh)
    = Normal (SwapFailure "timeout of 15000ms exceeded")
  /\ fst (executeSwap (quote_then rate_limited) live_service
            (demo_swap ETH USDC "1" None) fresh)
    = Normal (SwapFailure "OKX Swap Error: Rate limit reached")
  /\ fst (executeSwap (quote_then empty_envelope) live_service
            (demo_swap ETH USDC "1" None) fresh)
    = Normal (SwapFailure "No swap data received from OKX API").
Proof.
  split; [ | split].
  - pose proof (executeSwap_never_throws (quote_then timed_out) live_service
                  (demo_swap ETH USDC "1" None) fresh) as [_ H].
    destruct (H eq_refl _ eq_refl) as (H1 & _ & _).
    exact (H1 _ eq_refl).
  - pose proof (executeSwap_never_throws (quote_then rate_limited) live_service
                  (demo_swap ETH USDC "1" None) fresh) as [_ H].
    destruct (H eq_refl _ eq_refl) as (_ & H2 & _).
    exact (H2 _ eq_refl eq_refl).
  - pose proof (executeSwap_never_throws (quote_then empty_envelope) live_service
                  (demo_swap ETH USDC "1" None) fresh) as [_ H].
    destruct (H eq_refl _ eq_refl) as (_ & _ & H3).
    exact (H3 _ eq_refl eq_refl eq_refl).
Defined.

(** X2.  In live mode a failed quote stops [executeSwap] before the swap
    request: the result is [{ success: false,
    error: 'Failed to get quote: ' + reason }], exactly one HTTP request has
    been made (the quote request) and nothing is written to the audit
    store. *)
Theorem executeSwap_failed_quote_sends_no_swap :
  forall (world : World) (this : OKXDexService) (p : ExecuteSwapParams)
         (rt : Runtime) (reason : string),
    testnetMode (config this) = false ->
    quote_outcome (quote_response world this (swap_quote_params p)
                                  (swap_entered p rt)) = QuoteFailure reason ->
    let out := executeSwap world this p rt in
    fst out = Normal (SwapFailure ("Failed to get quote: " ++ reason))
    /\ new_events rt (snd out)
       = [swap_log p;
          quote_log (swap_quote_params p);
          quote_request world this (swap_quote_params p) (swap_entered p rt);
          ConsoleError ("Error getting swap quote: " ++ reason);
          ConsoleError ("Error executing swap: Failed to get quote: " ++ reason)]
    /\ count_requests (new_events rt (snd out)) = 1%nat.
Proof.
  intros world this p rt reason Hmode Hq out; subst out.
  rewrite executeSwap_live_result, executeSwap_live_events by assumption.
  unfold live_swap_result, live_swap_events; rewrite Hq.
  repeat split.
Qed.

Lemma executeSwap_failed_quote_sends_no_swap_witness :
  fst (executeSwap (constant_world rate_limited None) live_service
         (demo_swap ETH USDC "1" (Some "x402_multi_1")) fresh)
    = Normal (SwapFailure "Failed to get quote: OKX API Error: Rate limit reached")
  /\ count_requests
       (new_events fresh
          (snd (executeSwap (constant_world rate_limited None) live_service
                  (demo_swap ETH USDC "1" (Some "x402_multi_1")) fresh))) = 1%nat.
Proof.
  pose proof (executeSwap_failed_quote_sends_no_swap
                (constant_world rate_limited None) live_service
                (demo_swap ETH USDC "1" (Some "x402_multi_1")) fresh
                "OKX API Error: Rate limit reached" eq_refl eq_refl)
    as (H1 & _ & H3).
  split; [exact H1 | exact H3].
Defined.

(** X3.  In live mode, after a successful quote, [executeSwap] sends the
    swap request with the very parameters that were quoted: the two requests
    have the same query string, on [/aggregator/quote] and on
    [/aggregator/swap] of the same base URL, and they are the only two
    requests. *)
Theorem executeSwap_swaps_what_was_quoted :
  forall (world : World) (this : OKXDexService) (p : ExecuteSwapParams)
         (rt : Runtime) (q : JsVal),
    testnetMode (config this) = false ->
    quote_outcome (quote_response world this (swap_quote_params p)
                                  (swap_entered p rt)) = QuoteSuccess q ->
    let evs := new_events rt (snd (executeSwap world this p rt)) in
    exists quote_headers swap_headers failure,
      evs = swap_log p
              :: quote_log (swap_quote_params p)
              :: HttpGet (baseUrl (config this) ++ "/aggregator/quote?"
                            ++ quote_query (swap_quote_params p))
                         quote_headers 15000
              :: HttpGet (baseUrl (config this) ++ "/aggregator/swap?"
                            ++ quote_query (swap_quote_params p))
                         swap_headers 30000
              :: failure
      /\ count_requests evs = 2%nat.
Proof.
  intros world this p rt q Hmode Hq evs; subst evs.
  rewrite executeSwap_live_events by assumption.
  unfold live_swap_events; rewrite Hq.
  unfold quote_request, swap_request.
  rewrite quote_url_layout, swap_url_layout.
  exists (quote_headers world this (swap_quote_params p) (swap_entered p rt)),
         (swap_headers world this p rt),
         (swap_failed (swap_outcome (swap_response world this p rt))).
  split; [reflexivity | ].
  cbn [app count_requests]. now rewrite swap_failed_no_request.
Qed.

Lemma executeSwap_swaps_what_was_quoted_witness :
  count_requests
    (new_events fresh
       (snd (executeSwap (quote_then timed_out) live_service
               (demo_swap ETH USDC "1" None) fresh))) = 2%nat.
Proof.
  destruct (executeSwap_swaps_what_was_quoted (quote_then timed_out) live_service
              (demo_swap ETH USDC "1" None) fresh _ eq_refl eq_refl)
    as (h1 & h2 & f & _ & H).
  exact H.
Defined.

(** X4.  In live mode [executeSwap] never writes to the audit store,
    whatever the payment request identifier and whatever the outcome: the
    audit record exists for sandbox swaps only. *)
Theorem executeSwap_live_is_not_audited :
  forall (world : World) (this : OKXDexService) (p : ExecuteSwapParams)
         (rt : Runtime),
    testnetMode (config this) = false ->
    count_writes (new_events rt (snd (executeSwap world this p rt))) = 0%nat.
Proof.
  intros world this p rt Hmode.
  rewrite executeSwap_live_events by assumption.
  unfold live_swap_events.
  destruct (quote_outcome _); cbn [app count_writes quote_request swap_request];
    [apply swap_failed_no_write | reflexivity].
Qed.

Lemma executeSwap_live_is_not_audited_witness :
  count_writes
    (new_events fresh
       (snd (executeSwap (quote_then timed_out) live_service
               (demo_swap ETH USDC "1" (Some "x402_multi_1")) fresh))) = 0%nat.
Proof.
  apply (executeSwap_live_is_not_audited (quote_then timed_out) live_service
           (demo_swap ETH USDC "1" (Some "x402_multi_1")) fresh).
  reflexivity.
Defined.

(** X5.  In sandbox mode [executeSwap] makes no HTTP request.  It writes one
    audit record when the payment request identifier is a non-empty string
    and none otherwise (absent, [null] or empty).  The record written agrees
    with the result returned: same transaction hash, the returned
    [toTokenAmount] in its metadata, the input amount parsed as its amount,
    type ['SWAP'] and status ['completed']. *)
Theorem executeSwap_sandbox_audit_matches_result :
  forall (world : World) (this : OKXDexService) (p : ExecuteSwapParams)
         (rt : Runtime),
    testnetMode (config this) = true ->
    let out := executeSwap world this p rt in
    let result := mockSwapResult_of world p rt in
    fst out = Normal (SwapMock result)
    /\ count_requests (new_events rt (snd out)) = 0%nat
    /\ written_records (new_events rt (snd out))
       = match audited_request p with
         | Some id => [audit_record world p id rt]
         | None => []
         end
    /\ forall id,
         tx_txHash (audit_record world p id rt) = transactionHash result
         /\ tx_type (audit_record world p id rt) = "SWAP"
         /\ tx_status (audit_record world p id rt) = "completed"
         /\ tx_amount (audit_record world p id rt) = Number.parseFloat (x_amount p)
         /\ tx_metadata (audit_record world p id rt)
            = json_object
                [("paymentRequestId", json_string id);
                 ("fromToken", json_string (x_fromTokenAddress p));
                 ("toToken", json_string (x_toTokenAddress p));
                 ("fromAmount", json_string (x_amount p));
                 ("toAmount", json_string (toTokenAmount result));
                 ("swapProvider", json_string "OKX_DEX")].
Proof.
  intros world this p rt Hmode out result; subst out result.
  rewrite executeSwap_sandbox, executeSwap_sandbox_events by assumption.
  unfold sandbox_swap_events, audit_events.
  split; [reflexivity | ].
  split; [ | split].
  - destruct (audited_request p); [ | reflexivity].
    cbn [app count_requests]. destruct (prisma_transaction_create world _ _); reflexivity.
  - destruct (audited_request p); [ | reflexivity].
    cbn [app written_records]. destruct (prisma_transaction_create world _ _); reflexivity.
  - intros id. repeat split.
Qed.

Lemma executeSwap_sandbox_audit_matches_result_witness :
  List.length
    (written_records
       (new_events fresh
          (snd (executeSwap (constant_world timed_out None) sandbox_service
                  (demo_swap ETH USDC "1" (Some "x402_multi_1")) fresh)))) = 1%nat
  /\ written_records
       (new_events fresh
          (snd (executeSwap (constant_world timed_out None) sandbox_service
                  (demo_swap ETH USDC "1" (Some EmptyString)) fresh))) = [].
Proof.
  split.
  - pose proof (executeSwap_sandbox_audit_matches_result
                  (constant_world timed_out None) sandbox_service
                  (demo_swap ETH USDC "1" (Some "x402_multi_1")) fresh eq_refl)
      as (_ & _ & H & _).
    rewrite H. reflexivity.
  - pose proof (executeSwap_sandbox_audit_matches_result
                  (constant_world timed_out None) sandbox_service
                  (demo_swap ETH USDC "1" (Some EmptyString)) fresh eq_refl)
      as (_ & _ & H & _).
    rewrite H. reflexivity.
Defined.

(* ===================================================================== *)
(** ** Further properties: calculatePaymentRoute *)
(* ===================================================================== *)

Lemma quote_failed_no_request q : count_requests (quote_failed q) = O.
Proof. destruct q; reflexivity. Qed.

Lemma quote_failed_no_write q : count_writes (quote_failed q) = O.
Proof. destruct q; reflexivity. Qed.

Lemma route_of_quote_no_request a q : count_requests (snd (route_of_quote a q)) = O.
Proof.
  destruct q as [data | reason]; [ | reflexivity].
  cbn [route_of_quote]. destruct (get data "toTokenAmount"); reflexivity.
Qed.

Lemma route_of_quote_no_write a q : count_writes (snd (route_of_quote a q)) = O.
Proof.
  destruct q as [data | reason]; [ | reflexivity].
  cbn [route_of_quote]. destruct (get data "toTokenAmount"); reflexivity.
Qed.

(** X6.  One resolution of a payment route makes at most one HTTP request
    and never writes to the database; it makes no request at all when the
    two tokens are the same or when the service is in sandbox mode. *)
Theorem calculatePaymentRoute_at_most_one_request :
  forall (world : World) (this : OKXDexService) (p : PaymentRouteParams)
         (rt : Runtime),
    let evs := new_events rt (snd (calculatePaymentRoute world this p rt)) in
    (count_requests evs <= 1)%nat
    /\ count_writes evs = 0%nat
    /\ (testnetMode (config this) = true -> count_requests evs = 0%nat)
    /\ (toLowerCase (payerPreferredToken p) = toLowerCase (payeeRequiredToken p) ->
        count_requests evs = 0%nat).
Proof.
  intros world this p rt evs.
  destruct (String.eqb (toLowerCase (payerPreferredToken p))
                       (toLowerCase (payeeRequiredToken p))) eqn:Heq.
  - assert (E : evs = [ConsoleLog ("Calculating payment route from "
                                     ++ payerPreferredToken p ++ " to "
                                     ++ payeeRequiredToken p)]).
    { subst evs. rewrite calculatePaymentRoute_direct by assumption.
      apply new_events_app. }
    rewrite E. cbn. repeat split; auto.
  - assert (Hsame : toLowerCase (payerPreferredToken p)
                     = toLowerCase (payeeRequiredToken p) -> False).
    { intros H; rewrite H, String.eqb_refl in Heq; discriminate. }
    destruct (testnetMode (config this)) eqn:Hmode.
    + assert (E : exists tail,
                 evs = ConsoleLog ("Calculating payment route from "
                                     ++ payerPreferredToken p ++ " to "
                                     ++ payeeRequiredToken p)
                         :: quote_log (route_quote_params p)
                         :: ConsoleLog "Mock mode: Generating mock swap quote"
                         :: tail
                 /\ count_requests tail = O /\ count_writes tail = O).
      { subst evs.
        rewrite (calculatePaymentRoute_swap world this p rt _ _ Heq
                   (getSwapQuote_sandbox world this _ _ Hmode)).
        eexists; split; [ | split;
          [apply route_of_quote_no_request | apply route_of_quote_no_write]].
        apply new_events_of_trace. cbn [snd trace route_entered].
        rewrite <- !app_assoc. reflexivity. }
      destruct E as (tail & E & Hr & Hw). rewrite E.
      cbn [count_requests count_writes]. rewrite Hr, Hw.
      repeat split; auto; intros; tauto.
    + assert (E : exists tail,
                 evs = ConsoleLog ("Calculating payment route from "
                                     ++ payerPreferredToken p ++ " to "
                                     ++ payeeRequiredToken p)
                         :: quote_log (route_quote_params p)
                         :: quote_request world this (route_quote_params p)
                              (route_entered p rt)
                         :: tail
                 /\ count_requests tail = O /\ count_writes tail = O).
      { subst evs.
        rewrite (calculatePaymentRoute_swap world this p rt _ _ Heq
                   (getSwapQuote_live world this _ _ Hmode)).
        eexists; split; [ | split].
        - apply new_events_of_trace. cbn [snd trace].
          unfold route_entered at 1; cbn [trace].
          rewrite <- !app_assoc. reflexivity.
        - rewrite count_requests_app, quote_failed_no_request,
                  route_of_quote_no_request. reflexivity.
        - rewrite count_writes_app, quote_failed_no_write,
                  route_of_quote_no_write. reflexivity. }
      destruct E as (tail & E & Hr & Hw). rewrite E.
      cbn [count_requests count_writes quote_request]. rewrite Hr, Hw.
      repeat split; auto; intros; try discriminate; tauto.
Qed.

Lemma calculatePaymentRoute_at_most_one_request_witness :
  count_requests
    (new_events fresh
       (snd (calculatePaymentRoute (constant_world rate_limited None) sandbox_service
               (demo_route ETH USDC "100") fresh))) = 0%nat
  /\ count_requests
       (new_events fresh
          (snd (calculatePaymentRoute (constant_world rate_limited None) live_service
                  (demo_route USDC "0x833589FCD6EDB6E08F4C7C32D4F71B54BDA02913" "100")
                  fresh))) = 0%nat.
Proof.
  split.
  - pose proof (calculatePaymentRoute_at_most_one_request
                  (constant_world rate_limited None) sandbox_service
                  (demo_route ETH USDC "100") fresh) as (_ & _ & H & _).
    exact (H eq_refl).
  - pose proof (calculatePaymentRoute_at_most_one_request
                  (constant_world rate_limited None) live_service
                  (demo_route USDC "0x833589FCD6EDB6E08F4C7C32D4F71B54BDA02913" "100")
                  fresh) as (_ & _ & _ & H).
    exact (H eq_refl).
Defined.

(** X7.  When the tokens differ and the quote succeeds with a quote object,
    [calculatePaymentRoute] reports the quote unchanged: [inputAmount] is
    the requested amount and [outputAmount], [estimatedGas], [tradeFee],
    [priceImpact], [route] and [slippage] are the properties of the same
    names of the quote, [undefined] for those the quote lacks.  In sandbox
    mode this makes [outputAmount] the mock conversion of [getSwapQuote] and
    [slippage] the default ['0.5']. *)
Theorem calculatePaymentRoute_reports_the_quote :
  forall (world : World) (this : OKXDexService) (p : PaymentRouteParams)
         (rt : Runtime),
    String.eqb (toLowerCase (payerPreferredToken p))
               (toLowerCase (payeeRequiredToken p)) = false ->
    (forall props,
        fst (getSwapQuote world this (route_quote_params p) (route_entered p rt))
        = Normal (QuoteSuccess (VObj props)) ->
        fst (calculatePaymentRoute world this p rt)
        = Normal (RouteSwap (amount p)
                    (opt_get (VObj props) "toTokenAmount")
                    (opt_get (VObj props) "estimatedGas")
                    (opt_get (VObj props) "tradeFee")
                    (opt_get (VObj props) "priceImpact")
                    (opt_get (VObj props) "route")
                    (opt_get (VObj props) "slippage")))
    /\ (testnetMode (config this) = true ->
        fst (calculatePaymentRoute world this p rt)
        = Normal (RouteSwap (amount p)
                    (VStr (mockQuoteOutputAmount (payerPreferredToken p)
                             (payeeRequiredToken p) (amount p) (chainId p)))
                    (VStr "21000") (VStr "0.1") (VStr "0.01")
                    (VArr [VObj [("dexName", VStr "Uniswap V3");
                                 ("percentage", VNum (Number.of_Z 100))]])
                    (VStr "0.5"))).
Proof.
  intros world this p rt Hne. split.
  - intros props Hq.
    destruct (getSwapQuote world this (route_quote_params p) (route_entered p rt))
      as [c rt'] eqn:E; simpl in Hq; subst c.
    rewrite (calculatePaymentRoute_swap world this p rt _ rt' Hne E). reflexivity.
  - intros Hmode.
    rewrite (calculatePaymentRoute_swap world this p rt _ _ Hne
               (getSwapQuote_sandbox world this _ _ Hmode)).
    reflexivity.
Qed.

Lemma calculatePaymentRoute_reports_the_quote_witness :
  fst (calculatePaymentRoute (quote_then timed_out) live_service
         (demo_route ETH USDC "1") {| trace := []; ticks := 0 |})
  = Normal (RouteSwap "1" (VStr "2490") VUndefined VUndefined VUndefined
                      VUndefined VUndefined)
  /\ fst (calculatePaymentRoute (quote_then timed_out) sandbox_service
            (demo_route ETH USDC "1") fresh)
     = Normal (RouteSwap "1" (VStr "2500") (VStr "21000") (VStr "0.1") (VStr "0.01")
                 (VArr [VObj [("dexName", VStr "Uniswap V3");
                              ("percentage", VNum (Number.of_Z 100))]])
                 (VStr "0.5")).
Proof.
  split.
  - pose proof (calculatePaymentRoute_reports_the_quote (quote_then timed_out)
                  live_service (demo_route ETH USDC "1")
                  {| trace := []; ticks := 0 |} eq_refl) as [H _].
    exact (H [("toTokenAmount", VStr "2490")] eq_refl).
  - pose proof (calculatePaymentRoute_reports_the_quote (quote_then timed_out)
                  sandbox_service (demo_route ETH USDC "1") fresh eq_refl) as [_ H].
    rewrite (H eq_refl). vm_compute. reflexivity.
Defined.

(* ===================================================================== *)
(** ** Further properties: headers, query strings, token symbols *)
(* ===================================================================== *)

Lemma upper_lower_char c : upper_char (Chars.lower c) = upper_char c.
Proof. destruct c as [[] [] [] [] [] [] [] []]; reflexivity. Qed.

Lemma toUpperCase_toLowerCase s : toUpperCase (toLowerCase s) = toUpperCase s.
Proof.
  induction s as [ | c r IH]; [reflexivity | ].
  cbn [toLowerCase toUpperCase]. now rewrite IH, upper_lower_char.
Qed.

Lemma upper_upper_char c : upper_char (upper_char c) = upper_char c.
Proof. destruct c as [[] [] [] [] [] [] [] []]; reflexivity. Qed.

Lemma toUpperCase_idempotent s : toUpperCase (toUpperCase s) = toUpperCase s.
Proof.
  induction s as [ | c r IH]; [reflexivity | ].
  cbn [toUpperCase]. now rewrite IH, upper_upper_char.
Qed.

(** X8.  [generateAuthHeaders] signs exactly when the service is live and
    its API key is not the built-in default.  Then the six OK-ACCESS headers
    carry the configured key, passphrase and project, the time stamp given,
    and as signature the HMAC-SHA256, under the secret key, of
    [timestamp + METHOD + requestPath + queryString + body] with the method
    in upper case; so the letter case of the method does not change the
    headers. *)
Theorem generateAuthHeaders_signs_live_requests :
  forall (world : World) (this : OKXDexService)
         (timestamp method requestPath queryString body : string),
    testnetMode (config this) = false ->
    String.eqb (apiKey (config this)) "mock-okx-api-key" = false ->
    generateAuthHeaders world this timestamp method requestPath queryString body
    = [("Content-Type", "application/json");
       ("OK-ACCESS-KEY", apiKey (config this));
       ("OK-ACCESS-SIGN",
        crypto_hmac_sha256_base64 world (secretKey (config this))
          (timestamp ++ toUpperCase method ++ requestPath ++ queryString ++ body));
       ("OK-ACCESS-TIMESTAMP", timestamp);
       ("OK-ACCESS-PASSPHRASE", passphrase (config this));
       ("OK-ACCESS-PROJECT", projectId (config this))]
    /\ generateAuthHeaders world this timestamp (toLowerCase method) requestPath
                           queryString body
       = generateAuthHeaders world this timestamp method requestPath queryString body
    /\ generateAuthHeaders world this timestamp (toUpperCase method) requestPath
                           queryString body
       = generateAuthHeaders world this timestamp method requestPath queryString body.
Proof.
  intros world this timestamp method requestPath queryString body Hmode Hkey.
  unfold generateAuthHeaders; rewrite Hmode, Hkey; cbn [orb].
  rewrite toUpperCase_toLowerCase, toUpperCase_idempotent. repeat split.
Qed.

Lemma generateAuthHeaders_signs_live_requests_witness :
  generateAuthHeaders transparent_world keyed_service
    "2025-06-26T15:31:38.000Z" "get" "/aggregator/quote" "?chainId=1" EmptyString
  = [("Content-Type", "application/json");
     ("OK-ACCESS-KEY", "3f1c-key");
     ("OK-ACCESS-SIGN",
      "hmac(s3cr3t,2025-06-26T15:31:38.000ZGET/aggregator/quote?chainId=1)");
     ("OK-ACCESS-TIMESTAMP", "2025-06-26T15:31:38.000Z");
     ("OK-ACCESS-PASSPHRASE", "open sesame");
     ("OK-ACCESS-PROJECT", "agenpay")].
Proof.
  apply (generateAuthHeaders_signs_live_requests transparent_world keyed_service
           "2025-06-26T15:31:38.000Z" "get" "/aggregator/quote" "?chainId=1"
           EmptyString eq_refl eq_refl).
Defined.




Lemma lower_upper_char c : Chars.lower (upper_char c) = Chars.lower c.
Proof. destruct c as [[] [] [] [] [] [] [] []]; reflexivity. Qed.

Lemma toLowerCase_toUpperCase s : toLowerCase (toUpperCase s) = toLowerCase s.
Proof.
  induction s as [ | c r IH]; [reflexivity | ].
  cbn [toLowerCase toUpperCase]. now rewrite IH, lower_upper_char.
Qed.

Lemma lower_lower_char c : Chars.lower (Chars.lower c) = Chars.lower c.
Proof. destruct c as [[] [] [] [] [] [] [] []]; reflexivity. Qed.

Lemma toLowerCase_idempotent s : toLowerCase (toLowerCase s) = toLowerCase s.
Proof.
  induction s as [ | c r IH]; [reflexivity | ].
  cbn [toLowerCase]. now rewrite IH, lower_lower_char.
Qed.

Lemma getTokenSymbol_inherited chainId tokenAddress :
  inherited chainId = true -> getTokenSymbol tokenAddress chainId = "UNKNOWN".
Proof.
  intros H; unfold getTokenSymbol, chainTokens_of, popularTokens; cbn [assoc].
  destruct (String.eqb_spec "base-sepolia" chainId) as [E | _].
  - subst chainId. discriminate H.
  - rewrite H. reflexivity.
Qed.

(** X10.  [getTokenSymbol] compares addresses without regard to letter case,
    and the chain it is asked about hardly matters: every chain name that is
    not a property inherited from [Object.prototype] is looked up in the
    table of ['base-sepolia'], while for an inherited name ([constructor],
    [toString], ...) every address is ['UNKNOWN']. *)
Theorem getTokenSymbol_ignores_case_and_chain :
  forall tokenAddress chainId : string,
    getTokenSymbol (toUpperCase tokenAddress) chainId = getTokenSymbol tokenAddress chainId
    /\ getTokenSymbol (toLowerCase tokenAddress) chainId = getTokenSymbol tokenAddress chainId
    /\ (inherited chainId = false ->
        getTokenSymbol tokenAddress chainId = getTokenSymbol tokenAddress "base-sepolia")
    /\ (inherited chainId = true -> getTokenSymbol tokenAddress chainId = "UNKNOWN").
Proof.
  intros tokenAddress chainId.
  split; [ | split; [ | split]].
  - unfold getTokenSymbol. now rewrite toLowerCase_toUpperCase.
  - unfold getTokenSymbol. now rewrite toLowerCase_idempotent.
  - apply getTokenSymbol_base_sepolia.
  - apply getTokenSymbol_inherited.
Qed.

Lemma getTokenSymbol_ignores_case_and_chain_witness :
  getTokenSymbol "0X833589FCD6EDB6E08F4C7C32D4F71B54BDA02913" "polygon" = "USDC"
  /\ getTokenSymbol "0x833589fCD6eDb6E08f4c7C32D4f71b54bdA02913" "constructor" = "UNKNOWN".
Proof.
  pose proof (getTokenSymbol_ignores_case_and_chain
                "0x833589fCD6eDb6E08f4c7C32D4f71b54bdA02913" "polygon")
    as (Hupper & _ & Hchain & _).
  pose proof (getTokenSymbol_ignores_case_and_chain
                "0x833589fCD6eDb6E08f4c7C32D4f71b54bdA02913" "constructor")
    as (_ & _ & _ & Hinherited).
  split.
  - change "0X833589FCD6EDB6E08F4C7C32D4F71B54BDA02913"
      with (toUpperCase "0x833589fCD6eDb6E08f4c7C32D4f71b54bdA02913").
    rewrite Hupper, (Hchain eq_refl). reflexivity.
  - exact (Hinherited eq_refl).
Defined.

Lemma mul_NaN_l y : Number.mul Number.NaN y = Number.NaN.
Proof. destruct y; reflexivity. Qed.

Lemma div_NaN_l y : Number.div Number.NaN y = Number.NaN.
Proof. destruct y; reflexivity. Qed.

Lemma calculateMockSwapOutput_NaN fromToken toToken amount chainId :
  Number.parseFloat amount = Number.NaN ->
  calculateMockSwapOutput fromToken toToken amount chainId = "NaN".
Proof.
  intros H; unfold calculateMockSwapOutput. rewrite H, !mul_NaN_l. reflexivity.
Qed.

Lemma mockQuoteOutputAmount_NaN fromToken toToken amount chainId :
  Number.parseFloat amount = Number.NaN ->
  mockQuoteOutputAmount fromToken toToken amount chainId
  = if quoted_pair (getTokenSymbol fromToken chainId) (getTokenSymbol toToken chainId)
    then "NaN" else amount.
Proof.
  intros H.
  destruct (quoted_pair _ _) eqn:Hq.
  - unfold quoted_pair in Hq; unfold mockQuoteOutputAmount.
    repeat match goal with
           | |- context [if ?c then _ else _] =>
               destruct c; [rewrite H, ?mul_NaN_l, ?div_NaN_l; reflexivity | ]
           end.
    discriminate Hq.
  - now apply mockQuoteOutputAmount_unquoted.
Qed.

(** X11.  The sandbox does not check that the amount is a number.  For an
    amount that [parseFloat] cannot read (empty, [abc], [$5]), [executeSwap]
    still reports a successful swap, whose [toTokenAmount] is the text
    ['NaN']; [getSwapQuote] still reports a successful quote, whose
    [toTokenAmount] is ['NaN'] for a quoted pair and the unreadable amount
    itself for any other pair. *)
Theorem sandbox_accepts_non_numeric_amount :
  forall (world : World) (this : OKXDexService) (p : ExecuteSwapParams)
         (rt : Runtime),
    testnetMode (config this) = true ->
    Number.parseFloat (x_amount p) = Number.NaN ->
    executed_amount (fst (executeSwap world this p rt)) = Some "NaN"
    /\ quoted_amount (fst (getSwapQuote world this (swap_quote_params p) rt))
       = Some (if quoted_pair (getTokenSymbol (x_fromTokenAddress p) (x_chainId p))
                              (getTokenSymbol (x_toTokenAddress p) (x_chainId p))
               then "NaN" else x_amount p).
Proof.
  intros world this p rt Hmode Hnan. split.
  - rewrite executeSwap_sandbox_amount by assumption.
    now rewrite calculateMockSwapOutput_NaN.
  - rewrite getSwapQuote_sandbox_amount by assumption.
    cbn [swap_quote_params q_fromTokenAddress q_toTokenAddress q_amount q_chainId].
    now rewrite mockQuoteOutputAmount_NaN.
Qed.

Lemma sandbox_accepts_non_numeric_amount_witness :
  executed_amount (fst (executeSwap (constant_world timed_out None) sandbox_service
                          (demo_swap ETH USDC "abc" None) fresh)) = Some "NaN"
  /\ quoted_amount (fst (getSwapQuote (constant_world timed_out None) sandbox_service
                           (swap_quote_params (demo_swap ETH USDC "abc" None)) fresh))
     = Some "NaN".
Proof.
  pose proof (sandbox_accepts_non_numeric_amount
                (constant_world timed_out None) sandbox_service
                (demo_swap ETH USDC "abc" None) fresh eq_refl eq_refl) as [H1 H2].
  split; [exact H1 | exact H2].
Defined.

(* ===================================================================== *)
(** ** Further properties: the chain and token lists *)
(* ===================================================================== *)

Section ListFacts.

Variable world : World.
Variable this : OKXDexService.

Lemma getSupportedChains_sandbox rt :
  testnetMode (config this) = true ->
  getSupportedChains world this rt =
    (Normal (ListSuccess mockChains),
     {| trace := trace rt ++ [chains_log;
                              ConsoleLog "Mock mode: Returning testnet supported chains"];
        ticks := ticks rt |}).
Proof.
  intros Hmode; unfold getSupportedChains; rewrite Hmode.
  js_unfold; cbn [trace ticks]. rewrite <- app_assoc. reflexivity.
Qed.

Lemma getSupportedChains_live rt :
  testnetMode (config this) = false ->
  getSupportedChains world this rt =
    (Normal (list_outcome (chains_response world this rt)),
     {| trace := trace rt ++ [chains_log; chains_request world this rt]
                   ++ list_failed chains_error
                        (list_outcome (chains_response world this rt));
        ticks := S (S (ticks rt)) |}).
Proof.
  intros Hmode; unfold getSupportedChains; rewrite Hmode.
  unfold chains_response, chains_request, chains_headers, chains_url.
  js_unfold; cbn [trace ticks].
  destruct (axios_get world _ _ _ _) as [data | e]; cbn [list_outcome list_failed trace ticks].
  - rewrite <- !app_assoc, app_nil_r. reflexivity.
  - rewrite <- !app_assoc. reflexivity.
Qed.

Lemma getTokensForChain_sandbox chainId rt :
  testnetMode (config this) = true ->
  getTokensForChain world this chainId rt =
    (Normal (ListSuccess (VArr mockTokens)),
     {| trace := trace rt ++ [tokens_log chainId;
                              ConsoleLog "Mock mode: Returning testnet tokens"];
        ticks := ticks rt |}).
Proof.
  intros Hmode; unfold getTokensForChain; rewrite Hmode.
  js_unfold; cbn [trace ticks]. rewrite <- app_assoc. reflexivity.
Qed.

Lemma getTokensForChain_live chainId rt :
  testnetMode (config this) = false ->
  getTokensForChain world this chainId rt =
    (Normal (list_outcome (tokens_response world this chainId rt)),
     {| trace := trace rt ++ [tokens_log chainId; tokens_request world this chainId rt]
                   ++ list_failed (tokens_error chainId)
                        (list_outcome (tokens_response world this chainId rt));
        ticks := S (S (ticks rt)) |}).
Proof.
  intros Hmode; unfold getTokensForChain; rewrite Hmode.
  unfold tokens_response, tokens_request, tokens_headers, tokens_url.
  js_unfold; cbn [trace ticks].
  destruct (axios_get world _ _ _ _) as [data | e]; cbn [list_outcome list_failed trace ticks].
  - rewrite <- !app_assoc, app_nil_r. reflexivity.
  - rewrite <- !app_assoc. reflexivity.
Qed.

End ListFacts.

Lemma list_failed_no_request describe r :
  count_requests (list_failed describe r) = O.
Proof. destruct r; reflexivity. Qed.

Lemma mockTokens_symbols_agree chainId :
  inherited chainId = false -> forallb (symbol_agrees chainId) mockTokens = true.
Proof.
  intros H. unfold mockTokens, mockToken, symbol_agrees, token_address, token_symbol.
  cbn [forallb opt_get assoc String.eqb Ascii.eqb Bool.eqb andb].
  rewrite !(getTokenSymbol_base_sepolia chainId) by exact H.
  reflexivity.
Qed.

Lemma tokens_url_layout this chainId :
  tokens_url this chainId
  = baseUrl (config this) ++ "/aggregator/all-tokens?chainId=" ++ urlencode chainId.
Proof. unfold tokens_url. cbn [URLSearchParams urlencode append]. reflexivity. Qed.

(** X12.  In sandbox mode the two list methods answer from fixed lists and
    contact nobody: [getSupportedChains] returns its two test chains and
    [getTokensForChain] returns the same four tokens for every chain
    identifier, supported or not, without an HTTP request and without
    consulting the clock.  Each of the four tokens carries the symbol that
    [getTokenSymbol] finds for its address, on every chain whose name is not
    inherited from [Object.prototype]. *)
Theorem sandbox_lists_are_fixed :
  forall (world : World) (this : OKXDexService) (chainId : string) (rt : Runtime),
    testnetMode (config this) = true ->
    fst (getSupportedChains world this rt) = Normal (ListSuccess mockChains)
    /\ fst (getTokensForChain world this chainId rt) = Normal (ListSuccess (VArr mockTokens))
    /\ count_requests (new_events rt (snd (getSupportedChains world this rt))) = O
    /\ count_requests (new_events rt (snd (getTokensForChain world this chainId rt))) = O
    /\ ticks (snd (getSupportedChains world this rt)) = ticks rt
    /\ ticks (snd (getTokensForChain world this chainId rt)) = ticks rt
    /\ (inherited chainId = false -> forallb (symbol_agrees chainId) mockTokens = true).
Proof.
  intros world this chainId rt Hmode.
  rewrite getSupportedChains_sandbox, getTokensForChain_sandbox by assumption.
  cbn [fst snd]. rewrite !new_events_app.
  split; [reflexivity | ]. split; [reflexivity | ]. split; [reflexivity | ].
  split; [reflexivity | ]. split; [reflexivity | ]. split; [reflexivity | ].
  apply mockTokens_symbols_agree.
Qed.

Lemma sandbox_lists_are_fixed_witness :
  fst (getTokensForChain (constant_world timed_out None) sandbox_service "polygon" fresh)
  = Normal (ListSuccess (VArr mockTokens))
  /\ forallb (symbol_agrees "polygon") mockTokens = true.
Proof.
  pose proof (sandbox_lists_are_fixed (constant_world timed_out None) sandbox_service
                "polygon" fresh eq_refl) as (_ & H & _ & _ & _ & _ & Hsym).
  split; [exact H | exact (Hsym eq_refl)].
Defined.

(** X13.  In live mode each list method sends exactly one GET request, with
    a timeout of 10 seconds; [getTokensForChain] sends it to
    [baseUrl/aggregator/all-tokens?chainId=] followed by the encoded chain.
    Neither method looks at the [code] of the provider's envelope: whenever
    the request resolves, the result is a success that carries the envelope's
    [data], or the empty list when [data] is missing or falsy, so an error
    envelope is reported as a successful empty list.  Only a rejected request
    (network error, timeout, HTTP error status) gives [success: false], with
    the message of the rejection; neither method throws. *)
Theorem live_lists_do_not_check_the_envelope :
  forall (world : World) (this : OKXDexService) (chainId : string) (rt : Runtime),
    testnetMode (config this) = false ->
    (forall data,
        chains_response world this rt = AxiosResolved data ->
        fst (getSupportedChains world this rt)
        = Normal (ListSuccess (if truthy (opt_get data "data")
                               then opt_get data "data" else VArr [])))
    /\ (forall e,
           chains_response world this rt = AxiosRejected e ->
           fst (getSupportedChains world this rt) = Normal (ListFailure (message e)))
    /\ (forall data,
           tokens_response world this chainId rt = AxiosResolved data ->
           fst (getTokensForChain world this chainId rt)
           = Normal (ListSuccess (if truthy (opt_get data "data")
                                  then opt_get data "data" else VArr [])))
    /\ (forall e,
           tokens_response world this chainId rt = AxiosRejected e ->
           fst (getTokensForChain world this chainId rt) = Normal (ListFailure (message e)))
    /\ (exists tail,
           new_events rt (snd (getSupportedChains world this rt))
           = chains_log
               :: HttpGet (baseUrl (config this) ++ "/aggregator/supported/chain")
                          (chains_headers world this rt) 10000
               :: tail
           /\ count_requests tail = O)
    /\ (exists tail,
           new_events rt (snd (getTokensForChain world this chainId rt))
           = tokens_log chainId
               :: HttpGet (baseUrl (config this) ++ "/aggregator/all-tokens?chainId="
                             ++ urlencode chainId)
                          (tokens_headers world this chainId rt) 10000
               :: tail
           /\ count_requests tail = O).
Proof.
  intros world this chainId rt Hmode.
  rewrite getSupportedChains_live, getTokensForChain_live by assumption.
  cbn [fst snd]. rewrite !new_events_app.
  split; [ | split; [ | split; [ | split; [ | split]]]].
  - intros data H; rewrite H; reflexivity.
  - intros e H; rewrite H; reflexivity.
  - intros data H; rewrite H; reflexivity.
  - intros e H; rewrite H; reflexivity.
  - eexists. split; [reflexivity | apply list_failed_no_request].
  - eexists. split; [ | apply list_failed_no_request].
    unfold tokens_request. rewrite tokens_url_layout. reflexivity.
Qed.

Lemma live_lists_do_not_check_the_envelope_witness :
  fst (getSupportedChains (constant_world invalid_key None) live_service fresh)
  = Normal (ListSuccess (VArr []))
  /\ fst (getTokensForChain (constant_world invalid_key None) live_service "1" fresh)
     = Normal (ListSuccess (VArr []))
  /\ fst (getTokensForChain (constant_world timed_out None) live_service "1" fresh)
     = Normal (ListFailure "timeout of 15000ms exceeded").
Proof.
  pose proof (live_lists_do_not_check_the_envelope
                (constant_world invalid_key None) live_service "1" fresh eq_refl)
    as (H1 & _ & H3 & _).
  pose proof (live_lists_do_not_check_the_envelope
                (constant_world timed_out None) live_service "1" fresh eq_refl)
    as (_ & _ & _ & H4 & _).
  split; [exact (H1 _ eq_refl) | split; [exact (H3 _ eq_refl) | exact (H4 _ eq_refl)]].
Defined.

(* ===================================================================== *)
(** ** Arithmetic facts: small integers and quotients *)
(* ===================================================================== *)

Module CountFacts.
Import Number.

Lemma digits2_pos_shift k p :
  Zpos (digits2_pos (Pos.iter xO p k)) = Zpos (digits2_pos p) + Zpos k.
Proof.
  induction k as [ | k IH] using Pos.peano_ind.
  - cbn [Pos.iter digits2_pos]. lia.
  - rewrite Pos.iter_succ. cbn [digits2_pos]. lia.
Qed.

Lemma digits2_pos_lower p : 2 ^ (Zpos (digits2_pos p) - 1) <= Zpos p.
Proof.
  induction p as [p IH | p IH | ]; cbn [digits2_pos].
  - replace (Zpos (Pos.succ (digits2_pos p)) - 1)
      with (Z.succ (Zpos (digits2_pos p) - 1)) by lia.
    rewrite Z.pow_succ_r by lia. lia.
  - replace (Zpos (Pos.succ (digits2_pos p)) - 1)
      with (Z.succ (Zpos (digits2_pos p) - 1)) by lia.
    rewrite Z.pow_succ_r by lia. lia.
  - reflexivity.
Qed.

Lemma digits2_pos_small p : Zpos p < 2 ^ 53 -> Zpos (digits2_pos p) <= 53.
Proof.
  intros H. pose proof (digits2_pos_lower p) as L.
  destruct (Z_le_gt_dec (Zpos (digits2_pos p)) 53) as [ | G]; [assumption | exfalso].
  assert (2 ^ 53 <= 2 ^ (Zpos (digits2_pos p) - 1)) by (apply Z.pow_le_mono_r; lia).
  lia.
Qed.

(** A mantissa of 53 bits with an exponent in range is not rounded. *)
Lemma binary_round_aux_exact s m e :
  Zpos (digits2_pos m) = 53 -> -1074 <= e <= 971 ->
  binary_round_aux prec emax s (Zpos m) e loc_Exact = S754_finite s m e.
Proof.
  intros Hd He.
  assert (F : fexp prec emax (Zdigits2 (Zpos m) + e) - e = 0)
    by (unfold fexp, SpecFloat.emin, prec, emax; cbn [Zdigits2]; lia).
  unfold binary_round_aux, shr_fexp. rewrite F.
  cbn [shr shr_record_of_loc shr_m loc_of_shr_record round_nearest_even].
  rewrite F. cbn [shr shr_m].
  replace (e <=? emax - prec) with true
    by (symmetry; apply Z.leb_le; unfold emax, prec; lia).
  reflexivity.
Qed.

(** A positive integer below [2^53] is a finite number. *)
Lemma of_Z_small n :
  0 < n < 2 ^ 53 -> exists m e, of_Z n = S754_finite false m e.
Proof.
  intros [Hpos Hlt]. destruct n as [ | p | p]; try lia.
  pose proof (digits2_pos_small p Hlt) as Hd.
  unfold of_Z, binary_normalize, binary_round, shl_align.
  assert (F : fexp prec emax (Zpos (digits2_pos p) + 0) - 0
              = Zpos (digits2_pos p) - 53)
    by (unfold fexp, SpecFloat.emin, prec, emax; lia).
  rewrite F.
  destruct (Zpos (digits2_pos p) - 53) as [ | k | k] eqn:Hk; try lia.
  - rewrite binary_round_aux_exact by lia. eauto.
  - rewrite binary_round_aux_exact; [eauto | | lia].
    fold (shift_pos k p). unfold shift_pos. rewrite digits2_pos_shift. lia.
Qed.



Lemma div_zero_finite s m e :
  div (S754_zero false) (S754_finite s m e) = S754_zero s.
Proof. destruct s; reflexivity. Qed.

End CountFacts.

(* ===================================================================== *)
(** ** Further properties: statistics and housekeeping *)
(* ===================================================================== *)

Lemma getServiceStats_eq db this rt :
  getServiceStats db this rt
  = match total_count db rt with
    | CountRejected e =>
        (Normal (zero_stats this),
         {| trace := trace rt ++ [stats_failed e]; ticks := S (ticks rt) |})
    | CountResolved swapCount =>
        match completed_count db rt with
        | CountRejected e =>
            (Normal (zero_stats this),
             {| trace := trace rt ++ [stats_failed e]; ticks := S (S (ticks rt)) |})
        | CountResolved completedSwaps =>
            (Normal (stats_of this swapCount completedSwaps),
             {| trace := trace rt; ticks := S (S (ticks rt)) |})
        end
    end.
Proof.
  unfold getServiceStats, prisma_count, total_count, completed_count.
  js_unfold; cbn [trace ticks].
  destruct (prisma_transaction_count db _ all_swaps) as [n | e];
    cbn [trace ticks]; [ | reflexivity].
  destruct (prisma_transaction_count db _ completed_swaps) as [c | e];
    cbn [trace ticks]; reflexivity.
Qed.


Lemma successRate_none_completed swapCount :
  0 < swapCount < 2 ^ 53 -> successRate swapCount 0 = VStr "0.00".
Proof.
  intros H; unfold successRate.
  replace (0 <? swapCount) with true by (symmetry; apply Z.ltb_lt; apply H).
  destruct (CountFacts.of_Z_small swapCount H) as (m & e & E). rewrite E.
  change (Number.of_Z 0) with (S754_zero false).
  rewrite CountFacts.div_zero_finite. reflexivity.
Qed.


Lemma cleanup_eq db rt :
  cleanup db rt
  = (Normal tt,
     {| trace := trace rt
                   ++ [match prisma_disconnect db (ticks rt) with
                       | None => ConsoleLog "OKX DEX Service cleanup completed"
                       | Some e => ConsoleError ("Error during cleanup: " ++ message e)
                       end];
        ticks := S (ticks rt) |}).
Proof.
  unfold cleanup. js_unfold; cbn [trace ticks].
  destruct (prisma_disconnect db _); reflexivity.
Qed.

Lemma getSwapStatus_eq world this transactionHash rt :
  getSwapStatus world this transactionHash rt
  = if testnetMode (config this)
    then (Normal (StatusKnown "completed" 12 (Some (date_now world (ticks rt)))),
          {| trace := trace rt; ticks := S (ticks rt) |})
    else (Normal (StatusKnown "pending" 0 None), rt).
Proof.
  unfold getSwapStatus. destruct (testnetMode (config this)); reflexivity.
Qed.

Lemma getServiceStats_returns db this rt :
  exists stats rt', getServiceStats db this rt = (Normal stats, rt').
Proof.
  rewrite getServiceStats_eq.
  destruct (total_count db rt); [destruct (completed_count db rt) | ]; eauto.
Qed.

(** X14.  The housekeeping methods never throw, whatever the store
    answers: [getServiceStats], [cleanup] and [getSwapStatus] all complete
    normally, and a failing [$disconnect] is only logged.  [getSwapStatus]
    never fails and never looks at the transaction hash: it answers
    ['completed'] with 12 confirmations in sandbox mode and ['pending'] with
    none in live mode, for every hash, without any request or console
    line. *)
Theorem housekeeping_methods_never_throw :
  forall (world : World) (db : Database) (this : OKXDexService)
         (transactionHash : string) (rt : Runtime),
    (exists r rt', getServiceStats db this rt = (Normal r, rt'))
    /\ (exists line rt',
           cleanup db rt = (Normal tt, rt')
           /\ new_events rt rt' = [line]
           /\ (forall e, prisma_disconnect db (ticks rt) = Some e ->
                line = ConsoleError ("Error during cleanup: " ++ message e)))
    /\ (exists timestamp rt',
           getSwapStatus world this transactionHash rt
           = (Normal (if testnetMode (config this)
                      then StatusKnown "completed" 12 (Some timestamp)
                      else StatusKnown "pending" 0 None), rt')
           /\ new_events rt rt' = []).
Proof.
  intros world db this transactionHash rt.
  split; [ | split].
  - apply getServiceStats_returns.
  - rewrite cleanup_eq. do 2 eexists.
    split; [reflexivity | ]. split; [apply new_events_app | ].
    intros e H. rewrite H. reflexivity.
  - rewrite getSwapStatus_eq.
    destruct (testnetMode (config this)).
    + exists (date_now world (ticks rt)). eexists. split; [reflexivity | ].
      apply new_events_of_trace. cbn [trace]. now rewrite app_nil_r.
    + exists EmptyString, rt. split; [reflexivity | apply new_events_refl].
Qed.

(** X15.  [getServiceStats] turns a failure of the store into an answer:
    when either count is rejected it returns zero swaps, zero completed swaps
    and the success rate [0], after one error line.  That answer is exactly
    the one it gives for a store without any swap, so a caller cannot tell an
    unreachable store from an empty one.  The number of supported chains is
    3 in every answer. *)
Theorem getServiceStats_failure_looks_like_empty_store :
  forall (db : Database) (this : OKXDexService) (rt : Runtime),
    (forall e,
        total_count db rt = CountRejected e ->
        fst (getServiceStats db this rt) = Normal (zero_stats this)
        /\ new_events rt (snd (getServiceStats db this rt)) = [stats_failed e])
    /\ (forall n e,
           total_count db rt = CountResolved n ->
           completed_count db rt = CountRejected e ->
           fst (getServiceStats db this rt) = Normal (zero_stats this)
           /\ new_events rt (snd (getServiceStats db this rt)) = [stats_failed e])
    /\ (total_count db rt = CountResolved 0 ->
        completed_count db rt = CountResolved 0 ->
        fst (getServiceStats db this rt) = Normal (zero_stats this))
    /\ (forall stats,
           fst (getServiceStats db this rt) = Normal stats ->
           stat_supportedChains stats = 3
           /\ stat_testnetMode stats = testnetMode (config this)).
Proof.
  intros db this rt. rewrite getServiceStats_eq.
  split; [ | split; [ | split]].
  - intros e H; rewrite H; cbn [fst snd].
    split; [reflexivity | apply new_events_app].
  - intros n e H1 H2; rewrite H1, H2; cbn [fst snd].
    split; [reflexivity | apply new_events_app].
  - intros H1 H2; rewrite H1, H2; reflexivity.
  - intros stats.
    destruct (total_count db rt); [destruct (completed_count db rt) | ];
      cbn [fst]; intros H; injection H as <-; split; reflexivity.
Qed.

Lemma getServiceStats_failure_looks_like_empty_store_witness :
  fst (getServiceStats unreachable_database sandbox_service fresh)
  = fst (getServiceStats (counting_database 0 0) sandbox_service fresh).
Proof.
  pose proof (getServiceStats_failure_looks_like_empty_store
                unreachable_database sandbox_service fresh) as (H1 & _).
  pose proof (getServiceStats_failure_looks_like_empty_store
                (counting_database 0 0) sandbox_service fresh) as (_ & _ & H3 & _).
  destruct (H1 _ eq_refl) as [E1 _].
  rewrite E1, (H3 eq_refl eq_refl). reflexivity.
Defined.



Lemma live_swap_events_no_record world this p rt :
  written_records (live_swap_events world this p rt) = [].
Proof.
  unfold live_swap_events. cbn [app written_records swap_log quote_log quote_request].
  destruct (quote_outcome _); [ | reflexivity].
  cbn [written_records swap_request].
  destruct (swap_outcome _); reflexivity.
Qed.

Lemma swap_records_are_completed_swaps world this p rt r :
  In r (swap_records world this p rt) ->
  tx_type r = "SWAP" /\ tx_status r = "completed".
Proof.
  unfold swap_records. destruct (testnetMode (config this)) eqn:Hmode.
  - rewrite executeSwap_sandbox_events by assumption.
    unfold sandbox_swap_events, audit_events.
    destruct (audited_request p) as [id | ]; cbn [app written_records].
    + destruct (prisma_transaction_create world _ _); cbn [written_records In];
        intros [<- | []]; split; reflexivity.
    + intros [].
  - rewrite executeSwap_live_events by assumption.
    rewrite live_swap_events_no_record. intros [].
Qed.

Lemma records_of_runs_are_completed_swaps runs r :
  In r (records_of_runs runs) -> tx_type r = "SWAP" /\ tx_status r = "completed".
Proof.
  unfold records_of_runs. rewrite in_flat_map.
  intros ([[[world this] p] rt] & _ & H).
  now apply swap_records_are_completed_swaps in H.
Qed.

Lemma filter_all_swaps rows :
  (forall r, In r rows -> tx_type r = "SWAP" /\ tx_status r = "completed") ->
  filter (where_matches all_swaps) rows = rows
  /\ filter (where_matches completed_swaps) rows = [].
Proof.
  induction rows as [ | r rows IH]; intros H; [split; reflexivity | ].
  destruct (H r (or_introl eq_refl)) as [Ht Hs].
  destruct IH as [IH1 IH2]; [intros r' Hr'; apply H; now right | ].
  assert (A : where_matches all_swaps r = true)
    by (unfold where_matches; cbn [all_swaps where_type where_status];
        rewrite Ht; reflexivity).
  assert (C : where_matches completed_swaps r = false)
    by (unfold where_matches; cbn [completed_swaps where_type where_status];
        rewrite Ht, Hs; reflexivity).
  cbn [filter]. rewrite A, C, IH1, IH2. split; reflexivity.
Qed.

(** X17.  Swaps that the service records never count as completed in its
    own statistics.  [executeSwap] writes its audit records with the status
    ['completed'], while [getServiceStats] counts the records whose status is
    ['COMPLETED'].  So, over a store that holds the records written by any
    runs of [executeSwap] and that counts by exact match of type and status,
    [getServiceStats] reports every record as a swap, none as completed, and
    a success rate of ['0.00'] (the number [0] when nothing was written). *)
Theorem recorded_swaps_never_count_as_completed :
  forall (runs : list SwapRun) (this : OKXDexService) (rt : Runtime),
    Z.of_nat (List.length (records_of_runs runs)) < 2 ^ 53 ->
    exists stats,
      fst (getServiceStats (database_of (records_of_runs runs)) this rt) = Normal stats
      /\ stat_totalSwaps stats = Z.of_nat (List.length (records_of_runs runs))
      /\ stat_completedSwaps stats = 0
      /\ stat_successRate stats
         = match records_of_runs runs with
           | [] => VNum (Number.of_Z 0)
           | _ :: _ => VStr "0.00"
           end.
Proof.
  intros runs this rt Hsize.
  destruct (filter_all_swaps (records_of_runs runs)
              (records_of_runs_are_completed_swaps runs)) as [Hall Hdone].
  rewrite getServiceStats_eq.
  unfold total_count, completed_count, database_of; cbn [prisma_transaction_count].
  rewrite Hall, Hdone. eexists. split; [reflexivity | ].
  cbn [stats_of stat_totalSwaps stat_completedSwaps stat_successRate List.length].
  split; [reflexivity | ]. split; [reflexivity | ].
  destruct (records_of_runs runs) as [ | r rows].
  - reflexivity.
  - apply successRate_none_completed. cbn [List.length] in *. lia.
Qed.

Lemma recorded_swaps_never_count_as_completed_witness :
  exists stats,
    fst (getServiceStats
           (database_of (records_of_runs [demo_run "x402_multi_1"; demo_run "x402_multi_2"]))
           sandbox_service fresh) = Normal stats
    /\ stat_totalSwaps stats = 2
    /\ stat_completedSwaps stats = 0
    /\ stat_successRate stats = VStr "0.00".
Proof.
  destruct (recorded_swaps_never_count_as_completed
              [demo_run "x402_multi_1"; demo_run "x402_multi_2"] sandbox_service fresh)
    as (stats & H & Ht & Hc & Hr).
  - vm_compute. reflexivity.
  - exists stats. split; [exact H | ]. split; [exact Ht | ]. split; [exact Hc | exact Hr].
Defined.

(* ===================================================================== *)
(** ** Further properties: the mode of the service *)
(* ===================================================================== *)

Lemma not_production_spec v :
  not_production v = true <-> v <> Some "production".
Proof.
  destruct v as [s | ]; cbn [not_production].
  - destruct (String.eqb_spec s "production") as [-> | N]; cbn [negb]; split;
      congruence.
  - split; congruence.
Qed.

Lemma new_OKXDexService_mode env :
  testnetMode (config (new_OKXDexService env)) = not_production (NODE_ENV env).
Proof. reflexivity. Qed.

Lemma sandbox_swap_events_no_request world p rt :
  count_requests (sandbox_swap_events world p rt) = O.
Proof.
  unfold sandbox_swap_events, audit_events.
  destruct (audited_request p); [ | reflexivity].
  cbn [app count_requests]. destruct (prisma_transaction_create world _ _); reflexivity.
Qed.

Lemma calculatePaymentRoute_sandbox_no_request world this p rt :
  testnetMode (config this) = true ->
  count_requests (new_events rt (snd (calculatePaymentRoute world this p rt))) = O.
Proof.
  intros Hmode.
  destruct (String.eqb (toLowerCase (payerPreferredToken p))
                       (toLowerCase (payeeRequiredToken p))) eqn:Heq.
  - rewrite calculatePaymentRoute_direct by assumption. cbn [snd].
    unfold route_entered. rewrite new_events_app. reflexivity.
  - rewrite (calculatePaymentRoute_swap world this p rt _ _ Heq
               (getSwapQuote_sandbox world this _ _ Hmode)).
    cbn [snd trace route_entered].
    rewrite (new_events_of_trace rt _
               ([ConsoleLog ("Calculating payment route from "
                               ++ payerPreferredToken p ++ " to "
                               ++ payeeRequiredToken p)]
                  ++ [quote_log (route_quote_params p);
                      ConsoleLog "Mock mode: Generating mock swap quote"]
                  ++ snd (route_of_quote (amount p)
                            (QuoteSuccess (mockQuote (route_quote_params p))))))
      by (cbn [trace]; rewrite <- !app_assoc; reflexivity).
    rewrite !count_requests_app, route_of_quote_no_request. reflexivity.
Qed.

Lemma getSwapQuote_live_one_request world this p rt :
  testnetMode (config this) = false ->
  count_requests (new_events rt (snd (getSwapQuote world this p rt))) = 1%nat.
Proof.
  intros Hmode. rewrite getSwapQuote_live by assumption. cbn [snd].
  rewrite new_events_app, count_requests_app, quote_failed_no_request. reflexivity.
Qed.

(** X18.  The mode of a service is decided by [NODE_ENV] alone.  Built in an
    environment whose [NODE_ENV] is anything but ['production'] (unset,
    ['development'], ['Production'], ...), the service contacts nobody,
    whatever credentials are configured: quotes, swaps, routes and the two
    lists make no HTTP request and the headers are the two mock ones.  Built
    with [NODE_ENV] equal to ['production'], every quote sends one request,
    whether or not credentials are configured. *)
Theorem mode_is_decided_by_NODE_ENV :
  forall (env : ProcessEnv) (world : World) (q : SwapQuoteParams)
         (p : ExecuteSwapParams) (r : PaymentRouteParams) (chainId : string)
         (rt : Runtime),
    let this := new_OKXDexService env in
    (NODE_ENV env <> Some "production" ->
     count_requests (new_events rt (snd (getSwapQuote world this q rt))) = O
     /\ count_requests (new_events rt (snd (executeSwap world this p rt))) = O
     /\ count_requests (new_events rt (snd (calculatePaymentRoute world this r rt))) = O
     /\ count_requests (new_events rt (snd (getSupportedChains world this rt))) = O
     /\ count_requests (new_events rt (snd (getTokensForChain world this chainId rt))) = O
     /\ forall timestamp method requestPath queryString body,
          generateAuthHeaders world this timestamp method requestPath queryString body
          = [("Content-Type", "application/json"); ("X-Mock-Mode", "true")])
    /\ (NODE_ENV env = Some "production" ->
        count_requests (new_events rt (snd (getSwapQuote world this q rt))) = 1%nat).
Proof.
  intros env world q p r chainId rt this. split.
  - intros Henv.
    assert (Hmode : testnetMode (config this) = true)
      by (subst this; rewrite new_OKXDexService_mode; now apply not_production_spec).
    split; [ | split; [ | split; [ | split; [ | split]]]].
    + rewrite getSwapQuote_sandbox by assumption. cbn [snd].
      rewrite new_events_app. reflexivity.
    + rewrite executeSwap_sandbox_events by assumption.
      apply sandbox_swap_events_no_request.
    + now apply calculatePaymentRoute_sandbox_no_request.
    + rewrite getSupportedChains_sandbox by assumption. cbn [snd].
      rewrite new_events_app. reflexivity.
    + rewrite getTokensForChain_sandbox by assumption. cbn [snd].
      rewrite new_events_app. reflexivity.
    + intros. unfold generateAuthHeaders. rewrite Hmode. reflexivity.
  - intros Henv. apply getSwapQuote_live_one_request.
    subst this. rewrite new_OKXDexService_mode, Henv. reflexivity.
Qed.

Lemma mode_is_decided_by_NODE_ENV_witness :
  count_requests
    (new_events fresh
       (snd (executeSwap (constant_world timed_out None) (new_OKXDexService staging_env)
               (demo_swap ETH USDC "1" None) fresh))) = O
  /\ count_requests
       (new_events fresh
          (snd (getSwapQuote (constant_world timed_out None)
                  (new_OKXDexService production_env)
                  (demo_quote ETH USDC "1") fresh))) = 1%nat.
Proof.
  split.
  - pose proof (mode_is_decided_by_NODE_ENV staging_env (constant_world timed_out None)
                  (demo_quote ETH USDC "1") (demo_swap ETH USDC "1" None)
                  (demo_route ETH USDC "1") "84532" fresh) as [H _].
    destruct H as (_ & H & _); [discriminate | exact H].
  - pose proof (mode_is_decided_by_NODE_ENV production_env (constant_world timed_out None)
                  (demo_quote ETH USDC "1") (demo_swap ETH USDC "1" None)
                  (demo_route ETH USDC "1") "84532" fresh) as [_ H].
    exact (H eq_refl).
Defined.

Lemma strict_ne_string_false v s : strict_ne_string v s = false <-> v = VStr s.
Proof.
  destruct v; cbn [strict_ne_string]; split; try congruence.
  - intros H. apply negb_false_iff, String.eqb_eq in H. now subst.
  - intros H. injection H as ->. now rewrite String.eqb_refl.
Qed.

Lemma quote_outcome_success data :
  opt_get data "code" = VStr "0" ->
  quote_outcome (AxiosResolved data)
  = QuoteSuccess (or_else (opt_index0 (opt_get data "data")) VNull).
Proof.
  intros H. cbn [quote_outcome].
  now rewrite (proj2 (strict_ne_string_false _ _) H).
Qed.

(** X19.  A live quote succeeds exactly when the request resolves with an
    envelope whose [code] is the text ['0']: a rejected request never
    succeeds, and neither does the number [0] or a missing code.  A
    successful quote is the first entry of the envelope's [data], later
    entries being ignored; when there is no first entry the quote still
    succeeds, with [data: null]. *)
Theorem getSwapQuote_live_succeeds_iff_code_is_0 :
  forall (world : World) (this : OKXDexService) (p : SwapQuoteParams)
         (rt : Runtime),
    testnetMode (config this) = false ->
    ((exists q, fst (getSwapQuote world this p rt) = Normal (QuoteSuccess q))
     <-> exists data,
           quote_response world this p rt = AxiosResolved data
           /\ opt_get data "code" = VStr "0")
    /\ (forall data first rest,
           quote_response world this p rt = AxiosResolved data ->
           opt_get data "code" = VStr "0" ->
           opt_get data "data" = VArr (first :: rest) ->
           truthy first = true ->
           fst (getSwapQuote world this p rt) = Normal (QuoteSuccess first))
    /\ (forall data,
           quote_response world this p rt = AxiosResolved data ->
           opt_get data "code" = VStr "0" ->
           truthy (opt_index0 (opt_get data "data")) = false ->
           fst (getSwapQuote world this p rt) = Normal (QuoteSuccess VNull)).
Proof.
  intros world this p rt Hmode.
  rewrite getSwapQuote_live by assumption. cbn [fst].
  split; [ | split].
  - split.
    + intros [q H].
      destruct (quote_response world this p rt) as [data | e];
        cbn [quote_outcome] in H; [ | discriminate].
      exists data. split; [reflexivity | ].
      destruct (strict_ne_string (opt_get data "code") "0") eqn:Hc; [discriminate | ].
      now apply strict_ne_string_false.
    + intros (data & Hr & Hc). rewrite Hr, quote_outcome_success by assumption. eauto.
  - intros data first rest Hr Hc Hd Ht.
    rewrite Hr, quote_outcome_success by assumption.
    rewrite Hd. cbn [opt_index0]. unfold or_else. now rewrite Ht.
  - intros data Hr Hc Ht.
    rewrite Hr, quote_outcome_success by assumption.
    unfold or_else. now rewrite Ht.
Qed.

Lemma getSwapQuote_live_succeeds_iff_code_is_0_witness :
  fst (getSwapQuote (constant_world two_entries None) live_service
         (demo_quote ETH USDC "1") fresh)
  = Normal (QuoteSuccess (VObj [("toTokenAmount", VStr "2490");
                                ("data", VStr "0x38ed1739")]))
  /\ fst (getSwapQuote (constant_world empty_envelope None) live_service
            (demo_quote ETH USDC "1") fresh)
     = Normal (QuoteSuccess VNull).
Proof.
  pose proof (getSwapQuote_live_succeeds_iff_code_is_0
                (constant_world two_entries None) live_service
                (demo_quote ETH USDC "1") fresh eq_refl) as (_ & H & _).
  pose proof (getSwapQuote_live_succeeds_iff_code_is_0
                (constant_world empty_envelope None) live_service
                (demo_quote ETH USDC "1") fresh eq_refl) as (_ & _ & H0).
  split.
  - exact (H _ _ _ eq_refl eq_refl eq_refl eq_refl).
  - exact (H0 _ eq_refl eq_refl eq_refl).
Defined.

(** X20.  A live swap that succeeds returns the provider's answer and
    nothing of the quote.  When the quote has succeeded and the swap request
    resolves with code ['0'] and a first [data] entry, [executeSwap] returns
    [{ success: true, data, transactionData }] with that entry as [data] and
    the entry's own [data] property as [transactionData] ([undefined] when it
    has none); the quote obtained first does not enter the result.  No error
    line is written and nothing is recorded in the audit store. *)
Theorem executeSwap_live_success_returns_first_entry :
  forall (world : World) (this : OKXDexService) (p : ExecuteSwapParams)
         (rt : Runtime) (q data swapData : JsVal),
    testnetMode (config this) = false ->
    quote_outcome (quote_response world this (swap_quote_params p)
                                  (swap_entered p rt)) = QuoteSuccess q ->
    swap_response world this p rt = AxiosResolved data ->
    opt_get data "code" = VStr "0" ->
    opt_index0 (opt_get data "data") = swapData ->
    truthy swapData = true ->
    fst (executeSwap world this p rt)
    = Normal (SwapLive swapData (opt_get swapData "data"))
    /\ new_events rt (snd (executeSwap world this p rt))
       = [swap_log p;
          quote_log (swap_quote_params p);
          quote_request world this (swap_quote_params p) (swap_entered p rt);
          swap_request world this p rt]
    /\ written_records (new_events rt (snd (executeSwap world this p rt))) = [].
Proof.
  intros world this p rt q data swapData Hmode Hq Hr Hc Hd Ht.
  rewrite executeSwap_live_result, executeSwap_live_events by assumption.
  rewrite live_swap_events_no_record.
  unfold live_swap_result, live_swap_events. rewrite Hq, Hr.
  cbn [swap_outcome]. rewrite (proj2 (strict_ne_string_false _ _) Hc), Hd, Ht.
  split; [reflexivity | split; reflexivity].
Qed.

Lemma executeSwap_live_success_returns_first_entry_witness :
  fst (executeSwap (constant_world two_entries None) live_service
         (demo_swap ETH USDC "1" (Some "x402_multi_1")) fresh)
  = Normal (SwapLive (VObj [("toTokenAmount", VStr "2490");
                            ("data", VStr "0x38ed1739")])
                     (VStr "0x38ed1739")).
Proof.
  pose proof (executeSwap_live_success_returns_first_entry
                (constant_world two_entries None) live_service
                (demo_swap ETH USDC "1" (Some "x402_multi_1")) fresh
                _ _ _ eq_refl eq_refl eq_refl eq_refl eq_refl eq_refl) as (H & _).
  exact H.
Defined.
